(** * Fabric Erisc Data Mover (EDM): flow control of the sender and receiver
      channels

    A shallow embedding of
    [ttnn/cpp/ttnn/operations/ccl/kernels/edm_fabric/fabric_erisc_datamover.cpp]:
    the sender channel step, the receiver channel step, the drain test and
    the main control loop, together with the properties the design
    document states about them.

    Conventions.
    - Machine integers are [Z].  Channel pointers wrap; the wrap-around is
      written out with [Z.modulo].  Stream registers hold small packet
      counts and are kept as plain [Z].
    - Everything the kernel does to the outside world (Ethernet writes, NOC
      writes, the call of [run_routing]) and every access to a stream
      register is recorded as an [Event]; a step returns the events it
      issued in program order.
    - Everything the kernel polls from the outside world inside one step
      (the Ethernet transmit queue, the NOC flush status, the capacity of
      the downstream EDM) is an argument of the step.
    - [std::array<T, 2>] is [Array2 T]; indexing outside [{0, 1}] is
      undefined in C++ and [None] here, so the steps that index by a value
      read from memory live in [option].
    - [ASSERT] is compiled out of release kernels and is not executed; the
      condition of the one assertion that matters is kept as a predicate.
    - Parameters that a function does not use, addresses and debug prints
      are left out. *)

From Stdlib Require Import ZArith List Bool Lia.
Import ListNotations.
Local Open Scope Z_scope.

(** ** Data structures, types, enums and constants *)

(** Modelled from the spec: the packet header of
    [fabric_edm_packet_header.hpp] (not part of the sources at hand).  The
    fields follow section 3 of the design document: routing fields, session
    fields, multicast hop-depth counters and the source-channel id. *)
Record PacketHeader := mkPacketHeader {
  dst_mesh_id : Z;
  dst_device_id : Z;
  forwarding_flags : Z;
  payload_size_bytes : Z;
  checksum : Z;
  command : Z;
  target_address : Z;
  mcast_hop_depth : list Z;
  src_ch_id : Z
}.

Definition set_src_ch_id (h : PacketHeader) (i : Z) : PacketHeader :=
  mkPacketHeader (dst_mesh_id h) (dst_device_id h) (forwarding_flags h)
    (payload_size_bytes h) (checksum h) (command h) (target_address h)
    (mcast_hop_depth h) i.

(** The template and compile-time arguments of the kernel, and the pieces
    of the headers it includes that are not part of the sources at hand. *)
Record FabricConfig := mkFabricConfig {
  SWITCH_INTERVAL : Z;
  SENDER_NUM_BUFFERS : Z;
  RECEIVER_NUM_BUFFERS : Z;
  enable_packet_header_recording : bool;
  enable_fabric_counters : bool;
  PTR_BITS : Z;
  header_size_bytes : Z;
  packet_must_be_consumed_locally : PacketHeader -> bool;
  packet_must_be_forwarded_to_next_chip : PacketHeader -> bool;
  open_connection_value : Z;
  close_connection_request_value : Z
}.

Definition to_receiver_pkts_sent_id : Z := 0.
Definition to_sender_0_pkts_acked_id : Z := 1.
Definition to_sender_1_pkts_acked_id : Z := 2.
Definition to_sender_0_pkts_completed_id : Z := 3.
Definition to_sender_1_pkts_completed_id : Z := 4.

Definition NUM_SENDER_CHANNELS : Z := 2.

(** [std::array<T, NUM_SENDER_CHANNELS>] *)
Record Array2 (T : Type) := mkArray2 { elt0 : T; elt1 : T }.
Arguments mkArray2 {T} _ _.
Arguments elt0 {T} _.
Arguments elt1 {T} _.

Definition array_get {T : Type} (a : Array2 T) (i : Z) : option T :=
  if i =? 0 then Some (elt0 a) else if i =? 1 then Some (elt1 a) else None.

Definition array_set {T : Type} (a : Array2 T) (i : Z) (v : T) : Array2 T :=
  if i =? 0 then mkArray2 v (elt1 a)
  else if i =? 1 then mkArray2 (elt0 a) v else a.

Definition to_sender_packets_acked_streams : Array2 Z :=
  mkArray2 to_sender_0_pkts_acked_id to_sender_1_pkts_acked_id.

Definition to_sender_packets_completed_streams : Array2 Z :=
  mkArray2 to_sender_0_pkts_completed_id to_sender_1_pkts_completed_id.

(** The stream registers of this core, by stream id. *)
Definition StreamRegs := Z -> Z.

Definition get_ptr_val (regs : StreamRegs) (stream_id : Z) : Z := regs stream_id.

(** The stream hardware adds the written value to the register. *)
Definition increment_local_update_ptr_val (regs : StreamRegs) (stream_id val : Z)
  : StreamRegs :=
  fun s => if s =? stream_id then regs s + val else regs s.

Definition init_ptr_val (regs : StreamRegs) (stream_id val : Z) : StreamRegs :=
  fun s => if s =? stream_id then val else regs s.

(** Modelled from the spec: [tt::fabric::ChannelBufferPointer] of
    [fabric_erisc_datamover_channels.hpp] (not part of the sources at
    hand).  Section 4.2 of the design document: a counter whose arithmetic
    is modulo a power of two wider than the buffer count. *)
Record ChannelBufferPointer := mkPtr { ptr : Z }.

Record OutboundReceiverChannelPointers := mkOutbound {
  wrptr : ChannelBufferPointer;
  outbound_ack_ptr : ChannelBufferPointer;
  outbound_completion_ptr : ChannelBufferPointer
}.

Record ReceiverChannelPointers := mkReceiverPointers {
  wr_sent_ptr : ChannelBufferPointer;
  wr_flush_ptr : ChannelBufferPointer;
  ack_ptr : ChannelBufferPointer;
  completion_ptr : ChannelBufferPointer
}.

Inductive SenderState :=
| SENDER_DONE
| SENDER_SIGNALING_WORKER
| SENDER_WAITING_FOR_WORKER
| SENDER_SEND_CHANNEL_SYNC
| SENDER_WAIT_WORKER_HANDSHAKE
| SENDER_WAITING_FOR_ETH.

Inductive ReceiverState :=
| RECEIVER_DONE
| RECEIVER_SENDING_PAYLOAD
| RECEIVER_WAITING_FOR_WRITE_FLUSH
| RECEIVER_WAITING_FOR_ETH.

Definition ReceiverState_eqb (a b : ReceiverState) : bool :=
  match a, b with
  | RECEIVER_DONE, RECEIVER_DONE
  | RECEIVER_SENDING_PAYLOAD, RECEIVER_SENDING_PAYLOAD
  | RECEIVER_WAITING_FOR_WRITE_FLUSH, RECEIVER_WAITING_FOR_WRITE_FLUSH
  | RECEIVER_WAITING_FOR_ETH, RECEIVER_WAITING_FOR_ETH => true
  | _, _ => false
  end.

(** [enum PacketLocalForwardType : uint8_t] *)
Definition PACKET_FORWARD_INVALID : Z := 0.
Definition PACKET_FORWARD_LOCAL_ONLY : Z := 1.
Definition PACKET_FORWARD_REMOTE_ONLY : Z := 2.
Definition PACKET_FORWARD_LOCAL_AND_REMOTE : Z := 3.

(** Modelled from the spec: [tt::fabric::TerminationSignal] (declared in a
    header that is not part of the sources at hand); section 3 gives its
    three values. *)
Inductive TerminationSignal :=
| KEEP_RUNNING
| GRACEFULLY_TERMINATE
| IMMEDIATELY_TERMINATE.

(** Modelled from the spec: [tt::fabric::EthChannelBuffer]; section 4.1:
    a ring of slots addressed by slot index, each holding one packet. *)
Record EthChannelBuffer := mkChannel { get_packet_header : Z -> PacketHeader }.

Definition set_packet_header (b : EthChannelBuffer) (i : Z) (h : PacketHeader)
  : EthChannelBuffer :=
  mkChannel (fun j => if j =? i then h else get_packet_header b j).

(** Modelled from the spec: [tt::fabric::EdmChannelWorkerInterface]; the
    three local pointers are named in the source, [remote_producer_wrptr]
    and [connection_live_semaphore] are the words the worker writes
    (sections 3 and 4.3), [edm_rdptr] is the field of the connection record
    that teardown fills in (section 4.4e). *)
Record EdmChannelWorkerInterface := mkWorkerInterface {
  local_wrptr : ChannelBufferPointer;
  local_ackptr : ChannelBufferPointer;
  local_rdptr : ChannelBufferPointer;
  remote_producer_wrptr : Z;
  connection_live_semaphore : Z;
  edm_rdptr : Z
}.

(** Modelled from the spec: [tt::fabric::WorkerToFabricEdmSender], the
    connection to the downstream EDM, seen through the one query the
    receiver makes: whether the downstream channel can take a packet now. *)
Record WorkerToFabricEdmSender := mkDownstream { edm_has_space_for_packet : bool }.

(** What a step does to the outside world and to the stream registers, in
    program order. *)
Inductive Event :=
| ev_get_ptr_val (stream_id value : Z)
| ev_increment_local_update_ptr_val (stream_id val : Z)
| ev_remote_update_ptr_val (stream_id val : Z)
| ev_eth_send_bytes (src_slot dest_slot : Z) (packet : PacketHeader) (num_bytes : Z)
| ev_validate (packet : PacketHeader)
| ev_record_packet_header (packet : PacketHeader)
| ev_update_worker_copy_of_read_ptr (value : Z)
| ev_teardown_connection (last_edm_rdptr_value : Z)
| ev_add_connection
| ev_execute_chip_unicast_to_local_chip (packet : PacketHeader)
| ev_forward_payload_to_downstream_edm (packet : PacketHeader)
| ev_eth_clear_sender_channel_ack (buffer_index : Z)
| ev_run_routing.

Definition obind {A B : Type} (c : option A) (k : A -> option B) : option B :=
  match c with Some a => k a | None => None end.

Notation "x <- c ;; k" := (obind c (fun x => k))
  (at level 61, c at next level, right associativity).
Notation "' p <- c ;; k" := (obind c (fun p => k))
  (at level 61, p pattern, c at next level, right associativity).

Section Model.
Variable cfg : FabricConfig.

(** ** Pointer tracker (section 4.2) *)

Definition ptr_wrap : Z := 2 ^ PTR_BITS cfg.

Definition get_ptr (p : ChannelBufferPointer) : Z := ptr p.

Definition increment_n (p : ChannelBufferPointer) (k : Z) : ChannelBufferPointer :=
  mkPtr ((ptr p + k) mod ptr_wrap).

Definition increment (p : ChannelBufferPointer) : ChannelBufferPointer :=
  increment_n p 1.

Definition get_buffer_index (NUM_BUFFERS : Z) (p : ChannelBufferPointer) : Z :=
  ptr p mod NUM_BUFFERS.

(** [p.distance_behind(leading)] *)
Definition distance_behind (p leading : ChannelBufferPointer) : Z :=
  (ptr leading - ptr p) mod ptr_wrap.

Definition is_caught_up_to (p leading : ChannelBufferPointer) : bool :=
  ptr p =? ptr leading.

(** ** Methods of [OutboundReceiverChannelPointers] *)

Definition has_space_for_packet (o : OutboundReceiverChannelPointers) : bool :=
  distance_behind (outbound_completion_ptr o) (wrptr o) <? RECEIVER_NUM_BUFFERS cfg.

Definition has_unacknowledged_eth_packets (o : OutboundReceiverChannelPointers) : bool :=
  negb (get_ptr (outbound_ack_ptr o) =? get_ptr (wrptr o)).

Definition has_incomplete_eth_packets (o : OutboundReceiverChannelPointers) : bool :=
  negb (get_ptr (outbound_completion_ptr o) =? get_ptr (wrptr o)).

Definition has_unacknowledged_or_incomplete_eth_packets
  (o : OutboundReceiverChannelPointers) : bool :=
  has_incomplete_eth_packets o || has_unacknowledged_eth_packets o.

(** ** Methods of [EdmChannelWorkerInterface] *)

(** Modelled from the spec: the channel has a payload it has not sent yet;
    the header comment of the kernel gives the test,
    [local_wrptr != remote_sender_wrptr]. *)
Definition has_unsent_payload (w : EdmChannelWorkerInterface) : bool :=
  negb (get_ptr (local_wrptr w) =? remote_producer_wrptr w).

(** Modelled from the spec: every packet the channel sent over the link has
    been completed by the receiver: the read pointer, which completions
    advance, has caught up with the write pointer, which sends advance. *)
Definition all_eth_packets_completed (w : EdmChannelWorkerInterface) : bool :=
  is_caught_up_to (local_rdptr w) (local_wrptr w).

(** Modelled from the spec: the liveness flag reads "connected". *)
Definition connection_is_live (w : EdmChannelWorkerInterface) : bool :=
  connection_live_semaphore w =? open_connection_value cfg.

(** Modelled from the spec: the liveness flag carries the teardown request
    of the worker. *)
Definition has_worker_teardown_request (w : EdmChannelWorkerInterface) : bool :=
  connection_live_semaphore w =? close_connection_request_value cfg.

(** Modelled from the spec: publishes the read pointer to the flow-control
    counter of the worker (sections 4.3 and 4.4c). *)
Definition update_worker_copy_of_read_ptr (w : EdmChannelWorkerInterface) : list Event :=
  [ev_update_worker_copy_of_read_ptr (get_ptr (local_rdptr w))].

(** Modelled from the spec: writes the read pointer to the connection
    record (section 4.4e). *)
Definition teardown_connection (w : EdmChannelWorkerInterface) (last_edm_rdptr_value : Z)
  : EdmChannelWorkerInterface * list Event :=
  (mkWorkerInterface (local_wrptr w) (local_ackptr w) (local_rdptr w)
     (remote_producer_wrptr w) (connection_live_semaphore w) last_edm_rdptr_value,
   [ev_teardown_connection last_edm_rdptr_value]).

Definition with_local_wrptr (w : EdmChannelWorkerInterface) (p : ChannelBufferPointer)
  : EdmChannelWorkerInterface :=
  mkWorkerInterface p (local_ackptr w) (local_rdptr w)
    (remote_producer_wrptr w) (connection_live_semaphore w) (edm_rdptr w).

Definition with_local_ackptr (w : EdmChannelWorkerInterface) (p : ChannelBufferPointer)
  : EdmChannelWorkerInterface :=
  mkWorkerInterface (local_wrptr w) p (local_rdptr w)
    (remote_producer_wrptr w) (connection_live_semaphore w) (edm_rdptr w).

Definition with_local_rdptr (w : EdmChannelWorkerInterface) (p : ChannelBufferPointer)
  : EdmChannelWorkerInterface :=
  mkWorkerInterface (local_wrptr w) (local_ackptr w) p
    (remote_producer_wrptr w) (connection_live_semaphore w) (edm_rdptr w).

(** Modelled from the spec: the payload size field counts the payload; the
    header is sent with it. *)
Definition get_payload_size_including_header (h : PacketHeader) : Z :=
  payload_size_bytes h + header_size_bytes cfg.

(** ** Sender side helpers *)

(** [remote_update_ptr_val]: an Ethernet register write; the stream
    hardware of the other side adds [val] to its register [stream_id]. *)
Definition remote_update_ptr_val (stream_id val : Z) : list Event :=
  [ev_remote_update_ptr_val stream_id val].

(** [send_next_data]: the objects it takes by reference come back
    updated. *)
Definition send_next_data
  (sender_buffer_channel : EthChannelBuffer)
  (sender_worker_interface : EdmChannelWorkerInterface)
  (outbound_to_receiver_channel_pointers : OutboundReceiverChannelPointers)
  (sender_channel_index : Z)
  : EthChannelBuffer * EdmChannelWorkerInterface * OutboundReceiverChannelPointers
    * list Event :=
  let remote_receiver_wrptr := wrptr outbound_to_receiver_channel_pointers in
  let local_sender_wrptr := local_wrptr sender_worker_interface in
  let local_sender_wrptr_buffer_index :=
    get_buffer_index (SENDER_NUM_BUFFERS cfg) local_sender_wrptr in
  let pkt_header := get_packet_header sender_buffer_channel local_sender_wrptr_buffer_index in
  let payload_size := get_payload_size_including_header pkt_header in
  (* pkt_header->src_ch_id = sender_channel_index; *)
  let sender_buffer_channel' :=
    set_packet_header sender_buffer_channel local_sender_wrptr_buffer_index
      (set_src_ch_id pkt_header sender_channel_index) in
  let send :=
    ev_eth_send_bytes local_sender_wrptr_buffer_index
      (get_buffer_index (RECEIVER_NUM_BUFFERS cfg) remote_receiver_wrptr)
      (get_packet_header sender_buffer_channel' local_sender_wrptr_buffer_index)
      payload_size in
  let words_to_forward := 1 in
  (sender_buffer_channel',
   with_local_wrptr sender_worker_interface (increment local_sender_wrptr),
   mkOutbound (increment remote_receiver_wrptr)
     (outbound_ack_ptr outbound_to_receiver_channel_pointers)
     (outbound_completion_ptr outbound_to_receiver_channel_pointers),
   [send] ++ remote_update_ptr_val to_receiver_pkts_sent_id words_to_forward).

(** ** Receiver side helpers *)

(** [receiver_send_received_ack]: acknowledges the packet in the slot of
    [receiver_channel_ptr] to the sender channel named in its header. *)
Definition receiver_send_received_ack
  (receiver_channel_ptr : ChannelBufferPointer)
  (local_receiver_buffer_channel : EthChannelBuffer) : option (list Event) :=
  let receiver_buffer_index :=
    get_buffer_index (RECEIVER_NUM_BUFFERS cfg) receiver_channel_ptr in
  let pkt_header := get_packet_header local_receiver_buffer_channel receiver_buffer_index in
  let src_id := src_ch_id pkt_header in
  stream <- array_get to_sender_packets_acked_streams src_id ;;
  Some (remote_update_ptr_val stream 1).

(** [receiver_send_completion_ack] *)
Definition receiver_send_completion_ack
  (remote_eth_sender_completion_ptrs : Array2 ChannelBufferPointer)
  (receiver_channel_ptr : ChannelBufferPointer)
  (local_receiver_buffer_channel : EthChannelBuffer)
  : option (Array2 ChannelBufferPointer * ChannelBufferPointer * list Event) :=
  let receiver_buffer_index :=
    get_buffer_index (RECEIVER_NUM_BUFFERS cfg) receiver_channel_ptr in
  let pkt_header := get_packet_header local_receiver_buffer_channel receiver_buffer_index in
  let src_id := src_ch_id pkt_header in
  stream <- array_get to_sender_packets_completed_streams src_id ;;
  remote_sender_completion_ptr <- array_get remote_eth_sender_completion_ptrs src_id ;;
  Some (array_set remote_eth_sender_completion_ptrs src_id
          (increment remote_sender_completion_ptr),
        increment receiver_channel_ptr,
        remote_update_ptr_val stream 1).

(** [packet_needs_forwarding << 1 | local_chip_is_packet_destination] *)
Definition get_packet_local_forward_type (packet_header : PacketHeader) : Z :=
  let local_chip_is_packet_destination := packet_must_be_consumed_locally cfg packet_header in
  let packet_needs_forwarding := packet_must_be_forwarded_to_next_chip cfg packet_header in
  Z.lor (Z.shiftl (Z.b2z packet_needs_forwarding) 1)
        (Z.b2z local_chip_is_packet_destination).

Definition can_forward_packet_completely
  (packet_header : PacketHeader) (downstream_edm_interface : WorkerToFabricEdmSender)
  : bool :=
  let forward_status := get_packet_local_forward_type packet_header in
  if forward_status =? PACKET_FORWARD_INVALID then false
  else if forward_status =? PACKET_FORWARD_LOCAL_ONLY then true
  else if (forward_status =? PACKET_FORWARD_REMOTE_ONLY)
          || (forward_status =? PACKET_FORWARD_LOCAL_AND_REMOTE)
  then edm_has_space_for_packet downstream_edm_interface
  else false.

Definition receiver_forward_packet (packet_start : PacketHeader) : list Event :=
  let forward_status := get_packet_local_forward_type packet_start in
  if forward_status =? PACKET_FORWARD_LOCAL_ONLY then
    [ev_execute_chip_unicast_to_local_chip packet_start]
  else if forward_status =? PACKET_FORWARD_REMOTE_ONLY then
    [ev_forward_payload_to_downstream_edm packet_start]
  else if forward_status =? PACKET_FORWARD_LOCAL_AND_REMOTE then
    [ev_execute_chip_unicast_to_local_chip packet_start;
     ev_forward_payload_to_downstream_edm packet_start]
  else [].

(** ** Sender channel step *)

(** The objects [run_sender_channel_step] takes by reference, and the
    stream registers of the core. *)
Record SenderChannelRefs := mkSenderRefs {
  ref_local_sender_channel : EthChannelBuffer;
  ref_worker_interface : EdmChannelWorkerInterface;
  ref_outbound : OutboundReceiverChannelPointers;
  ref_connection_established : bool;
  ref_sender_regs : StreamRegs
}.

(** Lines 611-632: send one packet if the receiver has space, the link is
    idle and the channel holds an unsent packet that is not backpressured.
    The boolean is [did_something]. *)
Definition sender_step_send (eth_txq_is_busy : bool) (sender_channel_index : Z)
  (s : SenderChannelRefs) : bool * SenderChannelRefs * list Event :=
  let local_sender_channel_worker_interface := ref_worker_interface s in
  let receiver_has_space_for_packet := has_space_for_packet (ref_outbound s) in
  if receiver_has_space_for_packet && negb eth_txq_is_busy then
    let has_unsent_packet := has_unsent_payload local_sender_channel_worker_interface in
    if has_unsent_packet then
      let sender_backpressured_from_sender_side :=
        negb (distance_behind (local_rdptr local_sender_channel_worker_interface)
                              (local_wrptr local_sender_channel_worker_interface)
              <? SENDER_NUM_BUFFERS cfg) in
      if negb sender_backpressured_from_sender_side then
        let packet_header :=
          get_packet_header (ref_local_sender_channel s)
            (get_buffer_index (SENDER_NUM_BUFFERS cfg)
               (local_wrptr local_sender_channel_worker_interface)) in
        let recorded :=
          if enable_packet_header_recording cfg
          then [ev_validate packet_header; ev_record_packet_header packet_header]
          else [] in
        let '(channel', interface', outbound', sent) :=
          send_next_data (ref_local_sender_channel s)
            local_sender_channel_worker_interface (ref_outbound s)
            sender_channel_index in
        (true,
         mkSenderRefs channel' interface' outbound'
           (ref_connection_established s) (ref_sender_regs s),
         recorded ++ sent)
      else (false, s, [])
    else (false, s, [])
  else (false, s, []).

(** Lines 634-641: process completions from the receiver.  The integer is
    [completions_since_last_check]. *)
Definition sender_step_completions (completed_stream : Z) (s : SenderChannelRefs)
  : Z * SenderChannelRefs * list Event :=
  let completions_since_last_check := get_ptr_val (ref_sender_regs s) completed_stream in
  let read := ev_get_ptr_val completed_stream completions_since_last_check in
  if 0 <? completions_since_last_check then
    let o := ref_outbound s in
    let w := ref_worker_interface s in
    (completions_since_last_check,
     mkSenderRefs (ref_local_sender_channel s)
       (with_local_rdptr w (increment_n (local_rdptr w) completions_since_last_check))
       (mkOutbound (wrptr o) (outbound_ack_ptr o)
          (increment_n (outbound_completion_ptr o) completions_since_last_check))
       (ref_connection_established s)
       (increment_local_update_ptr_val (ref_sender_regs s) completed_stream
          (- completions_since_last_check)),
     [read;
      ev_increment_local_update_ptr_val completed_stream (- completions_since_last_check)])
  else (completions_since_last_check, s, [read]).

(** Lines 643-655: process acks from the receiver.  The integer is
    [acks_since_last_check]. *)
Definition sender_step_acks (acked_stream : Z) (s : SenderChannelRefs)
  : Z * SenderChannelRefs * list Event :=
  let acks_since_last_check := get_ptr_val (ref_sender_regs s) acked_stream in
  let read := ev_get_ptr_val acked_stream acks_since_last_check in
  if 0 <? acks_since_last_check then
    let w := ref_worker_interface s in
    let w' := with_local_ackptr w (increment_n (local_ackptr w) acks_since_last_check) in
    let published :=
      if ref_connection_established s then update_worker_copy_of_read_ptr w' else [] in
    (acks_since_last_check,
     mkSenderRefs (ref_local_sender_channel s) w' (ref_outbound s)
       (ref_connection_established s)
       (increment_local_update_ptr_val (ref_sender_regs s) acked_stream
          (- acks_since_last_check)),
     [read] ++ published
       ++ [ev_increment_local_update_ptr_val acked_stream (- acks_since_last_check)])
  else (acks_since_last_check, s, [read]).

(** Lines 659-683: observe a connect or a teardown request of the worker.
    The boolean is whether the block set [did_something]. *)
Definition sender_step_connection (s : SenderChannelRefs)
  : bool * SenderChannelRefs * list Event :=
  let w := ref_worker_interface s in
  if negb (ref_connection_established s) then
    let connect_requested := connection_is_live w || has_worker_teardown_request w in
    if connect_requested then
      (true,
       mkSenderRefs (ref_local_sender_channel s) w (ref_outbound s) true (ref_sender_regs s),
       (if enable_fabric_counters cfg then [ev_add_connection] else [])
         ++ update_worker_copy_of_read_ptr w)
    else (false, s, [])
  else if has_worker_teardown_request w then
    let '(w', evs) := teardown_connection w (get_ptr (local_rdptr w)) in
    (true,
     mkSenderRefs (ref_local_sender_channel s) w' (ref_outbound s) false (ref_sender_regs s),
     evs)
  else (false, s, []).

(** Stream register writes of the other side of the link that land while
    a step is running. *)
Definition land_remote_increments (late : StreamRegs) (s : SenderChannelRefs)
  : SenderChannelRefs :=
  mkSenderRefs (ref_local_sender_channel s) (ref_worker_interface s) (ref_outbound s)
    (ref_connection_established s)
    (fun stream_id => ref_sender_regs s stream_id + late stream_id).

(** [run_sender_channel_step].  The two stream ids are looked up first: an
    index outside the arrays makes the whole step undefined, wherever in
    the step the lookup stands.  The stream registers are written by the
    other side of the link at any time; [late] is what it adds to them
    between the read of the completion counter (line 635) and the read of
    the ack counter (line 646). *)
Definition run_sender_channel_step (eth_txq_is_busy : bool) (late : StreamRegs)
  (sender_channel_index : Z) (s : SenderChannelRefs)
  : option (bool * SenderChannelRefs * list Event) :=
  completed_stream <- array_get to_sender_packets_completed_streams sender_channel_index ;;
  acked_stream <- array_get to_sender_packets_acked_streams sender_channel_index ;;
  let '(did_send, s1, evs1) := sender_step_send eth_txq_is_busy sender_channel_index s in
  let '(completions_since_last_check, s2, evs2) := sender_step_completions completed_stream s1 in
  let '(acks_since_last_check, s3, evs3) :=
    sender_step_acks acked_stream (land_remote_increments late s2) in
  let did_something :=
    did_send || (0 <? completions_since_last_check + acks_since_last_check) in
  let '(did_connection, s4, evs4) := sender_step_connection s3 in
  Some (did_something || did_connection, s4, evs1 ++ evs2 ++ evs3 ++ evs4).

(** ** Receiver channel step *)

Record ReceiverChannelRefs := mkReceiverRefs {
  ref_local_receiver_channel : EthChannelBuffer;
  ref_remote_eth_sender_wrptrs : Array2 ChannelBufferPointer;
  ref_receiver_channel_pointers : ReceiverChannelPointers;
  ref_receiver_state : ReceiverState;
  ref_receiver_regs : StreamRegs
}.

(** What the receiver step polls: the Ethernet transmit queue on line 702
    and again on line 743, and the NOC on line 732. *)
Record ReceiverPolls := mkReceiverPolls {
  eth_txq_is_busy_at_ack : bool;
  ncrisc_noc_nonposted_writes_sent : bool;
  eth_txq_is_busy_at_completion : bool
}.

Definition with_receiver_pointers (r : ReceiverChannelRefs) (p : ReceiverChannelPointers)
  : ReceiverChannelRefs :=
  mkReceiverRefs (ref_local_receiver_channel r) (ref_remote_eth_sender_wrptrs r) p
    (ref_receiver_state r) (ref_receiver_regs r).


(** Lines 699-713: acknowledge one newly arrived packet. *)
Definition receiver_step_ack (hw : ReceiverPolls) (r : ReceiverChannelRefs)
  : option (ReceiverChannelRefs * list Event) :=
  let p := ref_receiver_channel_pointers r in
  let pkts_received_since_last_check :=
    get_ptr_val (ref_receiver_regs r) to_receiver_pkts_sent_id in
  let read := ev_get_ptr_val to_receiver_pkts_sent_id pkts_received_since_last_check in
  let pkts_received := 0 <? pkts_received_since_last_check in
  let can_send_over_eth := negb (eth_txq_is_busy_at_ack hw) in
  if pkts_received && can_send_over_eth then
    acked <- receiver_send_received_ack (ack_ptr p) (ref_local_receiver_channel r) ;;
    Some (mkReceiverRefs (ref_local_receiver_channel r) (ref_remote_eth_sender_wrptrs r)
            (mkReceiverPointers (wr_sent_ptr p) (wr_flush_ptr p)
               (increment (ack_ptr p)) (completion_ptr p))
            (ref_receiver_state r)
            (increment_local_update_ptr_val (ref_receiver_regs r)
               to_receiver_pkts_sent_id (-1)),
          [read; ev_increment_local_update_ptr_val to_receiver_pkts_sent_id (-1)] ++ acked)
  else Some (r, [read]).

(** Lines 715-727: forward the packet in the write-sent slot if it can be
    forwarded completely. *)
Definition receiver_step_forward (downstream_edm_interface : WorkerToFabricEdmSender)
  (r : ReceiverChannelRefs) : ReceiverChannelRefs * list Event :=
  let p := ref_receiver_channel_pointers r in
  let unwritten_packets := negb (is_caught_up_to (wr_sent_ptr p) (ack_ptr p)) in
  if unwritten_packets then
    let receiver_buffer_index := get_buffer_index (RECEIVER_NUM_BUFFERS cfg) (wr_sent_ptr p) in
    let packet_header := get_packet_header (ref_local_receiver_channel r) receiver_buffer_index in
    let can_send_to_all_local_chip_receivers :=
      can_forward_packet_completely packet_header downstream_edm_interface in
    if can_send_to_all_local_chip_receivers then
      (with_receiver_pointers r
         (mkReceiverPointers (increment (wr_sent_ptr p)) (wr_flush_ptr p)
            (ack_ptr p) (completion_ptr p)),
       receiver_forward_packet packet_header)
    else (r, [])
  else (r, []).

(** Lines 729-738: retire one flushed write. *)
Definition receiver_step_flush (hw : ReceiverPolls) (r : ReceiverChannelRefs)
  : ReceiverChannelRefs * list Event :=
  let p := ref_receiver_channel_pointers r in
  let unflushed_writes := negb (is_caught_up_to (wr_flush_ptr p) (wr_sent_ptr p)) in
  if unflushed_writes then
    let writes_flushed := ncrisc_noc_nonposted_writes_sent hw in
    if writes_flushed then
      let receiver_buffer_index := get_buffer_index (RECEIVER_NUM_BUFFERS cfg) (wr_flush_ptr p) in
      (with_receiver_pointers r
         (mkReceiverPointers (wr_sent_ptr p) (increment (wr_flush_ptr p))
            (ack_ptr p) (completion_ptr p)),
       [ev_eth_clear_sender_channel_ack receiver_buffer_index])
    else (r, [])
  else (r, []).

(** Lines 740-752: send one completion acknowledgement. *)
Definition receiver_step_completion (hw : ReceiverPolls) (r : ReceiverChannelRefs)
  : option (ReceiverChannelRefs * list Event) :=
  let p := ref_receiver_channel_pointers r in
  let unsent_completions := negb (is_caught_up_to (completion_ptr p) (wr_flush_ptr p)) in
  if unsent_completions then
    let can_send_without_blocking := negb (eth_txq_is_busy_at_completion hw) in
    if can_send_without_blocking then
      '(wrptrs', completion', evs) <-
        receiver_send_completion_ack (ref_remote_eth_sender_wrptrs r)
          (completion_ptr p) (ref_local_receiver_channel r) ;;
      Some (mkReceiverRefs (ref_local_receiver_channel r) wrptrs'
              (mkReceiverPointers (wr_sent_ptr p) (wr_flush_ptr p) (ack_ptr p) completion')
              (ref_receiver_state r) (ref_receiver_regs r),
            evs)
    else Some (r, [])
  else Some (r, []).

(** [run_receiver_channel_step]; [receiver_state_out] is never written. *)
Definition run_receiver_channel_step (downstream_edm_interface : WorkerToFabricEdmSender)
  (hw : ReceiverPolls) (r : ReceiverChannelRefs)
  : option (ReceiverChannelRefs * list Event) :=
  '(r1, evs1) <- receiver_step_ack hw r ;;
  let '(r2, evs2) := receiver_step_forward downstream_edm_interface r1 in
  let '(r3, evs3) := receiver_step_flush hw r2 in
  '(r4, evs4) <- receiver_step_completion hw r3 ;;
  Some (r4, evs1 ++ evs2 ++ evs3 ++ evs4).

(** ** Termination signal and drain test *)

Definition got_immediate_termination_signal (termination_signal : TerminationSignal) : bool :=
  match termination_signal with IMMEDIATELY_TERMINATE => true | _ => false end.

Definition got_graceful_termination_signal (termination_signal : TerminationSignal) : bool :=
  match termination_signal with GRACEFULLY_TERMINATE => true | _ => false end.

Definition got_termination_signal (termination_signal : TerminationSignal) : bool :=
  got_immediate_termination_signal termination_signal
  || got_graceful_termination_signal termination_signal.

Definition all_channels_drained
  (local_sender_channel_worker_interfaces : Array2 EdmChannelWorkerInterface)
  (receiver_channel_pointers : ReceiverChannelPointers)
  (regs : StreamRegs) : bool :=
  let eth_buffers_drained :=
    all_eth_packets_completed (elt0 local_sender_channel_worker_interfaces)
    && all_eth_packets_completed (elt1 local_sender_channel_worker_interfaces)
    && negb (has_unsent_payload (elt0 local_sender_channel_worker_interfaces))
    && negb (has_unsent_payload (elt1 local_sender_channel_worker_interfaces))
    && is_caught_up_to (completion_ptr receiver_channel_pointers)
                       (ack_ptr receiver_channel_pointers)
    && (get_ptr_val regs to_receiver_pkts_sent_id =? 0)
    && (get_ptr_val regs to_sender_0_pkts_acked_id =? 0)
    && (get_ptr_val regs to_sender_1_pkts_acked_id =? 0)
    && (get_ptr_val regs to_sender_0_pkts_completed_id =? 0)
    && (get_ptr_val regs to_sender_1_pkts_completed_id =? 0) in
  eth_buffers_drained.

(** ** Main control loop *)

(** The memory the kernel works on and the local variables of
    [run_fabric_edm_main_loop]. *)
Record EdmState := mkEdmState {
  termination_signal : TerminationSignal;
  stream_regs : StreamRegs;
  local_sender_channels : Array2 EthChannelBuffer;
  local_sender_channel_worker_interfaces : Array2 EdmChannelWorkerInterface;
  local_receiver_channel : EthChannelBuffer;
  sender_states : Array2 SenderState;
  receiver_state : ReceiverState;
  sender_channel_index : Z;
  did_nothing_count : Z;
  remote_eth_sender_wrptrs : Array2 ChannelBufferPointer;
  outbound_to_receiver_channel_pointers : OutboundReceiverChannelPointers;
  receiver_channel_pointers : ReceiverChannelPointers;
  channel_connection_established : Array2 bool
}.

(** What a worker writes into the memory of its sender channel. *)
Record WorkerWrites := mkWorkerWrites {
  write_producer_wrptr : option Z;
  write_connection_semaphore : option Z;
  write_packets : list (Z * PacketHeader)
}.

(** What the rest of the system wrote into the memory of this core since
    the loop last looked: the controller into the termination signal, the
    other side of the link into the stream registers and the receiver
    channel, the workers into the sender channels. *)
Record Outside := mkOutside {
  controller_write : option TerminationSignal;
  remote_reg_increments : StreamRegs;
  worker_writes : Array2 WorkerWrites;
  link_writes : list (Z * PacketHeader)
}.

(** One iteration's view of the outside world. *)
Record IterationInput := mkIterationInput {
  outside : Outside;
  sender_eth_txq_is_busy : bool;
  late_remote_reg_increments : StreamRegs;
  downstream_edm_noc_interface : WorkerToFabricEdmSender;
  receiver_polls : ReceiverPolls
}.

Definition write_slots (b : EthChannelBuffer) (ws : list (Z * PacketHeader))
  : EthChannelBuffer :=
  fold_left (fun b' w => set_packet_header b' (fst w) (snd w)) ws b.

Definition apply_worker_writes (ww : WorkerWrites) (w : EdmChannelWorkerInterface)
  : EdmChannelWorkerInterface :=
  mkWorkerInterface (local_wrptr w) (local_ackptr w) (local_rdptr w)
    (match write_producer_wrptr ww with Some v => v | None => remote_producer_wrptr w end)
    (match write_connection_semaphore ww with Some v => v | None => connection_live_semaphore w end)
    (edm_rdptr w).

Definition apply_outside (o : Outside) (st : EdmState) : EdmState :=
  mkEdmState
    (match controller_write o with Some v => v | None => termination_signal st end)
    (fun s => stream_regs st s + remote_reg_increments o s)
    (mkArray2
       (write_slots (elt0 (local_sender_channels st)) (write_packets (elt0 (worker_writes o))))
       (write_slots (elt1 (local_sender_channels st)) (write_packets (elt1 (worker_writes o)))))
    (mkArray2
       (apply_worker_writes (elt0 (worker_writes o))
          (elt0 (local_sender_channel_worker_interfaces st)))
       (apply_worker_writes (elt1 (worker_writes o))
          (elt1 (local_sender_channel_worker_interfaces st))))
    (write_slots (local_receiver_channel st) (link_writes o))
    (sender_states st) (receiver_state st) (sender_channel_index st)
    (did_nothing_count st) (remote_eth_sender_wrptrs st)
    (outbound_to_receiver_channel_pointers st) (receiver_channel_pointers st)
    (channel_connection_established st).

(** The references the loop hands to the sender step (lines 844-852). *)
Definition load_sender_refs (st : EdmState) : option SenderChannelRefs :=
  let i := sender_channel_index st in
  channel <- array_get (local_sender_channels st) i ;;
  interface <- array_get (local_sender_channel_worker_interfaces st) i ;;
  established <- array_get (channel_connection_established st) i ;;
  Some (mkSenderRefs channel interface (outbound_to_receiver_channel_pointers st)
          established (stream_regs st)).

Definition store_sender_refs (st : EdmState) (s : SenderChannelRefs) : EdmState :=
  let i := sender_channel_index st in
  mkEdmState (termination_signal st) (ref_sender_regs s)
    (array_set (local_sender_channels st) i (ref_local_sender_channel s))
    (array_set (local_sender_channel_worker_interfaces st) i (ref_worker_interface s))
    (local_receiver_channel st) (sender_states st) (receiver_state st)
    (sender_channel_index st) (did_nothing_count st) (remote_eth_sender_wrptrs st)
    (ref_outbound s) (receiver_channel_pointers st)
    (array_set (channel_connection_established st) i (ref_connection_established s)).

Definition with_sender_channel_index (st : EdmState) (i : Z) : EdmState :=
  mkEdmState (termination_signal st) (stream_regs st) (local_sender_channels st)
    (local_sender_channel_worker_interfaces st) (local_receiver_channel st)
    (sender_states st) (receiver_state st) i (did_nothing_count st)
    (remote_eth_sender_wrptrs st) (outbound_to_receiver_channel_pointers st)
    (receiver_channel_pointers st) (channel_connection_established st).

Definition with_did_nothing_count (st : EdmState) (n : Z) : EdmState :=
  mkEdmState (termination_signal st) (stream_regs st) (local_sender_channels st)
    (local_sender_channel_worker_interfaces st) (local_receiver_channel st)
    (sender_states st) (receiver_state st) (sender_channel_index st) n
    (remote_eth_sender_wrptrs st) (outbound_to_receiver_channel_pointers st)
    (receiver_channel_pointers st) (channel_connection_established st).

(** The references the loop hands to the receiver step (lines 856-860). *)
Definition load_receiver_refs (st : EdmState) : ReceiverChannelRefs :=
  mkReceiverRefs (local_receiver_channel st) (remote_eth_sender_wrptrs st)
    (receiver_channel_pointers st) (receiver_state st) (stream_regs st).

Definition store_receiver_refs (st : EdmState) (r : ReceiverChannelRefs) : EdmState :=
  mkEdmState (termination_signal st) (ref_receiver_regs r) (local_sender_channels st)
    (local_sender_channel_worker_interfaces st) (ref_local_receiver_channel r)
    (sender_states st) (ref_receiver_state r) (sender_channel_index st)
    (did_nothing_count st) (ref_remote_eth_sender_wrptrs r)
    (outbound_to_receiver_channel_pointers st) (ref_receiver_channel_pointers r)
    (channel_connection_established st).

(** Lines 862-871: the idle count, and the yield to [run_routing]. *)
Definition update_did_nothing_count (did_something : bool) (st : EdmState)
  : EdmState * list Event :=
  if did_something then (with_did_nothing_count st 0, [])
  else if SWITCH_INTERVAL cfg <? did_nothing_count st
       then (with_did_nothing_count st 0, [ev_run_routing])
       else (with_did_nothing_count st (did_nothing_count st + 1), []).

Inductive IterationResult :=
| loop_return
| loop_continue (st : EdmState) (evs : list Event).

(** The servicing part of one iteration (lines 839-871). *)
Definition service_channels (input : IterationInput) (st : EdmState)
  : option (EdmState * list Event) :=
  let old_recv_state := receiver_state st in
  refs <- load_sender_refs st ;;
  '(did_something_sender, refs', evs1) <-
    run_sender_channel_step (sender_eth_txq_is_busy input)
      (late_remote_reg_increments input) (sender_channel_index st) refs ;;
  let st1 := store_sender_refs st refs' in
  let st2 := with_sender_channel_index st1 (1 - sender_channel_index st1) in
  '(rrefs', evs2) <-
    run_receiver_channel_step (downstream_edm_noc_interface input) (receiver_polls input)
      (load_receiver_refs st2) ;;
  let st3 := store_receiver_refs st2 rrefs' in
  let did_something :=
    did_something_sender || negb (ReceiverState_eqb old_recv_state (receiver_state st3)) in
  let '(st4, evs3) := update_did_nothing_count did_something st3 in
  Some (st4, evs1 ++ evs2 ++ evs3).

(** One pass through the [while] of [run_fabric_edm_main_loop], from the
    test of its condition (line 827) to the end of its body (line 872). *)
Definition main_loop_iteration (input : IterationInput) (st : EdmState)
  : option IterationResult :=
  if got_immediate_termination_signal (termination_signal st) then Some loop_return
  else
    let got_graceful_termination := got_graceful_termination_signal (termination_signal st) in
    if got_graceful_termination
       && all_channels_drained (local_sender_channel_worker_interfaces st)
            (receiver_channel_pointers st) (stream_regs st)
    then Some loop_return
    else
      '(st', evs) <- service_channels input st ;;
      Some (loop_continue st' evs).

Inductive LoopResult :=
| Returned (st : EdmState) (evs : list Event)
| StillRunning (st : EdmState) (evs : list Event)
| Undefined.

(** The loop, run for as many polls as there are inputs; before each poll
    the outside world writes what the input says. *)
Fixpoint main_loop (inputs : list IterationInput) (st : EdmState) (done : list Event)
  : LoopResult :=
  match inputs with
  | [] => StillRunning st done
  | input :: rest =>
      let st0 := apply_outside (outside input) st in
      match main_loop_iteration input st0 with
      | None => Undefined
      | Some loop_return => Returned st0 done
      | Some (loop_continue st' evs) => main_loop rest st' (done ++ evs)
      end
  end.

(** Lines 808-825: the local variables of the loop, and the overwrite of
    the termination signal. *)
Definition main_loop_entry (st : EdmState) : EdmState :=
  mkEdmState KEEP_RUNNING (stream_regs st) (local_sender_channels st)
    (local_sender_channel_worker_interfaces st) (local_receiver_channel st)
    (mkArray2 SENDER_WAIT_WORKER_HANDSHAKE SENDER_WAIT_WORKER_HANDSHAKE)
    RECEIVER_WAITING_FOR_ETH 0 0
    (mkArray2 (mkPtr 0) (mkPtr 0))
    (mkOutbound (mkPtr 0) (mkPtr 0) (mkPtr 0))
    (mkReceiverPointers (mkPtr 0) (mkPtr 0) (mkPtr 0) (mkPtr 0))
    (mkArray2 false false).

Definition run_fabric_edm_main_loop (inputs : list IterationInput) (st : EdmState)
  : LoopResult :=
  main_loop inputs (main_loop_entry st) [].

End Model.

(** ** Observations on event traces *)

Definition is_forward_event (e : Event) : bool :=
  match e with
  | ev_execute_chip_unicast_to_local_chip _ => true
  | ev_forward_payload_to_downstream_edm _ => true
  | _ => false
  end.

Definition is_eth_send (e : Event) : bool :=
  match e with ev_eth_send_bytes _ _ _ _ => true | _ => false end.

(** What a trace adds to stream register [stream_id] of the other side of
    the link. *)
Fixpoint remote_increment (stream_id : Z) (evs : list Event) : Z :=
  match evs with
  | [] => 0
  | ev_remote_update_ptr_val s v :: rest =>
      (if s =? stream_id then v else 0) + remote_increment stream_id rest
  | _ :: rest => remote_increment stream_id rest
  end.

(** The values a trace read from stream register [stream_id], in order. *)
Fixpoint reads_of (stream_id : Z) (evs : list Event) : list Z :=
  match evs with
  | [] => []
  | ev_get_ptr_val s v :: rest =>
      if s =? stream_id then v :: reads_of stream_id rest else reads_of stream_id rest
  | _ :: rest => reads_of stream_id rest
  end.

Definition is_run_routing (e : Event) : bool :=
  match e with ev_run_routing => true | _ => false end.

(** The packet the receiver finds in the slot of a pointer. *)
Definition packet_at (cfg : FabricConfig) (b : EthChannelBuffer) (p : ChannelBufferPointer)
  : PacketHeader :=
  get_packet_header b (get_buffer_index (RECEIVER_NUM_BUFFERS cfg) p).

Definition valid_src_ch_id (h : PacketHeader) : bool :=
  (0 <=? src_ch_id h) && (src_ch_id h <? NUM_SENDER_CHANNELS).

(** The headers the receiver step may index the stream arrays with carry a
    source channel id inside the arrays. *)
Definition receiver_src_ids_valid (cfg : FabricConfig) (r : ReceiverChannelRefs) : bool :=
  valid_src_ch_id
    (packet_at cfg (ref_local_receiver_channel r) (ack_ptr (ref_receiver_channel_pointers r)))
  && valid_src_ch_id
       (packet_at cfg (ref_local_receiver_channel r)
          (completion_ptr (ref_receiver_channel_pointers r))).

(** ** Pointer orderings *)

Definition in_range (cfg : FabricConfig) (p : ChannelBufferPointer) : Prop :=
  0 <= ptr p < ptr_wrap cfg.

(** The receiver's pointers in trailing order: measured from the
    completion pointer, the flush pointer is no further than the sent
    pointer, which is no further than the ack pointer. *)
Definition receiver_ordered (cfg : FabricConfig) (p : ReceiverChannelPointers) : Prop :=
  (in_range cfg (completion_ptr p) /\ in_range cfg (wr_flush_ptr p)
   /\ in_range cfg (wr_sent_ptr p) /\ in_range cfg (ack_ptr p))
  /\ distance_behind cfg (completion_ptr p) (wr_flush_ptr p)
     <= distance_behind cfg (completion_ptr p) (wr_sent_ptr p)
  /\ distance_behind cfg (completion_ptr p) (wr_sent_ptr p)
     <= distance_behind cfg (completion_ptr p) (ack_ptr p).



(** ** A configuration and states to run the model on *)

Definition example_config : FabricConfig :=
  mkFabricConfig 0 4 4 false false 8 32
    (fun h => dst_device_id h =? 1)
    (fun h => 1 <? dst_device_id h)
    1 2.

(** A packet [hops] hops from its destination, as a worker wrote it. *)
Definition example_packet (hops src : Z) : PacketHeader :=
  mkPacketHeader 0 hops 0 64 0 0 4096 [0; 0; 0; 0] src.

Definition empty_channel : EthChannelBuffer := mkChannel (fun _ => example_packet 0 0).

Definition zero_regs : StreamRegs := fun _ => 0.

Definition idle_interface : EdmChannelWorkerInterface :=
  mkWorkerInterface (mkPtr 0) (mkPtr 0) (mkPtr 0) 0 0 0.

Definition idle_polls : ReceiverPolls := mkReceiverPolls false true false.

Definition no_worker_writes : WorkerWrites := mkWorkerWrites None None [].

Definition quiet_outside : Outside :=
  mkOutside None zero_regs (mkArray2 no_worker_writes no_worker_writes) [].

(** The memory as [kernel_main] leaves it before it enters the loop. *)
Definition fresh_memory (signal : TerminationSignal) : EdmState :=
  mkEdmState signal zero_regs (mkArray2 empty_channel empty_channel)
    (mkArray2 idle_interface idle_interface) empty_channel
    (mkArray2 SENDER_DONE SENDER_DONE) RECEIVER_DONE 0 0
    (mkArray2 (mkPtr 0) (mkPtr 0))
    (mkOutbound (mkPtr 0) (mkPtr 0) (mkPtr 0))
    (mkReceiverPointers (mkPtr 0) (mkPtr 0) (mkPtr 0) (mkPtr 0))
    (mkArray2 false false).

(** ** Conditions and observations used in the statements *)

(** The condition under which the sender step sends (lines 611-616). *)
Definition send_condition (cfg : FabricConfig) (eth_txq_is_busy : bool)
  (s : SenderChannelRefs) : bool :=
  has_space_for_packet cfg (ref_outbound s)
  && negb eth_txq_is_busy
  && has_unsent_payload (ref_worker_interface s)
  && (distance_behind cfg (local_rdptr (ref_worker_interface s))
        (local_wrptr (ref_worker_interface s))
      <? SENDER_NUM_BUFFERS cfg).

(** Whether the connection block changes the connection state. *)
Definition connection_changes (cfg : FabricConfig) (s : SenderChannelRefs) : bool :=
  if ref_connection_established s
  then has_worker_teardown_request cfg (ref_worker_interface s)
  else connection_is_live cfg (ref_worker_interface s)
       || has_worker_teardown_request cfg (ref_worker_interface s).

Definition edm_state_defined (cfg : FabricConfig) (st : EdmState) : bool :=
  ((sender_channel_index st =? 0) || (sender_channel_index st =? 1))
  && receiver_src_ids_valid cfg (load_receiver_refs st).

(** "All channels drained", in the words of the design document: neither
    sender channel has an unsent payload or an uncompleted Ethernet packet,
    the completion pointer of the receiver has caught up with its ack
    pointer, and the five credit counters read zero. *)
Definition drained_as_specified (st : EdmState) : Prop :=
  let w0 := elt0 (local_sender_channel_worker_interfaces st) in
  let w1 := elt1 (local_sender_channel_worker_interfaces st) in
  let p := receiver_channel_pointers st in
  (has_unsent_payload w0 = false /\ has_unsent_payload w1 = false)
  /\ (all_eth_packets_completed w0 = true /\ all_eth_packets_completed w1 = true)
  /\ is_caught_up_to (completion_ptr p) (ack_ptr p) = true
  /\ get_ptr_val (stream_regs st) to_receiver_pkts_sent_id = 0
  /\ get_ptr_val (stream_regs st) to_sender_0_pkts_acked_id = 0
  /\ get_ptr_val (stream_regs st) to_sender_1_pkts_acked_id = 0
  /\ get_ptr_val (stream_regs st) to_sender_0_pkts_completed_id = 0
  /\ get_ptr_val (stream_regs st) to_sender_1_pkts_completed_id = 0.

Definition with_termination_signal (st : EdmState) (signal : TerminationSignal) : EdmState :=
  mkEdmState signal (stream_regs st) (local_sender_channels st)
    (local_sender_channel_worker_interfaces st) (local_receiver_channel st)
    (sender_states st) (receiver_state st) (sender_channel_index st)
    (did_nothing_count st) (remote_eth_sender_wrptrs st)
    (outbound_to_receiver_channel_pointers st) (receiver_channel_pointers st)
    (channel_connection_established st).

(** The controller does not ask for termination with this input. *)
Definition controller_keeps_running (input : IterationInput) : bool :=
  match controller_write (outside input) with
  | None | Some KEEP_RUNNING => true
  | Some _ => false
  end.

(** ** Inputs and states of the examples *)

(** A sender channel with one packet pushed by a connected worker, which
    wrote 7 into the source-channel id. *)
Definition sending_refs : SenderChannelRefs :=
  mkSenderRefs (set_packet_header empty_channel 0 (example_packet 1 7))
    (mkWorkerInterface (mkPtr 0) (mkPtr 0) (mkPtr 0) 1 1 0)
    (mkOutbound (mkPtr 0) (mkPtr 0) (mkPtr 0)) true zero_regs.


(** A run in which the sender sees a completion and no ack in one step.
    Iteration 1: the worker of channel 0 has connected and pushed one
    packet; the sender sends it.  Iteration 2 (channel 1 is served): the
    receiver on the other side has acknowledged the packet.  Iteration 3:
    the sender of channel 0 counts the ack.  Iteration 4 (channel 1 is
    served): the receiver has completed the packet. *)
Definition c3_inputs : list IterationInput :=
  [ mkIterationInput
      (mkOutside None zero_regs
         (mkArray2 (mkWorkerWrites (Some 1) (Some 1) [(0, example_packet 1 7)])
                   no_worker_writes) [])
      false zero_regs (mkDownstream true) idle_polls;
    mkIterationInput
      (mkOutside None (fun id => if id =? to_sender_0_pkts_acked_id then 1 else 0)
         (mkArray2 no_worker_writes no_worker_writes) [])
      false zero_regs (mkDownstream true) idle_polls;
    mkIterationInput quiet_outside false zero_regs (mkDownstream true) idle_polls;
    mkIterationInput
      (mkOutside None (fun id => if id =? to_sender_0_pkts_completed_id then 1 else 0)
         (mkArray2 no_worker_writes no_worker_writes) [])
      false zero_regs (mkDownstream true) idle_polls ].

(** The references the sender step of channel 0 is handed after that run. *)
Definition c3_sender_refs : SenderChannelRefs :=
  match run_fabric_edm_main_loop example_config c3_inputs (fresh_memory KEEP_RUNNING) with
  | StillRunning st _ =>
      match load_sender_refs st with
      | Some s => s
      | None => mkSenderRefs empty_channel idle_interface
                  (mkOutbound (mkPtr 0) (mkPtr 0) (mkPtr 0)) false zero_regs
      end
  | _ => mkSenderRefs empty_channel idle_interface
           (mkOutbound (mkPtr 0) (mkPtr 0) (mkPtr 0)) false zero_regs
  end.

(** Two polls in each of which a packet arrives over the link and the
    receiver acknowledges it, writes it to the local chip, retires the
    write and completes it, while the sender channels have nothing to
    do. *)
Definition c7_inputs : list IterationInput :=
  [ mkIterationInput
      (mkOutside None (fun id => if id =? to_receiver_pkts_sent_id then 1 else 0)
         (mkArray2 no_worker_writes no_worker_writes) [(0, example_packet 1 0)])
      false zero_regs (mkDownstream true) idle_polls;
    mkIterationInput
      (mkOutside None (fun id => if id =? to_receiver_pkts_sent_id then 1 else 0)
         (mkArray2 no_worker_writes no_worker_writes) [(1, example_packet 1 1)])
      false zero_regs (mkDownstream true) idle_polls ].

(** The loop entered on fresh memory, and the controller asking for a
    graceful termination before the first poll. *)
Definition graceful_input : IterationInput :=
  mkIterationInput
    (mkOutside (Some GRACEFULLY_TERMINATE) zero_regs
       (mkArray2 no_worker_writes no_worker_writes) [])
    false zero_regs (mkDownstream true) idle_polls.

(** ** The packet header recorder *)

(** [struct PacketHeaderRecorder]: a ring of [buffer_n_headers] header
    slots in L1, starting at [buffer_ptr]. *)
Record PacketHeaderRecorder := mkRecorder {
  buffer_ptr : Z;
  buffer_n_headers : Z;
  buffer_index : Z
}.

(** The constructor. *)
Definition new_PacketHeaderRecorder (buffer_ptr buffer_n_headers : Z) : PacketHeaderRecorder :=
  mkRecorder buffer_ptr buffer_n_headers 0.

(** The NOC write [record_packet_header] issues: source address,
    destination L1 address, length. *)
Record RecorderWrite := mkRecorderWrite {
  write_src_addr : Z;
  write_dest_l1_addr : Z;
  write_num_bytes : Z
}.

(** [uint32_t] and [size_t] of the 32-bit core. *)
Definition uint32 (x : Z) : Z := x mod 2 ^ 32.

(** [PacketHeaderRecorder::record_packet_header]; [sizeof_header] is
    [sizeof(tt::fabric::PacketHeader)]. *)
Definition record_packet_header (sizeof_header : Z) (r : PacketHeaderRecorder)
  (packet_header_ptr : Z) : PacketHeaderRecorder * RecorderWrite :=
  let dest_l1_addr := uint32 (uint32 (buffer_ptr r) + uint32 (buffer_index r * sizeof_header)) in
  let w := mkRecorderWrite (uint32 packet_header_ptr) dest_l1_addr sizeof_header in
  let buffer_index' := uint32 (buffer_index r + 1) in
  let buffer_index'' :=
    if buffer_index' =? buffer_n_headers r then 0 else buffer_index' in
  (mkRecorder (buffer_ptr r) (buffer_n_headers r) buffer_index'', w).

(** Recording the headers at the given addresses one after the other. *)
Fixpoint record_packet_headers (sizeof_header : Z) (r : PacketHeaderRecorder)
  (packet_header_ptrs : list Z) : PacketHeaderRecorder * list RecorderWrite :=
  match packet_header_ptrs with
  | [] => (r, [])
  | p :: rest =>
      let '(r1, w) := record_packet_header sizeof_header r p in
      let '(r2, ws) := record_packet_headers sizeof_header r1 rest in
      (r2, w :: ws)
  end.

(** ** Observations on runs of the loop *)

(** Every slot of a channel buffer holds a header whose source channel id
    names a sender channel. *)
Definition all_slots_valid (b : EthChannelBuffer) : Prop :=
  forall j, valid_src_ch_id (get_packet_header b j) = true.

(** The headers that arrive over the link during a run carry such an id. *)
Definition link_writes_valid (inputs : list IterationInput) : Prop :=
  Forall (fun input =>
            Forall (fun w => valid_src_ch_id (snd w) = true) (link_writes (outside input)))
    inputs.

(** How often a trace yields to [run_routing]. *)
Definition yields (evs : list Event) : Z :=
  Z.of_nat (length (filter is_run_routing evs)).

(** ** Further inputs and states to run the model on *)

(** A receiver at rest on slot 0, which holds a packet for the local chip
    sent by channel 1 of the other side, with the credit for it in the
    packets-sent register. *)
Definition resting_refs : ReceiverChannelRefs :=
  mkReceiverRefs (set_packet_header empty_channel 0 (example_packet 1 1))
    (mkArray2 (mkPtr 0) (mkPtr 0))
    (mkReceiverPointers (mkPtr 0) (mkPtr 0) (mkPtr 0) (mkPtr 0))
    RECEIVER_WAITING_FOR_ETH
    (fun id => if id =? to_receiver_pkts_sent_id then 1 else 0).

(** A connected sender channel whose worker asks for teardown while one
    completion is waiting in the counter. *)
Definition closing_refs : SenderChannelRefs :=
  mkSenderRefs empty_channel
    (mkWorkerInterface (mkPtr 1) (mkPtr 1) (mkPtr 0) 1 2 0)
    (mkOutbound (mkPtr 1) (mkPtr 0) (mkPtr 0)) true
    (fun id => if id =? to_sender_0_pkts_completed_id then 1 else 0).

(** The controller asking for an immediate termination. *)
Definition immediate_input : IterationInput :=
  mkIterationInput
    (mkOutside (Some IMMEDIATELY_TERMINATE) zero_regs
       (mkArray2 no_worker_writes no_worker_writes) [])
    false zero_regs (mkDownstream true) idle_polls.

(** * Properties *)

(** ** The pointer tracker *)

Section PointerFacts.
Variable cfg : FabricConfig.
Hypothesis wrap_pos : 0 < ptr_wrap cfg.



Lemma distance_behind_bounds p q : 0 <= distance_behind cfg p q < ptr_wrap cfg.
Proof. unfold distance_behind. apply Z.mod_pos_bound. lia. Qed.

Lemma distance_behind_self p : distance_behind cfg p p = 0.
Proof. unfold distance_behind. rewrite Z.sub_diag. apply Z.mod_0_l. lia. Qed.

(** Advancing the leading pointer lengthens the distance, modulo the
    wrap. *)
Lemma distance_behind_increment_n_leading p q k :
  distance_behind cfg p (increment_n cfg q k)
  = (distance_behind cfg p q + k) mod ptr_wrap cfg.
Proof.
  unfold distance_behind, increment_n; simpl.
  rewrite Zminus_mod_idemp_l, Zplus_mod_idemp_l. f_equal. lia.
Qed.




(** Distances measured from a common trailing pointer tell pointers
    apart. *)
Lemma distance_behind_inj c p q :
  in_range cfg p -> in_range cfg q ->
  distance_behind cfg c p = distance_behind cfg c q -> p = q.
Proof.
  unfold in_range, distance_behind.
  destruct c as [c], p as [a], q as [b]; simpl. intros Ha Hb H. f_equal.
  assert (E : (a - c - (b - c)) mod ptr_wrap cfg = 0).
  { rewrite Zminus_mod, H, Z.sub_diag. apply Z.mod_0_l. lia. }
  apply Z.mod_divide in E; [|lia].
  destruct E as [k Hk]. assert (k = 0) by nia. subst k. lia.
Qed.

Lemma is_caught_up_to_true_iff p q : is_caught_up_to p q = true <-> p = q.
Proof.
  unfold is_caught_up_to. destruct p as [a], q as [b]; simpl.
  rewrite Z.eqb_eq. split; [intros ->; reflexivity | intros H; inversion H; reflexivity].
Qed.


End PointerFacts.

(** ** Packet classification and the forwarding block of the receiver *)

Lemma forward_type_cases cfg h :
  get_packet_local_forward_type cfg h = PACKET_FORWARD_INVALID
  \/ get_packet_local_forward_type cfg h = PACKET_FORWARD_LOCAL_ONLY
  \/ get_packet_local_forward_type cfg h = PACKET_FORWARD_REMOTE_ONLY
  \/ get_packet_local_forward_type cfg h = PACKET_FORWARD_LOCAL_AND_REMOTE.
Proof.
  unfold get_packet_local_forward_type.
  destruct (packet_must_be_forwarded_to_next_chip cfg h),
           (packet_must_be_consumed_locally cfg h); cbn; auto.
Qed.

(** The ack block: when the source id it indexes with is in range it
    returns, and it touches only the ack pointer and the stream registers. *)
Lemma receiver_step_ack_spec cfg hw r :
  valid_src_ch_id
    (packet_at cfg (ref_local_receiver_channel r) (ack_ptr (ref_receiver_channel_pointers r)))
  = true ->
  exists r1 evs1,
    receiver_step_ack cfg hw r = Some (r1, evs1)
    /\ ref_local_receiver_channel r1 = ref_local_receiver_channel r
    /\ ref_remote_eth_sender_wrptrs r1 = ref_remote_eth_sender_wrptrs r
    /\ ref_receiver_state r1 = ref_receiver_state r
    /\ wr_sent_ptr (ref_receiver_channel_pointers r1) = wr_sent_ptr (ref_receiver_channel_pointers r)
    /\ wr_flush_ptr (ref_receiver_channel_pointers r1) = wr_flush_ptr (ref_receiver_channel_pointers r)
    /\ completion_ptr (ref_receiver_channel_pointers r1) = completion_ptr (ref_receiver_channel_pointers r)
    /\ ack_ptr (ref_receiver_channel_pointers r1)
       = (if (0 <? get_ptr_val (ref_receiver_regs r) to_receiver_pkts_sent_id)
             && negb (eth_txq_is_busy_at_ack hw)
          then increment cfg (ack_ptr (ref_receiver_channel_pointers r))
          else ack_ptr (ref_receiver_channel_pointers r))
    /\ filter is_forward_event evs1 = [].
Proof.
  intros Hv. unfold receiver_step_ack.
  destruct ((0 <? get_ptr_val (ref_receiver_regs r) to_receiver_pkts_sent_id)
            && negb (eth_txq_is_busy_at_ack hw)).
  - unfold receiver_send_received_ack.
    unfold valid_src_ch_id, packet_at, NUM_SENDER_CHANNELS in Hv.
    apply andb_true_iff in Hv. destruct Hv as [H0 H1].
    apply Z.leb_le in H0. apply Z.ltb_lt in H1.
    set (i := src_ch_id _) in *.
    assert (Hi : i = 0 \/ i = 1) by lia.
    destruct Hi as [-> | ->]; cbn; eexists _, _; repeat split; reflexivity.
  - eexists _, _; repeat split; reflexivity.
Qed.

Lemma receiver_step_completion_spec cfg hw r :
  valid_src_ch_id
    (packet_at cfg (ref_local_receiver_channel r)
       (completion_ptr (ref_receiver_channel_pointers r)))
  = true ->
  exists r4 evs4,
    receiver_step_completion cfg hw r = Some (r4, evs4)
    /\ ref_local_receiver_channel r4 = ref_local_receiver_channel r
    /\ ref_receiver_state r4 = ref_receiver_state r
    /\ ref_receiver_regs r4 = ref_receiver_regs r
    /\ wr_sent_ptr (ref_receiver_channel_pointers r4) = wr_sent_ptr (ref_receiver_channel_pointers r)
    /\ wr_flush_ptr (ref_receiver_channel_pointers r4) = wr_flush_ptr (ref_receiver_channel_pointers r)
    /\ ack_ptr (ref_receiver_channel_pointers r4) = ack_ptr (ref_receiver_channel_pointers r)
    /\ completion_ptr (ref_receiver_channel_pointers r4)
       = (if negb (is_caught_up_to (completion_ptr (ref_receiver_channel_pointers r))
                     (wr_flush_ptr (ref_receiver_channel_pointers r)))
             && negb (eth_txq_is_busy_at_completion hw)
          then increment cfg (completion_ptr (ref_receiver_channel_pointers r))
          else completion_ptr (ref_receiver_channel_pointers r))
    /\ filter is_forward_event evs4 = [].
Proof.
  intros Hv. unfold receiver_step_completion.
  destruct (negb (is_caught_up_to _ _)); cbn [andb].
  2: { eexists _, _; repeat split; reflexivity. }
  destruct (negb (eth_txq_is_busy_at_completion hw)).
  2: { eexists _, _; repeat split; reflexivity. }
  unfold receiver_send_completion_ack.
  unfold valid_src_ch_id, packet_at, NUM_SENDER_CHANNELS in Hv.
  apply andb_true_iff in Hv. destruct Hv as [H0 H1].
  apply Z.leb_le in H0. apply Z.ltb_lt in H1.
  set (i := src_ch_id _) in *.
  assert (Hi : i = 0 \/ i = 1) by lia.
  destruct Hi as [-> | ->]; cbn; eexists _, _; repeat split; reflexivity.
Qed.

Lemma receiver_step_flush_spec cfg hw r :
  forall r3 evs3, receiver_step_flush cfg hw r = (r3, evs3) ->
    ref_local_receiver_channel r3 = ref_local_receiver_channel r
    /\ ref_remote_eth_sender_wrptrs r3 = ref_remote_eth_sender_wrptrs r
    /\ ref_receiver_state r3 = ref_receiver_state r
    /\ ref_receiver_regs r3 = ref_receiver_regs r
    /\ wr_sent_ptr (ref_receiver_channel_pointers r3) = wr_sent_ptr (ref_receiver_channel_pointers r)
    /\ ack_ptr (ref_receiver_channel_pointers r3) = ack_ptr (ref_receiver_channel_pointers r)
    /\ completion_ptr (ref_receiver_channel_pointers r3) = completion_ptr (ref_receiver_channel_pointers r)
    /\ wr_flush_ptr (ref_receiver_channel_pointers r3)
       = (if negb (is_caught_up_to (wr_flush_ptr (ref_receiver_channel_pointers r))
                     (wr_sent_ptr (ref_receiver_channel_pointers r)))
             && ncrisc_noc_nonposted_writes_sent hw
          then increment cfg (wr_flush_ptr (ref_receiver_channel_pointers r))
          else wr_flush_ptr (ref_receiver_channel_pointers r))
    /\ filter is_forward_event evs3 = [].
Proof.
  intros r3 evs3. unfold receiver_step_flush.
  destruct (negb (is_caught_up_to _ _)); cbn [andb].
  2: { intros H; inversion H; subst; repeat split; reflexivity. }
  destruct (ncrisc_noc_nonposted_writes_sent hw);
    intros H; inversion H; subst; repeat split; reflexivity.
Qed.

Lemma receiver_forward_packet_only_forwards cfg h :
  filter is_forward_event (receiver_forward_packet cfg h) = receiver_forward_packet cfg h.
Proof.
  unfold receiver_forward_packet.
  destruct (forward_type_cases cfg h) as [E | [E | [E | E]]]; rewrite E; reflexivity.
Qed.

Lemma receiver_step_forward_spec cfg downstream r :
  forall r2 evs2, receiver_step_forward cfg downstream r = (r2, evs2) ->
    let p := ref_receiver_channel_pointers r in
    let pkt := packet_at cfg (ref_local_receiver_channel r) (wr_sent_ptr p) in
    ref_local_receiver_channel r2 = ref_local_receiver_channel r
    /\ ref_remote_eth_sender_wrptrs r2 = ref_remote_eth_sender_wrptrs r
    /\ ref_receiver_state r2 = ref_receiver_state r
    /\ ref_receiver_regs r2 = ref_receiver_regs r
    /\ wr_flush_ptr (ref_receiver_channel_pointers r2) = wr_flush_ptr p
    /\ ack_ptr (ref_receiver_channel_pointers r2) = ack_ptr p
    /\ completion_ptr (ref_receiver_channel_pointers r2) = completion_ptr p
    /\ ((is_caught_up_to (wr_sent_ptr p) (ack_ptr p) = false
         /\ can_forward_packet_completely cfg pkt downstream = true
         /\ wr_sent_ptr (ref_receiver_channel_pointers r2) = increment cfg (wr_sent_ptr p)
         /\ evs2 = receiver_forward_packet cfg pkt)
        \/ ((is_caught_up_to (wr_sent_ptr p) (ack_ptr p) = true
             \/ can_forward_packet_completely cfg pkt downstream = false)
            /\ wr_sent_ptr (ref_receiver_channel_pointers r2) = wr_sent_ptr p
            /\ evs2 = [])).
Proof.
  intros r2 evs2. unfold receiver_step_forward, packet_at.
  destruct (is_caught_up_to _ _) eqn:Ec; cbn [negb].
  { intros H; inversion H; subst; repeat split; try reflexivity. right. auto. }
  destruct (can_forward_packet_completely _ _ _) eqn:Ef;
    intros H; inversion H; subst; cbn; repeat split; try reflexivity.
  - left. auto.
  - right. auto.
Qed.

(** The receiver step as a whole: it returns whenever the source ids it
    indexes with are in range, and moves each pointer at most one slot, in
    the order ack, sent, flush, completion. *)
Lemma run_receiver_channel_step_spec cfg downstream hw r :
  receiver_src_ids_valid cfg r = true ->
  exists r' evs,
    run_receiver_channel_step cfg downstream hw r = Some (r', evs)
    /\ ref_local_receiver_channel r' = ref_local_receiver_channel r
    /\ ref_receiver_state r' = ref_receiver_state r
    /\ let p := ref_receiver_channel_pointers r in
       let p' := ref_receiver_channel_pointers r' in
       let pkt := packet_at cfg (ref_local_receiver_channel r) (wr_sent_ptr p) in
       ack_ptr p'
       = (if (0 <? get_ptr_val (ref_receiver_regs r) to_receiver_pkts_sent_id)
             && negb (eth_txq_is_busy_at_ack hw)
          then increment cfg (ack_ptr p) else ack_ptr p)
       /\ ((is_caught_up_to (wr_sent_ptr p) (ack_ptr p') = false
            /\ can_forward_packet_completely cfg pkt downstream = true
            /\ wr_sent_ptr p' = increment cfg (wr_sent_ptr p)
            /\ filter is_forward_event evs = receiver_forward_packet cfg pkt)
           \/ ((is_caught_up_to (wr_sent_ptr p) (ack_ptr p') = true
                \/ can_forward_packet_completely cfg pkt downstream = false)
               /\ wr_sent_ptr p' = wr_sent_ptr p
               /\ filter is_forward_event evs = []))
       /\ wr_flush_ptr p'
          = (if negb (is_caught_up_to (wr_flush_ptr p) (wr_sent_ptr p'))
                && ncrisc_noc_nonposted_writes_sent hw
             then increment cfg (wr_flush_ptr p) else wr_flush_ptr p)
       /\ completion_ptr p'
          = (if negb (is_caught_up_to (completion_ptr p) (wr_flush_ptr p'))
                && negb (eth_txq_is_busy_at_completion hw)
             then increment cfg (completion_ptr p) else completion_ptr p).
Proof.
  intros Hv. unfold receiver_src_ids_valid in Hv.
  apply andb_true_iff in Hv. destruct Hv as [Hva Hvc].
  unfold run_receiver_channel_step.
  destruct (receiver_step_ack_spec cfg hw r Hva)
    as (r1 & evs1 & E1 & B1 & W1 & S1 & Ps1 & Pf1 & Pc1 & Pa1 & F1).
  rewrite E1. cbn [obind].
  destruct (receiver_step_forward cfg downstream r1) as [r2 evs2] eqn:E2.
  destruct (receiver_step_forward_spec cfg downstream r1 r2 evs2 E2)
    as (B2 & W2 & S2 & R2 & Pf2 & Pa2 & Pc2 & Fw2).
  destruct (receiver_step_flush cfg hw r2) as [r3 evs3] eqn:E3.
  destruct (receiver_step_flush_spec cfg hw r2 r3 evs3 E3)
    as (B3 & W3 & S3 & R3 & Ps3 & Pa3 & Pc3 & Pf3 & F3).
  assert (Hvc3 : valid_src_ch_id
            (packet_at cfg (ref_local_receiver_channel r3)
               (completion_ptr (ref_receiver_channel_pointers r3))) = true).
  { rewrite B3, B2, B1, Pc3, Pc2, Pc1. exact Hvc. }
  destruct (receiver_step_completion_spec cfg hw r3 Hvc3)
    as (r4 & evs4 & E4 & B4 & S4 & R4 & Ps4 & Pf4 & Pa4 & Pc4 & F4).
  rewrite E4. cbn [obind].
  exists r4, (evs1 ++ evs2 ++ evs3 ++ evs4).
  split; [reflexivity|].
  split; [congruence|]. split; [congruence|].
  cbv zeta.
  assert (Hfilter : filter is_forward_event (evs1 ++ evs2 ++ evs3 ++ evs4)
                    = filter is_forward_event evs2).
  { rewrite !filter_app, F1, F3, F4, app_nil_r. reflexivity. }
  split; [congruence|].
  split.
  - rewrite Hfilter, Pa4, Pa3, Pa2, Ps4, Ps3.
    rewrite B1, Ps1 in Fw2.
    destruct Fw2 as [(C & Cf & Sp & Ev) | (C & Sp & Ev)]; [left | right].
    + subst evs2. rewrite receiver_forward_packet_only_forwards. auto.
    + subst evs2. auto.
  - split.
    + rewrite Pf4, Pf3, Pf2, Pf1, Ps4, Ps3. reflexivity.
    + rewrite Pc4, Pc3, Pc2, Pc1, Pf4. reflexivity.
Qed.

(** ** C4 *)


(** ** C5 *)


(** ** C9 *)

Lemma set_packet_header_same b i h : get_packet_header (set_packet_header b i h) i = h.
Proof. unfold set_packet_header; simpl. rewrite Z.eqb_refl. reflexivity. Qed.

(** C9: [send_next_data] on sender channel [i] sends the packet of the
    slot with its source-channel id overwritten by [i], whatever the slot
    held; while that packet sits in the receiver slot it was sent to, the
    acknowledgement and the completion the receiver sends for that slot go
    to the acked and completed stream registers of channel [i]. *)
Theorem C9_source_channel_id_overwritten :
  forall cfg channel interface outbound i,
    i = 0 \/ i = 1 ->
    exists channel' interface' outbound' src dst pkt size,
      send_next_data cfg channel interface outbound i
      = (channel', interface', outbound',
         [ev_eth_send_bytes src dst pkt size;
          ev_remote_update_ptr_val to_receiver_pkts_sent_id 1])
      /\ pkt = set_src_ch_id (get_packet_header channel src) i
      /\ src_ch_id pkt = i
      /\ dst = get_buffer_index (RECEIVER_NUM_BUFFERS cfg) (wrptr outbound)
      /\ forall receiver_channel q completion_ptrs,
           get_buffer_index (RECEIVER_NUM_BUFFERS cfg) q = dst ->
           let landed := set_packet_header receiver_channel dst pkt in
           (exists stream,
              array_get to_sender_packets_acked_streams i = Some stream
              /\ receiver_send_received_ack cfg q landed
                 = Some [ev_remote_update_ptr_val stream 1])
           /\ (exists stream sender_ptr,
                 array_get to_sender_packets_completed_streams i = Some stream
                 /\ array_get completion_ptrs i = Some sender_ptr
                 /\ receiver_send_completion_ack cfg completion_ptrs q landed
                    = Some (array_set completion_ptrs i (increment cfg sender_ptr),
                            increment cfg q,
                            [ev_remote_update_ptr_val stream 1])).
Proof.
  intros cfg channel interface outbound i Hi.
  unfold send_next_data. cbv zeta.
  do 7 eexists. split; [reflexivity|].
  rewrite set_packet_header_same.
  split; [reflexivity|]. split; [reflexivity|]. split; [reflexivity|].
  intros receiver_channel q completion_ptrs Hq.
  unfold receiver_send_received_ack, receiver_send_completion_ack.
  rewrite Hq, set_packet_header_same. cbn [src_ch_id set_src_ch_id].
  destruct Hi as [-> | ->]; cbn; split; eexists; eauto.
Qed.

(** ** The blocks of the sender step *)

Lemma sender_step_send_spec cfg busy i s :
  forall d1 s1 evs1, sender_step_send cfg busy i s = (d1, s1, evs1) ->
    d1 = send_condition cfg busy s
    /\ ref_connection_established s1 = ref_connection_established s
    /\ ref_sender_regs s1 = ref_sender_regs s
    /\ local_ackptr (ref_worker_interface s1) = local_ackptr (ref_worker_interface s)
    /\ local_rdptr (ref_worker_interface s1) = local_rdptr (ref_worker_interface s)
    /\ remote_producer_wrptr (ref_worker_interface s1) = remote_producer_wrptr (ref_worker_interface s)
    /\ connection_live_semaphore (ref_worker_interface s1)
       = connection_live_semaphore (ref_worker_interface s)
    /\ outbound_ack_ptr (ref_outbound s1) = outbound_ack_ptr (ref_outbound s)
    /\ outbound_completion_ptr (ref_outbound s1) = outbound_completion_ptr (ref_outbound s)
    /\ local_wrptr (ref_worker_interface s1)
       = (if d1 then increment cfg (local_wrptr (ref_worker_interface s))
          else local_wrptr (ref_worker_interface s))
    /\ wrptr (ref_outbound s1)
       = (if d1 then increment cfg (wrptr (ref_outbound s)) else wrptr (ref_outbound s))
    /\ length (filter is_eth_send evs1) = (if d1 then 1%nat else 0%nat)
    /\ remote_increment to_receiver_pkts_sent_id evs1 = (if d1 then 1 else 0)
    /\ (d1 = false -> s1 = s /\ evs1 = [])
    /\ (forall id, reads_of id evs1 = []).
Proof.
  intros d1 s1 evs1. unfold sender_step_send, send_condition.
  destruct (has_space_for_packet cfg (ref_outbound s)); cbn [andb];
    [|intros H; inversion H; subst; repeat split; auto].
  destruct busy; cbn [andb negb];
    [intros H; inversion H; subst; repeat split; auto|].
  destruct (has_unsent_payload (ref_worker_interface s)); cbn [andb];
    [|intros H; inversion H; subst; repeat split; auto].
  destruct (distance_behind cfg _ _ <? SENDER_NUM_BUFFERS cfg); cbn [negb];
    [|intros H; inversion H; subst; repeat split; auto].
  unfold send_next_data, remote_update_ptr_val. cbv zeta.
  intros H; inversion H; subst; clear H.
  destruct (enable_packet_header_recording cfg); cbn;
    repeat split; auto; discriminate.
Qed.

Lemma sender_step_completions_spec cfg cs s :
  forall c s2 evs2, sender_step_completions cfg cs s = (c, s2, evs2) ->
    c = get_ptr_val (ref_sender_regs s) cs
    /\ ref_local_sender_channel s2 = ref_local_sender_channel s
    /\ ref_connection_established s2 = ref_connection_established s
    /\ local_wrptr (ref_worker_interface s2) = local_wrptr (ref_worker_interface s)
    /\ local_ackptr (ref_worker_interface s2) = local_ackptr (ref_worker_interface s)
    /\ remote_producer_wrptr (ref_worker_interface s2) = remote_producer_wrptr (ref_worker_interface s)
    /\ connection_live_semaphore (ref_worker_interface s2)
       = connection_live_semaphore (ref_worker_interface s)
    /\ wrptr (ref_outbound s2) = wrptr (ref_outbound s)
    /\ outbound_ack_ptr (ref_outbound s2) = outbound_ack_ptr (ref_outbound s)
    /\ local_rdptr (ref_worker_interface s2)
       = (if 0 <? c then increment_n cfg (local_rdptr (ref_worker_interface s)) c
          else local_rdptr (ref_worker_interface s))
    /\ outbound_completion_ptr (ref_outbound s2)
       = (if 0 <? c then increment_n cfg (outbound_completion_ptr (ref_outbound s)) c
          else outbound_completion_ptr (ref_outbound s))
    /\ (forall id, ref_sender_regs s2 id
                   = if (0 <? c) && (id =? cs) then ref_sender_regs s id - c
                     else ref_sender_regs s id)
    /\ evs2 = ev_get_ptr_val cs c
              :: (if 0 <? c then [ev_increment_local_update_ptr_val cs (- c)] else []).
Proof.
  intros c s2 evs2. unfold sender_step_completions.
  destruct (0 <? get_ptr_val (ref_sender_regs s) cs) eqn:E;
    intros H; inversion H; subst; clear H; rewrite ?E; cbn; repeat split; auto.
Qed.

Lemma sender_step_acks_spec cfg ak s :
  forall a s3 evs3, sender_step_acks cfg ak s = (a, s3, evs3) ->
    a = get_ptr_val (ref_sender_regs s) ak
    /\ ref_local_sender_channel s3 = ref_local_sender_channel s
    /\ ref_connection_established s3 = ref_connection_established s
    /\ ref_outbound s3 = ref_outbound s
    /\ local_wrptr (ref_worker_interface s3) = local_wrptr (ref_worker_interface s)
    /\ local_rdptr (ref_worker_interface s3) = local_rdptr (ref_worker_interface s)
    /\ remote_producer_wrptr (ref_worker_interface s3) = remote_producer_wrptr (ref_worker_interface s)
    /\ connection_live_semaphore (ref_worker_interface s3)
       = connection_live_semaphore (ref_worker_interface s)
    /\ local_ackptr (ref_worker_interface s3)
       = (if 0 <? a then increment_n cfg (local_ackptr (ref_worker_interface s)) a
          else local_ackptr (ref_worker_interface s))
    /\ (forall id, ref_sender_regs s3 id
                   = if (0 <? a) && (id =? ak) then ref_sender_regs s id - a
                     else ref_sender_regs s id)
    /\ evs3 = ev_get_ptr_val ak a
              :: (if 0 <? a
                  then (if ref_connection_established s
                        then [ev_update_worker_copy_of_read_ptr
                                (get_ptr (local_rdptr (ref_worker_interface s)))]
                        else [])
                       ++ [ev_increment_local_update_ptr_val ak (- a)]
                  else []).
Proof.
  intros a s3 evs3. unfold sender_step_acks.
  destruct (0 <? get_ptr_val (ref_sender_regs s) ak) eqn:E;
    intros H; inversion H; subst; clear H; rewrite ?E; cbn; repeat split; auto.
Qed.

Lemma sender_step_connection_spec cfg s :
  forall d4 s4 evs4, sender_step_connection cfg s = (d4, s4, evs4) ->
    d4 = connection_changes cfg s
    /\ ref_local_sender_channel s4 = ref_local_sender_channel s
    /\ ref_outbound s4 = ref_outbound s
    /\ ref_sender_regs s4 = ref_sender_regs s
    /\ local_wrptr (ref_worker_interface s4) = local_wrptr (ref_worker_interface s)
    /\ local_ackptr (ref_worker_interface s4) = local_ackptr (ref_worker_interface s)
    /\ local_rdptr (ref_worker_interface s4) = local_rdptr (ref_worker_interface s)
    /\ remote_producer_wrptr (ref_worker_interface s4) = remote_producer_wrptr (ref_worker_interface s)
    /\ connection_live_semaphore (ref_worker_interface s4)
       = connection_live_semaphore (ref_worker_interface s)
    /\ ref_connection_established s4 = xorb d4 (ref_connection_established s)
    /\ filter is_eth_send evs4 = []
    /\ (forall id, remote_increment id evs4 = 0)
    /\ (forall id, reads_of id evs4 = [])
    /\ (d4 = false -> evs4 = []).
Proof.
  intros d4 s4 evs4. unfold sender_step_connection, connection_changes.
  destruct (ref_connection_established s) eqn:Ec; cbn [negb].
  - destruct (has_worker_teardown_request cfg (ref_worker_interface s));
      unfold teardown_connection;
      intros H; inversion H; subst; clear H; cbn; rewrite ?Ec; repeat split; auto; discriminate.
  - destruct (connection_is_live cfg _ || has_worker_teardown_request cfg _);
      intros H; inversion H; subst; clear H; rewrite ?Ec;
      destruct (enable_fabric_counters cfg); cbn; repeat split; auto; discriminate.
Qed.

(** The sender step as a whole, for a channel index inside the stream
    arrays: it returns, and each pointer, register and event is accounted
    for.  [c] and [a] are the values the step reads from the completion and
    the ack counter. *)
Lemma run_sender_channel_step_spec cfg busy late i s :
  i = 0 \/ i = 1 ->
  exists cs ak did s' evs1 evs4,
    array_get to_sender_packets_completed_streams i = Some cs
    /\ array_get to_sender_packets_acked_streams i = Some ak
    /\ cs <> ak
    /\ let sent := send_condition cfg busy s in
       let c := get_ptr_val (ref_sender_regs s) cs in
       let a := get_ptr_val (ref_sender_regs s) ak + late ak in
       let w := ref_worker_interface s in
       let o := ref_outbound s in
       let rd' := if 0 <? c then increment_n cfg (local_rdptr w) c else local_rdptr w in
       run_sender_channel_step cfg busy late i s
       = Some (did, s',
               evs1
               ++ (ev_get_ptr_val cs c
                   :: (if 0 <? c then [ev_increment_local_update_ptr_val cs (- c)] else []))
               ++ (ev_get_ptr_val ak a
                   :: (if 0 <? a
                       then (if ref_connection_established s
                             then [ev_update_worker_copy_of_read_ptr (get_ptr rd')]
                             else [])
                            ++ [ev_increment_local_update_ptr_val ak (- a)]
                       else []))
               ++ evs4)
       /\ did = sent || (0 <? c + a) || connection_changes cfg s
       /\ ref_connection_established s'
          = xorb (connection_changes cfg s) (ref_connection_established s)
       /\ local_wrptr (ref_worker_interface s')
          = (if sent then increment cfg (local_wrptr w) else local_wrptr w)
       /\ wrptr (ref_outbound s') = (if sent then increment cfg (wrptr o) else wrptr o)
       /\ local_rdptr (ref_worker_interface s') = rd'
       /\ outbound_completion_ptr (ref_outbound s')
          = (if 0 <? c then increment_n cfg (outbound_completion_ptr o) c
             else outbound_completion_ptr o)
       /\ outbound_ack_ptr (ref_outbound s') = outbound_ack_ptr o
       /\ local_ackptr (ref_worker_interface s')
          = (if 0 <? a then increment_n cfg (local_ackptr w) a else local_ackptr w)
       /\ (forall id,
             ref_sender_regs s' id
             = ref_sender_regs s id + late id
               - (if (0 <? c) && (id =? cs) then c else 0)
               - (if (0 <? a) && (id =? ak) then a else 0))
       /\ length (filter is_eth_send evs1) = (if sent then 1%nat else 0%nat)
       /\ remote_increment to_receiver_pkts_sent_id evs1 = (if sent then 1 else 0)
       /\ (forall id, reads_of id evs1 = [])
       /\ (sent = false -> evs1 = [])
       /\ filter is_eth_send evs4 = []
       /\ (forall id, remote_increment id evs4 = 0)
       /\ (forall id, reads_of id evs4 = [])
       /\ (connection_changes cfg s = false -> evs4 = []).
Proof.
  intros Hi.
  assert (exists cs ak, array_get to_sender_packets_completed_streams i = Some cs
                        /\ array_get to_sender_packets_acked_streams i = Some ak
                        /\ cs <> ak)
    as (cs & ak & Ecs & Eak & Hne)
    by (destruct Hi as [-> | ->]; cbn; eexists _, _; repeat split; discriminate).
  unfold run_sender_channel_step. rewrite Ecs, Eak. cbn [obind].
  destruct (sender_step_send cfg busy i s) as [[d1 s1] evs1] eqn:E1.
  destruct (sender_step_send_spec cfg busy i s d1 s1 evs1 E1)
    as (D1 & C1 & R1 & A1 & Rd1 & P1 & Sem1 & OA1 & OC1 & W1 & OW1 & L1 & Ri1 & Nil1 & Rs1).
  destruct (sender_step_completions cfg cs s1) as [[c s2] evs2] eqn:E2.
  destruct (sender_step_completions_spec cfg cs s1 c s2 evs2 E2)
    as (Dc & Ch2 & C2 & W2 & A2 & P2 & Sem2 & OW2 & OA2 & Rd2 & OC2 & R2 & Ev2).
  destruct (sender_step_acks cfg ak (land_remote_increments late s2)) as [[a s3] evs3] eqn:E3.
  destruct (sender_step_acks_spec cfg ak _ a s3 evs3 E3)
    as (Da & Ch3 & C3 & O3 & W3 & Rd3 & P3 & Sem3 & A3 & R3 & Ev3).
  cbn [land_remote_increments ref_sender_regs ref_local_sender_channel
       ref_connection_established ref_outbound ref_worker_interface] in *.
  destruct (sender_step_connection cfg s3) as [[d4 s4] evs4] eqn:E4.
  destruct (sender_step_connection_spec cfg s3 d4 s4 evs4 E4)
    as (D4 & Ch4 & O4 & R4 & W4 & A4 & Rd4 & P4 & Sem4 & C4 & Se4 & Ri4 & Rs4 & Nil4).
  assert (Hc : c = get_ptr_val (ref_sender_regs s) cs) by (rewrite Dc, R1; reflexivity).
  assert (Ha : a = get_ptr_val (ref_sender_regs s) ak + late ak).
  { rewrite Da. unfold get_ptr_val. rewrite R2, R1.
    replace (ak =? cs) with false by (symmetry; apply Z.eqb_neq; congruence).
    rewrite andb_false_r. reflexivity. }
  assert (Hconn : connection_changes cfg s3 = connection_changes cfg s).
  { unfold connection_changes, connection_is_live, has_worker_teardown_request.
    rewrite C3, C2, C1, Sem3, Sem2, Sem1. reflexivity. }
  exists cs, ak, (d1 || (0 <? c + a) || d4), s4, evs1, evs4.
  split; [reflexivity|]. split; [reflexivity|]. split; [exact Hne|].
  cbv zeta. rewrite <- Hc, <- Ha, <- D1.
  split.
  { rewrite Ev2, Ev3, C2, C1, Rd2, Rd1. reflexivity. }
  split; [rewrite D4, Hconn; reflexivity|].
  split; [rewrite C4, D4, Hconn, C3, C2, C1; reflexivity|].
  split; [rewrite W4, W3, W2, W1; reflexivity|].
  split; [rewrite O4, O3, OW2, OW1; reflexivity|].
  split; [rewrite Rd4, Rd3, Rd2, Rd1; reflexivity|].
  split; [rewrite O4, O3, OC2, OC1; reflexivity|].
  split; [rewrite O4, O3, OA2, OA1; reflexivity|].
  split; [rewrite A4, A3, A2, A1; reflexivity|].
  split.
  { intros id. rewrite R4, R3, R2, R1.
    destruct ((0 <? a) && (id =? ak)), ((0 <? c) && (id =? cs)); lia. }
  split; [exact L1|]. split; [exact Ri1|]. split; [exact Rs1|].
  split; [intros Hs; apply Nil1; exact Hs|].
  split; [exact Se4|]. split; [exact Ri4|]. split; [exact Rs4|].
  intros Hs. apply Nil4. rewrite D4, Hconn. exact Hs.
Qed.

Lemma remote_increment_app id evs evs' :
  remote_increment id (evs ++ evs') = remote_increment id evs + remote_increment id evs'.
Proof.
  induction evs as [|e evs IH]; [reflexivity|].
  destruct e; cbn [remote_increment app]; rewrite IH; lia.
Qed.


(** ** C2 *)


(** ** C3 *)

Example c3_run_reaches_channel_0 :
  exists st evs,
    run_fabric_edm_main_loop example_config c3_inputs (fresh_memory KEEP_RUNNING)
    = StillRunning st evs
    /\ sender_channel_index st = 0
    /\ length (filter is_eth_send evs) = 1%nat
    /\ load_sender_refs st = Some c3_sender_refs.
Proof.
  eexists _, _. split; [vm_compute; reflexivity|].
  split; [reflexivity|]. split; reflexivity.
Qed.



(** ** The main loop *)

(** The receiver step never writes [receiver_state_out]. *)
Lemma run_receiver_channel_step_state cfg downstream hw r r' evs :
  run_receiver_channel_step cfg downstream hw r = Some (r', evs) ->
  ref_receiver_state r' = ref_receiver_state r.
Proof.
  unfold run_receiver_channel_step.
  destruct (receiver_step_ack cfg hw r) as [[r1 e1]|] eqn:E1; [|discriminate].
  cbn [obind].
  assert (S1 : ref_receiver_state r1 = ref_receiver_state r).
  { unfold receiver_step_ack in E1.
    destruct (_ && _) in E1; [|inversion E1; reflexivity].
    destruct (receiver_send_received_ack cfg _ _) in E1; [|discriminate].
    cbn in E1. inversion E1. reflexivity. }
  destruct (receiver_step_forward cfg downstream r1) as [r2 e2] eqn:E2.
  destruct (receiver_step_forward_spec cfg downstream r1 r2 e2 E2) as (_ & _ & S2 & _).
  destruct (receiver_step_flush cfg hw r2) as [r3 e3] eqn:E3.
  destruct (receiver_step_flush_spec cfg hw r2 r3 e3 E3) as (_ & _ & S3 & _).
  destruct (receiver_step_completion cfg hw r3) as [[r4 e4]|] eqn:E4; [|discriminate].
  cbn [obind]. intros H. inversion H; subst. clear H.
  assert (S4 : ref_receiver_state r' = ref_receiver_state r3).
  { unfold receiver_step_completion in E4.
    destruct (negb (is_caught_up_to _ _)) in E4; [|inversion E4; reflexivity].
    destruct (negb (eth_txq_is_busy_at_completion hw)) in E4; [|inversion E4; reflexivity].
    destruct (receiver_send_completion_ack cfg _ _ _) as [[[a b] c]|] in E4; [|discriminate].
    cbn in E4. inversion E4. reflexivity. }
  congruence.
Qed.

(** What servicing the channels does to the idle count: only the answer of
    the sender step enters. *)
Lemma service_channels_spec cfg input st st' evs :
  service_channels cfg input st = Some (st', evs) ->
  exists refs did refs' evs1 evs2,
    load_sender_refs st = Some refs
    /\ run_sender_channel_step cfg (sender_eth_txq_is_busy input)
         (late_remote_reg_increments input) (sender_channel_index st) refs
       = Some (did, refs', evs1)
    /\ termination_signal st' = termination_signal st
    /\ receiver_state st' = receiver_state st
    /\ sender_channel_index st' = 1 - sender_channel_index st
    /\ did_nothing_count st'
       = (if did then 0
          else if SWITCH_INTERVAL cfg <? did_nothing_count st then 0
               else did_nothing_count st + 1)
    /\ evs = evs1 ++ evs2
             ++ (if did then []
                 else if SWITCH_INTERVAL cfg <? did_nothing_count st then [ev_run_routing]
                      else [])
    /\ exists rrefs',
         run_receiver_channel_step cfg (downstream_edm_noc_interface input)
           (receiver_polls input)
           (load_receiver_refs
              (with_sender_channel_index (store_sender_refs st refs')
                 (1 - sender_channel_index st)))
         = Some (rrefs', evs2)
         /\ receiver_channel_pointers st' = ref_receiver_channel_pointers rrefs'
         /\ outbound_to_receiver_channel_pointers st' = ref_outbound refs'.
Proof.
  unfold service_channels.
  destruct (load_sender_refs st) as [refs|] eqn:El; [|discriminate]. cbn [obind].
  destruct (run_sender_channel_step cfg _ _ _ refs) as [[[did refs'] evs1]|] eqn:Es;
    [|discriminate].
  cbn [obind].
  destruct (run_receiver_channel_step cfg _ _ _) as [[rrefs' evs2]|] eqn:Er; [|discriminate].
  cbn [obind].
  pose proof (run_receiver_channel_step_state _ _ _ _ _ _ Er) as Hst.
  cbn [load_receiver_refs ref_receiver_state with_sender_channel_index store_sender_refs
       receiver_state store_receiver_refs] in *.
  rewrite Hst. 
  assert (Heq : ReceiverState_eqb (receiver_state st) (receiver_state st) = true)
    by (destruct (receiver_state st); reflexivity).
  rewrite Heq. cbn [negb]. rewrite orb_false_r.
  unfold update_did_nothing_count.
  cbn [did_nothing_count store_receiver_refs with_sender_channel_index store_sender_refs].
  intros H. exists refs, did, refs', evs1, evs2.
  destruct did; [|destruct (SWITCH_INTERVAL cfg <? did_nothing_count st)];
    inversion H; subst; clear H; cbn; repeat split; eauto.
Qed.

Lemma service_channels_defined cfg input st :
  edm_state_defined cfg st = true ->
  exists st' evs, service_channels cfg input st = Some (st', evs).
Proof.
  unfold edm_state_defined. rewrite andb_true_iff, orb_true_iff, !Z.eqb_eq.
  intros [Hi Hv]. unfold service_channels.
  assert (exists refs, load_sender_refs st = Some refs) as [refs El].
  { unfold load_sender_refs. destruct Hi as [-> | ->]; cbn; eauto. }
  rewrite El. cbn [obind].
  destruct (run_sender_channel_step_spec cfg (sender_eth_txq_is_busy input)
              (late_remote_reg_increments input) (sender_channel_index st) refs Hi)
    as (cs & ak & did & refs' & evs1 & evs4 & _ & _ & _ & Hspec).
  cbv zeta in Hspec. destruct Hspec as (Es & _).
  rewrite Es. cbn [obind].
  match goal with
  | |- context [run_receiver_channel_step cfg ?d ?hw ?r] =>
      destruct (run_receiver_channel_step_spec cfg d hw r) as (rrefs' & evs2 & Er & _)
  end.
  { exact Hv. }
  rewrite Er. cbn [obind].
  destruct (update_did_nothing_count cfg _ _) as [st4 evs3]. eauto.
Qed.

(** ** C1 *)

Section ReceiverOrdering.
Variable cfg : FabricConfig.
Hypothesis wrap_pos : 0 < ptr_wrap cfg.





End ReceiverOrdering.

Lemma receiver_pointers_eta p :
  p = mkReceiverPointers (wr_sent_ptr p) (wr_flush_ptr p) (ack_ptr p) (completion_ptr p).
Proof. destruct p; reflexivity. Qed.







(** ** C6 *)

Lemma all_channels_drained_iff st :
  all_channels_drained (local_sender_channel_worker_interfaces st)
    (receiver_channel_pointers st) (stream_regs st) = true
  <-> drained_as_specified st.
Proof.
  unfold all_channels_drained, drained_as_specified. cbv zeta.
  rewrite !andb_true_iff, !negb_true_iff, !Z.eqb_eq. tauto.
Qed.

(** The loop returns only from a poll that saw a termination signal, and
    on the graceful one only with all channels drained. *)
Lemma main_loop_returned cfg inputs :
  forall st done st_r evs,
    main_loop cfg inputs st done = Returned st_r evs ->
    termination_signal st_r = IMMEDIATELY_TERMINATE
    \/ (termination_signal st_r = GRACEFULLY_TERMINATE
        /\ all_channels_drained (local_sender_channel_worker_interfaces st_r)
             (receiver_channel_pointers st_r) (stream_regs st_r) = true).
Proof.
  induction inputs as [|input rest IH]; intros st done st_r evs; cbn [main_loop].
  - discriminate.
  - unfold main_loop_iteration.
    set (st0 := apply_outside (outside input) st).
    destruct (termination_signal st0) eqn:Esig;
      cbn [got_immediate_termination_signal got_graceful_termination_signal andb].
    + destruct (service_channels cfg input st0) as [[st' evs']|]; cbn [obind];
        [apply IH | discriminate].
    + destruct (all_channels_drained _ _ _) eqn:Ed.
      * intros H; inversion H; subst. right. split; assumption.
      * destruct (service_channels cfg input st0) as [[st' evs']|]; cbn [obind];
          [apply IH | discriminate].
    + intros H; inversion H; subst. left. assumption.
Qed.

(** C6: at a poll that reads gracefully-terminate, the loop returns
    exactly when all channels are drained (no unsent payload and no
    uncompleted packet on either sender channel, receiver completion
    pointer caught up with the ack pointer, all five stream registers
    zero); when they are not, the iteration services the channels and the
    loop goes on.  Over a whole run: whenever the loop returns on
    gracefully-terminate, all channels are drained. *)
Theorem C6_graceful_termination_waits_for_drain :
  forall cfg,
    (forall input st,
       termination_signal st = GRACEFULLY_TERMINATE ->
       (main_loop_iteration cfg input st = Some loop_return <-> drained_as_specified st)
       /\ (~ drained_as_specified st ->
           edm_state_defined cfg st = true ->
           exists st' evs,
             service_channels cfg input st = Some (st', evs)
             /\ main_loop_iteration cfg input st = Some (loop_continue st' evs)))
    /\ (forall inputs st done st_r evs,
          main_loop cfg inputs st done = Returned st_r evs ->
          termination_signal st_r = GRACEFULLY_TERMINATE ->
          drained_as_specified st_r).
Proof.
  intros cfg. split.
  - intros input st Hsig.
    unfold main_loop_iteration. rewrite Hsig.
    cbn [got_immediate_termination_signal got_graceful_termination_signal andb].
    rewrite <- all_channels_drained_iff.
    destruct (all_channels_drained _ _ _) eqn:Ed.
    + split; [tauto|]. intros Hn. exfalso. apply Hn. reflexivity.
    + split.
      * split; [|discriminate].
        destruct (service_channels cfg input st) as [[st' evs']|]; cbn [obind]; discriminate.
      * intros _ Hdef.
        destruct (service_channels_defined cfg input st Hdef) as (st' & evs & E).
        exists st', evs. rewrite E. split; reflexivity.
  - intros inputs st done st_r evs Hret Hsig.
    apply all_channels_drained_iff.
    destruct (main_loop_returned cfg inputs st done st_r evs Hret) as [H | [_ H]].
    + congruence.
    + exact H.
Qed.

(** ** C10 *)

Lemma main_loop_keeps_running cfg inputs :
  forall st done,
    termination_signal st = KEEP_RUNNING ->
    forallb controller_keeps_running inputs = true ->
    forall st' evs, main_loop cfg inputs st done <> Returned st' evs.
Proof.
  induction inputs as [|input rest IH]; intros st done Hsig Hq st' evs; cbn [main_loop].
  - discriminate.
  - cbn [forallb] in Hq. apply andb_true_iff in Hq. destruct Hq as [Hq Hrest].
    assert (Hsig0 : termination_signal (apply_outside (outside input) st) = KEEP_RUNNING).
    { unfold controller_keeps_running in Hq. cbn [apply_outside termination_signal].
      destruct (controller_write (outside input)) as [[| |]|]; try discriminate; auto. }
    unfold main_loop_iteration. rewrite Hsig0.
    cbn [got_immediate_termination_signal got_graceful_termination_signal andb].
    destruct (service_channels cfg input _) as [[st1 evs1]|] eqn:Es; cbn [obind];
      [|discriminate].
    apply IH; [|exact Hrest].
    destruct (service_channels_spec _ _ _ _ _ Es)
      as (refs & did & refs' & e1 & e2 & _ & _ & Hs & _).
    congruence.
Qed.

(** C10: on entry the loop overwrites the termination signal with
    keep-running, so a run does not depend on the value the signal had
    before; the first poll, unless the controller has written since the
    entry, sees no termination request and does not return; and a run in
    which the controller writes no request after the entry never returns. *)
Theorem C10_entry_discards_termination_signal :
  forall cfg inputs st signal,
    termination_signal (main_loop_entry (with_termination_signal st signal)) = KEEP_RUNNING
    /\ run_fabric_edm_main_loop cfg inputs (with_termination_signal st signal)
       = run_fabric_edm_main_loop cfg inputs st
    /\ (forall input,
          controller_write (outside input) = None ->
          let first_poll :=
            apply_outside (outside input)
              (main_loop_entry (with_termination_signal st signal)) in
          got_termination_signal (termination_signal first_poll) = false
          /\ main_loop_iteration cfg input first_poll <> Some loop_return)
    /\ (forallb controller_keeps_running inputs = true ->
        forall st' evs,
          run_fabric_edm_main_loop cfg inputs (with_termination_signal st signal)
          <> Returned st' evs).
Proof.
  intros cfg inputs st signal.
  split; [reflexivity|]. split; [reflexivity|]. split.
  - intros input Hw. cbv zeta.
    assert (Hs : termination_signal
                   (apply_outside (outside input)
                      (main_loop_entry (with_termination_signal st signal)))
                 = KEEP_RUNNING).
    { cbn [apply_outside termination_signal]. rewrite Hw. reflexivity. }
    rewrite Hs. split; [reflexivity|].
    unfold main_loop_iteration. rewrite Hs.
    cbn [got_immediate_termination_signal got_graceful_termination_signal andb].
    destruct (service_channels cfg input _) as [[st1 evs1]|]; cbn [obind]; discriminate.
  - intros Hq st' evs. unfold run_fabric_edm_main_loop.
    apply main_loop_keeps_running; [reflexivity | exact Hq].
Qed.

(** ** C7 *)

(** The answer of the sender step: with counters that are not negative it
    is true exactly when the step sent a packet, drained completions or
    acks, or changed the connection state. *)
Lemma run_sender_channel_step_did_something cfg busy late i s :
  i = 0 \/ i = 1 ->
  exists cs ak did s' evs,
    array_get to_sender_packets_completed_streams i = Some cs
    /\ array_get to_sender_packets_acked_streams i = Some ak
    /\ run_sender_channel_step cfg busy late i s = Some (did, s', evs)
    /\ (0 <= get_ptr_val (ref_sender_regs s) cs ->
        0 <= get_ptr_val (ref_sender_regs s) ak + late ak ->
        (did = true <->
         send_condition cfg busy s = true
         \/ 0 < get_ptr_val (ref_sender_regs s) cs
         \/ 0 < get_ptr_val (ref_sender_regs s) ak + late ak
         \/ ref_connection_established s' <> ref_connection_established s)).
Proof.
  intros Hi.
  destruct (run_sender_channel_step_spec cfg busy late i s Hi)
    as (cs & ak & did & s' & evs1 & evs4 & Ecs & Eak & _ & Hspec).
  cbv zeta in Hspec. destruct Hspec as (E & D & C & _).
  eexists cs, ak, did, s', _. split; [exact Ecs|]. split; [exact Eak|].
  split; [exact E|]. intros Hc Ha.
  rewrite D, C, !orb_true_iff, Z.ltb_lt.
  destruct (connection_changes cfg s), (ref_connection_established s); cbn;
    intuition (try lia; try discriminate; try congruence).
Qed.

(** C7, on the run [c7_inputs] with SWITCH_INTERVAL = 0: the receiver makes
    progress in both iterations, yet the idle count goes up in the first
    and the loop yields to [run_routing] in the second.  The loop compares
    [receiver_state] before and after the receiver step, and the receiver
    step never writes it. *)
Theorem C7_receiver_progress_not_counted :
  (exists st evs,
     run_fabric_edm_main_loop example_config (firstn 1 c7_inputs) (fresh_memory KEEP_RUNNING)
     = StillRunning st evs
     /\ filter is_forward_event evs
        = [ev_execute_chip_unicast_to_local_chip (example_packet 1 0)]
     /\ remote_increment to_sender_0_pkts_completed_id evs = 1
     /\ did_nothing_count st = 1)
  /\ (exists st evs,
        run_fabric_edm_main_loop example_config c7_inputs (fresh_memory KEEP_RUNNING)
        = StillRunning st evs
        /\ filter is_forward_event evs
           = [ev_execute_chip_unicast_to_local_chip (example_packet 1 0);
              ev_execute_chip_unicast_to_local_chip (example_packet 1 1)]
        /\ remote_increment to_sender_1_pkts_completed_id evs = 1
        /\ filter is_run_routing evs = [ev_run_routing]).
Proof.
  split; eexists _, _; (split; [vm_compute; reflexivity|]); repeat split; reflexivity.
Qed.

(** * The theorems on concrete inputs *)






Lemma C6_witness :
  (main_loop_iteration example_config graceful_input
     (apply_outside (outside graceful_input) (main_loop_entry (fresh_memory KEEP_RUNNING)))
   = Some loop_return
   <-> drained_as_specified
         (apply_outside (outside graceful_input) (main_loop_entry (fresh_memory KEEP_RUNNING))))
  /\ exists st_r evs,
       main_loop example_config [graceful_input] (main_loop_entry (fresh_memory KEEP_RUNNING)) []
       = Returned st_r evs
       /\ termination_signal st_r = GRACEFULLY_TERMINATE
       /\ drained_as_specified st_r.
Proof.
  destruct (C6_graceful_termination_waits_for_drain example_config) as [Hiter Hloop].
  split.
  - apply (Hiter graceful_input
             (apply_outside (outside graceful_input)
                (main_loop_entry (fresh_memory KEEP_RUNNING)))).
    reflexivity.
  - eexists _, _. split; [vm_compute; reflexivity|]. split; [reflexivity|].
    eapply (Hloop [graceful_input] (main_loop_entry (fresh_memory KEEP_RUNNING)) []);
      [vm_compute; reflexivity | reflexivity].
Defined.

Lemma C9_witness :
  (0 = 0 \/ 0 = 1)
  /\ exists channel' interface' outbound' src dst pkt size,
       send_next_data example_config (ref_local_sender_channel sending_refs)
         (ref_worker_interface sending_refs) (ref_outbound sending_refs) 0
       = (channel', interface', outbound',
          [ev_eth_send_bytes src dst pkt size;
           ev_remote_update_ptr_val to_receiver_pkts_sent_id 1])
       /\ src_ch_id (get_packet_header (ref_local_sender_channel sending_refs) src) = 7
       /\ src_ch_id pkt = 0
       /\ receiver_send_received_ack example_config (mkPtr 0)
            (set_packet_header empty_channel dst pkt)
          = Some [ev_remote_update_ptr_val to_sender_0_pkts_acked_id 1].
Proof.
  split; [left; reflexivity|].
  destruct (C9_source_channel_id_overwritten example_config
              (ref_local_sender_channel sending_refs) (ref_worker_interface sending_refs)
              (ref_outbound sending_refs) 0 (or_introl eq_refl))
    as (channel' & interface' & outbound' & src & dst & pkt & size & E & Hpkt & Hsrc & Hdst & Hrx).
  exists channel', interface', outbound', src, dst, pkt, size.
  split; [exact E|].
  assert (Es : src = 0) by (vm_compute in E; inversion E; reflexivity).
  split; [rewrite Es; reflexivity|]. split; [exact Hsrc|].
  destruct (Hrx empty_channel (mkPtr 0) (mkArray2 (mkPtr 0) (mkPtr 0)))
    as [(stream & Hs & Hack) _].
  { rewrite Hdst. reflexivity. }
  inversion Hs; subst stream. exact Hack.
Defined.

Lemma C10_witness :
  run_fabric_edm_main_loop example_config c7_inputs (fresh_memory IMMEDIATELY_TERMINATE)
  = run_fabric_edm_main_loop example_config c7_inputs (fresh_memory KEEP_RUNNING)
  /\ got_termination_signal
       (termination_signal
          (apply_outside quiet_outside (main_loop_entry (fresh_memory IMMEDIATELY_TERMINATE))))
     = false
  /\ forall st' evs,
       run_fabric_edm_main_loop example_config c7_inputs (fresh_memory IMMEDIATELY_TERMINATE)
       <> Returned st' evs.
Proof.
  destruct (C10_entry_discards_termination_signal example_config c7_inputs
              (fresh_memory KEEP_RUNNING) IMMEDIATELY_TERMINATE)
    as (_ & Hsame & Hfirst & Hrun).
  split; [exact Hsame|]. split.
  - apply (Hfirst (mkIterationInput quiet_outside false zero_regs (mkDownstream true) idle_polls)).
    reflexivity.
  - apply Hrun. reflexivity.
Defined.

(** * Further properties of the kernel *)

(** ** Packet classification *)

(** X1: the forward type packs the two routing answers into two bits: bit
    0 is "consume locally", bit 1 is "forward to the next chip".  A packet
    can be forwarded completely exactly when it has a destination at all
    and, if it must go on to the next chip, the downstream EDM has space;
    and [receiver_forward_packet] issues the local write exactly for the
    packets to consume locally, followed by the downstream forward exactly
    for the packets to forward. *)
Theorem X1_forward_type_decodes :
  forall cfg h downstream,
    let consume := packet_must_be_consumed_locally cfg h in
    let forward := packet_must_be_forwarded_to_next_chip cfg h in
    Z.testbit (get_packet_local_forward_type cfg h) 0 = consume
    /\ Z.testbit (get_packet_local_forward_type cfg h) 1 = forward
    /\ 0 <= get_packet_local_forward_type cfg h <= 3
    /\ can_forward_packet_completely cfg h downstream
       = (consume || forward) && (negb forward || edm_has_space_for_packet downstream)
    /\ receiver_forward_packet cfg h
       = (if consume then [ev_execute_chip_unicast_to_local_chip h] else [])
         ++ (if forward then [ev_forward_payload_to_downstream_edm h] else []).
Proof.
  intros cfg h downstream. cbv zeta.
  unfold can_forward_packet_completely, receiver_forward_packet,
    get_packet_local_forward_type.
  destruct (packet_must_be_consumed_locally cfg h),
           (packet_must_be_forwarded_to_next_chip cfg h);
    cbn; repeat split; try reflexivity; try lia;
    destruct (edm_has_space_for_packet downstream); reflexivity.
Qed.

(** ** The packet header recorder *)

Lemma uint32_add_idemp a b : uint32 (uint32 a + uint32 b) = uint32 (a + b).
Proof. unfold uint32. symmetry. apply Zplus_mod. Qed.

Lemma uint32_small x : 0 <= x < 2 ^ 32 -> uint32 x = x.
Proof. intros H. unfold uint32. apply Z.mod_small. exact H. Qed.

(** One record on a ring of [n] slots moves the index one slot round. *)
Lemma record_packet_header_ring sz r p :
  0 < buffer_n_headers r < 2 ^ 32 ->
  0 <= buffer_index r < buffer_n_headers r ->
  let '(r', w) := record_packet_header sz r p in
  buffer_ptr r' = buffer_ptr r
  /\ buffer_n_headers r' = buffer_n_headers r
  /\ buffer_index r' = (buffer_index r + 1) mod buffer_n_headers r
  /\ w = mkRecorderWrite (uint32 p) (uint32 (buffer_ptr r + buffer_index r * sz)) sz.
Proof.
  intros Hn Hi. unfold record_packet_header. cbn.
  rewrite uint32_add_idemp.
  rewrite (uint32_small (buffer_index r + 1)) by lia.
  repeat split.
  destruct (Z.eqb_spec (buffer_index r + 1) (buffer_n_headers r)) as [E | E].
  - rewrite E. symmetry. apply Z.mod_same. lia.
  - symmetry. apply Z.mod_small. lia.
Qed.

Lemma record_packet_headers_ring sz ptrs :
  forall r,
    0 < buffer_n_headers r < 2 ^ 32 ->
    0 <= buffer_index r < buffer_n_headers r ->
    let '(r', ws) := record_packet_headers sz r ptrs in
    buffer_ptr r' = buffer_ptr r
    /\ buffer_n_headers r' = buffer_n_headers r
    /\ buffer_index r' = (buffer_index r + Z.of_nat (length ptrs)) mod buffer_n_headers r
    /\ map write_src_addr ws = map uint32 ptrs
    /\ map write_dest_l1_addr ws
       = map (fun j => uint32 (buffer_ptr r
                               + ((buffer_index r + Z.of_nat j) mod buffer_n_headers r) * sz))
             (seq 0 (length ptrs)).
Proof.
  induction ptrs as [|p rest IH]; intros r Hn Hi.
  - cbn. rewrite Z.add_0_r, Z.mod_small by lia. repeat split.
  - cbn [record_packet_headers].
    pose proof (record_packet_header_ring sz r p Hn Hi) as H1.
    destruct (record_packet_header sz r p) as [r1 w].
    destruct H1 as (Hp & Hnn & Hidx & Hw).
    assert (Hi1 : 0 <= buffer_index r1 < buffer_n_headers r1).
    { rewrite Hidx, Hnn. apply Z.mod_pos_bound. lia. }
    assert (Hn1 : 0 < buffer_n_headers r1 < 2 ^ 32) by (rewrite Hnn; exact Hn).
    specialize (IH r1 Hn1 Hi1).
    destruct (record_packet_headers sz r1 rest) as [r2 ws].
    destruct IH as (Hp2 & Hn2 & Hidx2 & Hsrc & Hdst).
    split; [congruence|]. split; [congruence|]. split.
    { rewrite Hidx2, Hidx, Hnn. cbn [length]. rewrite Zplus_mod_idemp_l.
      f_equal. lia. }
    split.
    { cbn [map]. rewrite Hsrc, Hw. reflexivity. }
    cbn [map length seq]. rewrite Hdst, Hw. cbn [write_dest_l1_addr].
    f_equal.
    { rewrite Z.add_0_r, Z.mod_small by lia. reflexivity. }
    rewrite <- seq_shift, map_map. apply map_ext. intros j.
    rewrite Hp, Hnn, Hidx, Zplus_mod_idemp_l.
    replace (buffer_index r + 1 + Z.of_nat j) with (buffer_index r + Z.of_nat (S j)) by lia.
    reflexivity.
Qed.

(** Without slots the index is never reset. *)
Lemma record_packet_headers_no_slots sz ptrs :
  forall r,
    buffer_n_headers r = 0 ->
    0 <= buffer_index r ->
    buffer_index r + Z.of_nat (length ptrs) < 2 ^ 32 ->
    let '(r', ws) := record_packet_headers sz r ptrs in
    buffer_index r' = buffer_index r + Z.of_nat (length ptrs)
    /\ map write_dest_l1_addr ws
       = map (fun j => uint32 (buffer_ptr r + (buffer_index r + Z.of_nat j) * sz))
             (seq 0 (length ptrs)).
Proof.
  induction ptrs as [|p rest IH]; intros r Hn Hi Hlen.
  - cbn. split; [lia|reflexivity].
  - cbn [record_packet_headers length] in *.
    destruct (record_packet_header sz r p) as [r1 w] eqn:E1.
    unfold record_packet_header in E1. cbn in E1. rewrite Hn in E1.
    rewrite uint32_add_idemp in E1.
    rewrite (uint32_small (buffer_index r + 1)) in E1 by lia.
    destruct (Z.eqb_spec (buffer_index r + 1) 0) as [E0 | _]; [lia|].
    inversion E1; subst r1 w; clear E1.
    specialize (IH (mkRecorder (buffer_ptr r) 0 (buffer_index r + 1))).
    cbn [buffer_n_headers buffer_index buffer_ptr] in IH.
    specialize (IH eq_refl ltac:(lia) ltac:(lia)).
    destruct (record_packet_headers sz _ rest) as [r2 ws].
    destruct IH as (Hidx & Hdst).
    split; [lia|].
    cbn [map seq write_dest_l1_addr]. rewrite Hdst. f_equal.
    { rewrite Z.add_0_r. reflexivity. }
    rewrite <- seq_shift, map_map. apply map_ext. intros j.
    replace (buffer_index r + 1 + Z.of_nat j) with (buffer_index r + Z.of_nat (S j)) by lia.
    reflexivity.
Qed.

(** X2: a recorder over [n] header slots (0 < n) is a ring: after any
    number of records the index is the number of records modulo [n], and
    the j-th record is written to slot [j mod n] of the buffer, so the
    recorder keeps the last [n] headers.  A recorder constructed with no
    slots never resets its index: the j-th record is written [j] headers
    past the buffer start. *)
Theorem X2_packet_header_recorder_is_a_ring :
  forall sizeof_header buffer_ptr packet_header_ptrs,
    (forall n,
       0 < n < 2 ^ 32 ->
       let '(r', ws) :=
         record_packet_headers sizeof_header (new_PacketHeaderRecorder buffer_ptr n)
           packet_header_ptrs in
       buffer_index r' = Z.of_nat (length packet_header_ptrs) mod n
       /\ 0 <= buffer_index r' < n
       /\ map write_src_addr ws = map uint32 packet_header_ptrs
       /\ map write_dest_l1_addr ws
          = map (fun j => uint32 (buffer_ptr + (Z.of_nat j mod n) * sizeof_header))
                (seq 0 (length packet_header_ptrs)))
    /\ (Z.of_nat (length packet_header_ptrs) < 2 ^ 32 ->
        let '(r', ws) :=
          record_packet_headers sizeof_header (new_PacketHeaderRecorder buffer_ptr 0)
            packet_header_ptrs in
        buffer_index r' = Z.of_nat (length packet_header_ptrs)
        /\ map write_dest_l1_addr ws
           = map (fun j => uint32 (buffer_ptr + Z.of_nat j * sizeof_header))
                 (seq 0 (length packet_header_ptrs))).
Proof.
  intros sz bp ptrs. split.
  - intros n Hn.
    pose proof (record_packet_headers_ring sz ptrs (new_PacketHeaderRecorder bp n)) as H.
    cbn [new_PacketHeaderRecorder buffer_n_headers buffer_index buffer_ptr] in H.
    specialize (H Hn ltac:(lia)).
    destruct (record_packet_headers sz _ ptrs) as [r' ws].
    destruct H as (_ & _ & Hidx & Hsrc & Hdst).
    cbn [Z.add] in Hidx, Hdst.
    split; [exact Hidx|]. split; [rewrite Hidx; apply Z.mod_pos_bound; lia|].
    split; [exact Hsrc|exact Hdst].
  - intros Hlen.
    pose proof (record_packet_headers_no_slots sz ptrs (new_PacketHeaderRecorder bp 0)) as H.
    cbn [new_PacketHeaderRecorder buffer_n_headers buffer_index buffer_ptr] in H.
    specialize (H eq_refl ltac:(lia) ltac:(lia)).
    destruct (record_packet_headers sz _ ptrs) as [r' ws].
    destruct H as (Hidx & Hdst). cbn [Z.add] in Hidx, Hdst.
    split; [exact Hidx|exact Hdst].
Qed.

(** ** The window of the outbound view *)

Lemma iter_increment_ptr cfg n p :
  0 < ptr_wrap cfg ->
  distance_behind cfg p (Nat.iter n (increment cfg) p) = Z.of_nat n mod ptr_wrap cfg.
Proof.
  intros HW. induction n as [|n IH].
  - cbn [Nat.iter]. rewrite distance_behind_self by exact HW.
    symmetry. apply Z.mod_0_l. lia.
  - change (Nat.iter (S n) (increment cfg) p)
      with (increment_n cfg (Nat.iter n (increment cfg) p) 1).
    rewrite distance_behind_increment_n_leading by exact HW.
    rewrite IH, Zplus_mod_idemp_l. f_equal. lia.
Qed.

(** X3: the window test of the sender is safe across the wrap of the
    counters: with [n] packets sent beyond the completion pointer, wherever
    the counters stand, the remote receiver has space exactly when [n] is
    below RECEIVER_NUM_BUFFERS, and there are incomplete packets exactly
    when [n] is not zero. *)
Theorem X3_outbound_window_capacity :
  forall cfg completion ack n,
    0 < ptr_wrap cfg ->
    0 <= ptr completion < ptr_wrap cfg ->
    Z.of_nat n < ptr_wrap cfg ->
    let o := mkOutbound (Nat.iter n (increment cfg) completion) ack completion in
    has_space_for_packet cfg o = (Z.of_nat n <? RECEIVER_NUM_BUFFERS cfg)
    /\ has_incomplete_eth_packets o = negb (Z.of_nat n =? 0).
Proof.
  intros cfg c a n HW Hc Hn. cbv zeta.
  unfold has_space_for_packet, has_incomplete_eth_packets, get_ptr.
  cbn [wrptr outbound_completion_ptr].
  pose proof (iter_increment_ptr cfg n c HW) as Hd.
  rewrite Z.mod_small in Hd by lia.
  rewrite Hd. split; [reflexivity|].
  f_equal.
  destruct (Z.eqb_spec (Z.of_nat n) 0) as [E0 | E0].
  - assert (n = 0%nat) by lia. subst n. cbn [Nat.iter]. apply Z.eqb_refl.
  - apply Z.eqb_neq. intros E.
    assert (Hp : Nat.iter n (increment cfg) c = c) by (destruct (Nat.iter n (increment cfg) c), c; cbn in E; congruence).
    rewrite Hp, distance_behind_self in Hd by exact HW. lia.
Qed.

(** ** The receiver step in full *)

Lemma valid_src_ch_id_cases h :
  valid_src_ch_id h = true -> src_ch_id h = 0 \/ src_ch_id h = 1.
Proof.
  unfold valid_src_ch_id, NUM_SENDER_CHANNELS.
  rewrite andb_true_iff, Z.leb_le, Z.ltb_lt. lia.
Qed.

Lemma receiver_step_ack_full cfg hw r :
  let p := ref_receiver_channel_pointers r in
  let pkt := packet_at cfg (ref_local_receiver_channel r) (ack_ptr p) in
  let v := get_ptr_val (ref_receiver_regs r) to_receiver_pkts_sent_id in
  valid_src_ch_id pkt = true ->
  exists stream,
    array_get to_sender_packets_acked_streams (src_ch_id pkt) = Some stream
    /\ receiver_step_ack cfg hw r
       = Some (if (0 <? v) && negb (eth_txq_is_busy_at_ack hw)
               then (mkReceiverRefs (ref_local_receiver_channel r)
                       (ref_remote_eth_sender_wrptrs r)
                       (mkReceiverPointers (wr_sent_ptr p) (wr_flush_ptr p)
                          (increment cfg (ack_ptr p)) (completion_ptr p))
                       (ref_receiver_state r)
                       (increment_local_update_ptr_val (ref_receiver_regs r)
                          to_receiver_pkts_sent_id (-1)),
                     [ev_get_ptr_val to_receiver_pkts_sent_id v;
                      ev_increment_local_update_ptr_val to_receiver_pkts_sent_id (-1);
                      ev_remote_update_ptr_val stream 1])
               else (r, [ev_get_ptr_val to_receiver_pkts_sent_id v])).
Proof.
  cbv zeta. intros Hv. apply valid_src_ch_id_cases in Hv.
  unfold receiver_step_ack, receiver_send_received_ack, packet_at in *.
  destruct Hv as [E | E]; rewrite E; cbn [array_get Z.eqb obind];
    eexists; (split; [reflexivity|]);
    destruct ((0 <? _) && _); reflexivity.
Qed.

Lemma receiver_step_completion_full cfg hw r :
  let p := ref_receiver_channel_pointers r in
  let pkt := packet_at cfg (ref_local_receiver_channel r) (completion_ptr p) in
  valid_src_ch_id pkt = true ->
  exists stream sender_ptr,
    array_get to_sender_packets_completed_streams (src_ch_id pkt) = Some stream
    /\ array_get (ref_remote_eth_sender_wrptrs r) (src_ch_id pkt) = Some sender_ptr
    /\ receiver_step_completion cfg hw r
       = Some (if negb (is_caught_up_to (completion_ptr p) (wr_flush_ptr p))
                  && negb (eth_txq_is_busy_at_completion hw)
               then (mkReceiverRefs (ref_local_receiver_channel r)
                       (array_set (ref_remote_eth_sender_wrptrs r) (src_ch_id pkt)
                          (increment cfg sender_ptr))
                       (mkReceiverPointers (wr_sent_ptr p) (wr_flush_ptr p) (ack_ptr p)
                          (increment cfg (completion_ptr p)))
                       (ref_receiver_state r) (ref_receiver_regs r),
                     [ev_remote_update_ptr_val stream 1])
               else (r, [])).
Proof.
  cbv zeta. intros Hv. apply valid_src_ch_id_cases in Hv.
  unfold receiver_step_completion, receiver_send_completion_ack, packet_at in *.
  destruct Hv as [E | E]; rewrite E; cbn [array_get Z.eqb obind];
    eexists _, _; (split; [reflexivity|]); (split; [reflexivity|]);
    destruct (negb (is_caught_up_to _ _)); cbn [andb]; try reflexivity;
    destruct (negb (eth_txq_is_busy_at_completion hw)); reflexivity.
Qed.

(** What the receiver step did, read off the state it started from and the
    pointers it ended with. *)
Lemma run_receiver_channel_step_full cfg downstream hw r :
  receiver_src_ids_valid cfg r = true ->
  exists r' ack_stream completion_stream sender_ptr,
    let p := ref_receiver_channel_pointers r in
    let p' := ref_receiver_channel_pointers r' in
    let buf := ref_local_receiver_channel r in
    let v := get_ptr_val (ref_receiver_regs r) to_receiver_pkts_sent_id in
    let acked := (0 <? v) && negb (eth_txq_is_busy_at_ack hw) in
    let forwarded :=
      negb (is_caught_up_to (wr_sent_ptr p) (ack_ptr p'))
      && can_forward_packet_completely cfg (packet_at cfg buf (wr_sent_ptr p)) downstream in
    let flushed :=
      negb (is_caught_up_to (wr_flush_ptr p) (wr_sent_ptr p'))
      && ncrisc_noc_nonposted_writes_sent hw in
    let completed :=
      negb (is_caught_up_to (completion_ptr p) (wr_flush_ptr p'))
      && negb (eth_txq_is_busy_at_completion hw) in
    let completed_src := src_ch_id (packet_at cfg buf (completion_ptr p)) in
    array_get to_sender_packets_acked_streams (src_ch_id (packet_at cfg buf (ack_ptr p)))
    = Some ack_stream
    /\ array_get to_sender_packets_completed_streams completed_src = Some completion_stream
    /\ array_get (ref_remote_eth_sender_wrptrs r) completed_src = Some sender_ptr
    /\ run_receiver_channel_step cfg downstream hw r
       = Some (r',
               (ev_get_ptr_val to_receiver_pkts_sent_id v
                :: (if acked
                    then [ev_increment_local_update_ptr_val to_receiver_pkts_sent_id (-1);
                          ev_remote_update_ptr_val ack_stream 1]
                    else []))
               ++ (if forwarded
                   then receiver_forward_packet cfg (packet_at cfg buf (wr_sent_ptr p))
                   else [])
               ++ (if flushed
                   then [ev_eth_clear_sender_channel_ack
                           (get_buffer_index (RECEIVER_NUM_BUFFERS cfg) (wr_flush_ptr p))]
                   else [])
               ++ (if completed then [ev_remote_update_ptr_val completion_stream 1] else []))
    /\ ref_local_receiver_channel r' = buf
    /\ ack_ptr p' = (if acked then increment cfg (ack_ptr p) else ack_ptr p)
    /\ wr_sent_ptr p' = (if forwarded then increment cfg (wr_sent_ptr p) else wr_sent_ptr p)
    /\ wr_flush_ptr p' = (if flushed then increment cfg (wr_flush_ptr p) else wr_flush_ptr p)
    /\ completion_ptr p'
       = (if completed then increment cfg (completion_ptr p) else completion_ptr p)
    /\ ref_remote_eth_sender_wrptrs r'
       = (if completed
          then array_set (ref_remote_eth_sender_wrptrs r) completed_src (increment cfg sender_ptr)
          else ref_remote_eth_sender_wrptrs r)
    /\ (forall id,
          ref_receiver_regs r' id
          = ref_receiver_regs r id
            - (if acked && (id =? to_receiver_pkts_sent_id) then 1 else 0)).
Proof.
  intros Hv. unfold receiver_src_ids_valid in Hv.
  apply andb_true_iff in Hv. destruct Hv as [Hva Hvc].
  destruct (receiver_step_ack_full cfg hw r Hva) as (sa & Esa & E1).
  unfold run_receiver_channel_step. rewrite E1. clear E1.
  set (acked := (0 <? get_ptr_val (ref_receiver_regs r) to_receiver_pkts_sent_id)
                && negb (eth_txq_is_busy_at_ack hw)).
  set (r1 := mkReceiverRefs _ _ _ _ _).
  assert (Hr1 : exists r1', (if acked then (r1, [ev_get_ptr_val to_receiver_pkts_sent_id
                                             (get_ptr_val (ref_receiver_regs r) to_receiver_pkts_sent_id);
                                           ev_increment_local_update_ptr_val to_receiver_pkts_sent_id (-1);
                                           ev_remote_update_ptr_val sa 1])
                             else (r, [ev_get_ptr_val to_receiver_pkts_sent_id
                                        (get_ptr_val (ref_receiver_regs r) to_receiver_pkts_sent_id)]))
                            = (r1', ev_get_ptr_val to_receiver_pkts_sent_id
                                      (get_ptr_val (ref_receiver_regs r) to_receiver_pkts_sent_id)
                                    :: (if acked
                                        then [ev_increment_local_update_ptr_val to_receiver_pkts_sent_id (-1);
                                              ev_remote_update_ptr_val sa 1]
                                        else []))
                            /\ ref_local_receiver_channel r1' = ref_local_receiver_channel r
                            /\ ref_remote_eth_sender_wrptrs r1' = ref_remote_eth_sender_wrptrs r
                            /\ wr_sent_ptr (ref_receiver_channel_pointers r1')
                               = wr_sent_ptr (ref_receiver_channel_pointers r)
                            /\ wr_flush_ptr (ref_receiver_channel_pointers r1')
                               = wr_flush_ptr (ref_receiver_channel_pointers r)
                            /\ completion_ptr (ref_receiver_channel_pointers r1')
                               = completion_ptr (ref_receiver_channel_pointers r)
                            /\ ack_ptr (ref_receiver_channel_pointers r1')
                               = (if acked then increment cfg (ack_ptr (ref_receiver_channel_pointers r))
                                  else ack_ptr (ref_receiver_channel_pointers r))
                            /\ (forall id, ref_receiver_regs r1' id
                                  = ref_receiver_regs r id
                                    - (if acked && (id =? to_receiver_pkts_sent_id) then 1 else 0))).
  { destruct acked; eexists; (split; [reflexivity|]); subst r1; cbn; repeat split; auto.
    - intros id. unfold increment_local_update_ptr_val. destruct (id =? _); lia.
    - intros id. lia. }
  destruct Hr1 as (r1' & -> & B1 & W1 & Ps1 & Pf1 & Pc1 & Pa1 & R1).
  clearbody r1. clear r1. cbn [obind].
  destruct (receiver_step_forward cfg downstream r1') as [r2 evs2] eqn:E2.
  assert (H2 : ref_local_receiver_channel r2 = ref_local_receiver_channel r1'
               /\ ref_remote_eth_sender_wrptrs r2 = ref_remote_eth_sender_wrptrs r1'
               /\ ref_receiver_regs r2 = ref_receiver_regs r1'
               /\ wr_flush_ptr (ref_receiver_channel_pointers r2)
                  = wr_flush_ptr (ref_receiver_channel_pointers r1')
               /\ ack_ptr (ref_receiver_channel_pointers r2)
                  = ack_ptr (ref_receiver_channel_pointers r1')
               /\ completion_ptr (ref_receiver_channel_pointers r2)
                  = completion_ptr (ref_receiver_channel_pointers r1')
               /\ let fw := negb (is_caught_up_to (wr_sent_ptr (ref_receiver_channel_pointers r1'))
                                    (ack_ptr (ref_receiver_channel_pointers r1')))
                            && can_forward_packet_completely cfg
                                 (packet_at cfg (ref_local_receiver_channel r1')
                                    (wr_sent_ptr (ref_receiver_channel_pointers r1')))
                                 downstream in
                  wr_sent_ptr (ref_receiver_channel_pointers r2)
                  = (if fw then increment cfg (wr_sent_ptr (ref_receiver_channel_pointers r1'))
                     else wr_sent_ptr (ref_receiver_channel_pointers r1'))
                  /\ evs2 = (if fw then receiver_forward_packet cfg
                                          (packet_at cfg (ref_local_receiver_channel r1')
                                             (wr_sent_ptr (ref_receiver_channel_pointers r1')))
                             else [])).
  { unfold receiver_step_forward in E2. unfold packet_at. cbv zeta in E2 |- *.
    destruct (is_caught_up_to (wr_sent_ptr (ref_receiver_channel_pointers r1'))
                (ack_ptr (ref_receiver_channel_pointers r1'))); cbn [negb andb] in E2 |- *;
      [|destruct (can_forward_packet_completely cfg _ downstream)];
      inversion E2; subst; cbn; repeat split; reflexivity. }
  destruct H2 as (B2 & W2 & R2 & Pf2 & Pa2 & Pc2 & Ps2 & Ev2). clear E2.
  destruct (receiver_step_flush cfg hw r2) as [r3 evs3] eqn:E3.
  assert (H3 : ref_local_receiver_channel r3 = ref_local_receiver_channel r2
               /\ ref_remote_eth_sender_wrptrs r3 = ref_remote_eth_sender_wrptrs r2
               /\ ref_receiver_regs r3 = ref_receiver_regs r2
               /\ wr_sent_ptr (ref_receiver_channel_pointers r3)
                  = wr_sent_ptr (ref_receiver_channel_pointers r2)
               /\ ack_ptr (ref_receiver_channel_pointers r3)
                  = ack_ptr (ref_receiver_channel_pointers r2)
               /\ completion_ptr (ref_receiver_channel_pointers r3)
                  = completion_ptr (ref_receiver_channel_pointers r2)
               /\ let fl := negb (is_caught_up_to (wr_flush_ptr (ref_receiver_channel_pointers r2))
                                    (wr_sent_ptr (ref_receiver_channel_pointers r2)))
                            && ncrisc_noc_nonposted_writes_sent hw in
                  wr_flush_ptr (ref_receiver_channel_pointers r3)
                  = (if fl then increment cfg (wr_flush_ptr (ref_receiver_channel_pointers r2))
                     else wr_flush_ptr (ref_receiver_channel_pointers r2))
                  /\ evs3 = (if fl then [ev_eth_clear_sender_channel_ack
                                           (get_buffer_index (RECEIVER_NUM_BUFFERS cfg)
                                              (wr_flush_ptr (ref_receiver_channel_pointers r2)))]
                             else [])).
  { unfold receiver_step_flush in E3. cbv zeta in E3 |- *.
    destruct (is_caught_up_to (wr_flush_ptr (ref_receiver_channel_pointers r2))
                (wr_sent_ptr (ref_receiver_channel_pointers r2))); cbn [negb andb] in E3 |- *;
      [|destruct (ncrisc_noc_nonposted_writes_sent hw)];
      inversion E3; subst; cbn; repeat split; reflexivity. }
  destruct H3 as (B3 & W3 & R3 & Ps3 & Pa3 & Pc3 & Pf3 & Ev3). clear E3.
  assert (Hvc3 : valid_src_ch_id
            (packet_at cfg (ref_local_receiver_channel r3)
               (completion_ptr (ref_receiver_channel_pointers r3))) = true).
  { rewrite B3, B2, B1, Pc3, Pc2, Pc1. exact Hvc. }
  destruct (receiver_step_completion_full cfg hw r3 Hvc3) as (sc & sp & Esc & Esp & E4).
  rewrite E4. clear E4.
  rewrite B3, B2, B1, Pc3, Pc2, Pc1 in Esc, Esp |- *.
  rewrite W3, W2, W1 in Esp |- *.
  set (completed := negb (is_caught_up_to (completion_ptr (ref_receiver_channel_pointers r))
                            (wr_flush_ptr (ref_receiver_channel_pointers r3)))
                    && negb (eth_txq_is_busy_at_completion hw)).
  set (r4 := mkReceiverRefs _ _ _ _ _).
  exists (if completed then r4 else r3), sa, sc, sp.
  cbv zeta.
  assert (Hfinal : (if completed then (r4, [ev_remote_update_ptr_val sc 1]) else (r3, []))
                   = (if completed then r4 else r3,
                      if completed then [ev_remote_update_ptr_val sc 1] else []))
    by (destruct completed; reflexivity).
  rewrite Hfinal. cbn [obind]. clear Hfinal.
  assert (Pa' : ack_ptr (ref_receiver_channel_pointers (if completed then r4 else r3))
                = ack_ptr (ref_receiver_channel_pointers r1'))
    by (destruct completed; subst r4; cbn; congruence).
  assert (Ps' : wr_sent_ptr (ref_receiver_channel_pointers (if completed then r4 else r3))
                = wr_sent_ptr (ref_receiver_channel_pointers r2))
    by (destruct completed; subst r4; cbn; congruence).
  assert (Pf' : wr_flush_ptr (ref_receiver_channel_pointers (if completed then r4 else r3))
                = wr_flush_ptr (ref_receiver_channel_pointers r3))
    by (destruct completed; subst r4; cbn; congruence).
  rewrite Pa', Ps', Pf'. fold completed.
  split; [exact Esa|]. split; [exact Esc|]. split; [exact Esp|].
  split.
  { subst evs2 evs3. rewrite B1, Ps1, Pf2, Pf1. reflexivity. }
  split; [destruct completed; subst r4; cbn; congruence|].
  split; [exact Pa1|].
  split; [rewrite Ps2, B1, Ps1; reflexivity|].
  split; [rewrite Pf3, Pf2, Pf1, Ps2, Ps1, B1; reflexivity|].
  split; [destruct completed; subst r4; cbn; [reflexivity | congruence]|].
  split; [destruct completed; subst r4; cbn; [reflexivity | congruence]|].
  intros id. rewrite <- R1.
  destruct completed; subst r4; cbn; congruence.
Qed.




Lemma increment_not_caught_up cfg p :
  1 < ptr_wrap cfg -> in_range cfg p -> is_caught_up_to p (increment cfg p) = false.
Proof.
  unfold in_range, is_caught_up_to, increment, increment_n. cbn [ptr].
  intros HW Hp. apply Z.eqb_neq.
  destruct (Z.eq_dec (ptr p + 1) (ptr_wrap cfg)) as [E | E].
  - rewrite E, Z.mod_same by lia. lia.
  - rewrite Z.mod_small by lia. lia.
Qed.

(** X5: the four blocks of the receiver step chain within one step.  A
    receiver at rest (all four pointers on the same slot) that finds a
    packet credit, an idle transmit queue and flushed NOC writes, and whose
    packet can be forwarded completely, takes the packet through all four
    stages in that one step: it acknowledges it, forwards it, clears the
    slot's sync word and completes it, in this order, and all four pointers
    end one slot further. *)
Theorem X5_receiver_pipeline_in_one_step :
  forall cfg downstream hw r p,
    1 < ptr_wrap cfg ->
    in_range cfg p ->
    ref_receiver_channel_pointers r = mkReceiverPointers p p p p ->
    0 < get_ptr_val (ref_receiver_regs r) to_receiver_pkts_sent_id ->
    eth_txq_is_busy_at_ack hw = false ->
    ncrisc_noc_nonposted_writes_sent hw = true ->
    eth_txq_is_busy_at_completion hw = false ->
    valid_src_ch_id (packet_at cfg (ref_local_receiver_channel r) p) = true ->
    can_forward_packet_completely cfg (packet_at cfg (ref_local_receiver_channel r) p)
      downstream = true ->
    exists r' ack_stream completion_stream,
      let pkt := packet_at cfg (ref_local_receiver_channel r) p in
      array_get to_sender_packets_acked_streams (src_ch_id pkt) = Some ack_stream
      /\ array_get to_sender_packets_completed_streams (src_ch_id pkt) = Some completion_stream
      /\ run_receiver_channel_step cfg downstream hw r
         = Some (r',
                 [ev_get_ptr_val to_receiver_pkts_sent_id
                    (get_ptr_val (ref_receiver_regs r) to_receiver_pkts_sent_id);
                  ev_increment_local_update_ptr_val to_receiver_pkts_sent_id (-1);
                  ev_remote_update_ptr_val ack_stream 1]
                 ++ receiver_forward_packet cfg pkt
                 ++ [ev_eth_clear_sender_channel_ack
                       (get_buffer_index (RECEIVER_NUM_BUFFERS cfg) p);
                     ev_remote_update_ptr_val completion_stream 1])
      /\ ref_receiver_channel_pointers r'
         = mkReceiverPointers (increment cfg p) (increment cfg p)
             (increment cfg p) (increment cfg p).
Proof.
  intros cfg downstream hw r p HW Hp Eptrs Hv Ba Fl Bc Hvalid Hcan.
  assert (Hvs : receiver_src_ids_valid cfg r = true).
  { unfold receiver_src_ids_valid. rewrite Eptrs. cbn [ack_ptr completion_ptr].
    rewrite Hvalid. reflexivity. }
  destruct (run_receiver_channel_step_full cfg downstream hw r Hvs)
    as (r' & sa & sc & sp & Hfull).
  cbv zeta in Hfull. rewrite Eptrs in Hfull.
  cbn [wr_sent_ptr wr_flush_ptr ack_ptr completion_ptr] in Hfull.
  destruct Hfull as (Esa & Esc & _ & E & _ & Pa & Ps & Pf & Pc & _).
  apply Z.ltb_lt in Hv. rewrite Hv, Ba in Pa, E. cbn [negb andb] in Pa, E.
  pose proof (increment_not_caught_up cfg p HW Hp) as Hn.
  rewrite Pa, Hn, Hcan in Ps, E. cbn [negb andb] in Ps, E.
  rewrite Ps, Hn, Fl in Pf, E. cbn [negb andb] in Pf, E.
  rewrite Pf, Hn, Bc in Pc, E. cbn [negb andb] in Pc, E.
  exists r', sa, sc. cbv zeta.
  split; [exact Esa|]. split; [exact Esc|]. split; [exact E|].
  rewrite (receiver_pointers_eta (ref_receiver_channel_pointers r')).
  rewrite Pa, Ps, Pf, Pc. reflexivity.
Qed.

(** ** The sender step in full *)

Lemma sender_step_send_full cfg busy i s :
  forall d1 s1 evs1, sender_step_send cfg busy i s = (d1, s1, evs1) ->
    let slot := get_buffer_index (SENDER_NUM_BUFFERS cfg) (local_wrptr (ref_worker_interface s)) in
    let h := get_packet_header (ref_local_sender_channel s) slot in
    (forall j,
       get_packet_header (ref_local_sender_channel s1) j
       = if send_condition cfg busy s && (j =? slot)
         then set_src_ch_id (get_packet_header (ref_local_sender_channel s) j) i
         else get_packet_header (ref_local_sender_channel s) j)
    /\ edm_rdptr (ref_worker_interface s1) = edm_rdptr (ref_worker_interface s)
    /\ evs1 = (if send_condition cfg busy s
               then (if enable_packet_header_recording cfg
                     then [ev_validate h; ev_record_packet_header h] else [])
                    ++ [ev_eth_send_bytes slot
                          (get_buffer_index (RECEIVER_NUM_BUFFERS cfg) (wrptr (ref_outbound s)))
                          (set_src_ch_id h i)
                          (get_payload_size_including_header cfg h);
                        ev_remote_update_ptr_val to_receiver_pkts_sent_id 1]
               else []).
Proof.
  intros d1 s1 evs1. unfold sender_step_send, send_condition. cbv zeta.
  destruct (has_space_for_packet cfg (ref_outbound s)); cbn [andb];
    [|intros H; inversion H; subst; repeat split; auto].
  destruct busy; cbn [andb negb];
    [intros H; inversion H; subst; repeat split; auto|].
  destruct (has_unsent_payload (ref_worker_interface s)); cbn [andb];
    [|intros H; inversion H; subst; repeat split; auto].
  destruct (distance_behind cfg _ _ <? SENDER_NUM_BUFFERS cfg); cbn [negb];
    [|intros H; inversion H; subst; repeat split; auto].
  pose proof (set_packet_header_same (ref_local_sender_channel s)
                (get_buffer_index (SENDER_NUM_BUFFERS cfg) (local_wrptr (ref_worker_interface s)))
                (set_src_ch_id
                   (get_packet_header (ref_local_sender_channel s)
                      (get_buffer_index (SENDER_NUM_BUFFERS cfg)
                         (local_wrptr (ref_worker_interface s)))) i)) as Hsame.
  unfold send_next_data, remote_update_ptr_val. cbv zeta.
  rewrite Hsame.
  intros H; inversion H; subst; clear H.
  cbn [ref_local_sender_channel ref_worker_interface with_local_wrptr edm_rdptr].
  split.
  { intros j. unfold set_packet_header. cbn [get_packet_header].
    destruct (Z.eqb_spec j (get_buffer_index (SENDER_NUM_BUFFERS cfg)
                              (local_wrptr (ref_worker_interface s)))) as [-> | Hj];
      reflexivity. }
  split; reflexivity.
Qed.

Lemma sender_step_connection_full cfg s :
  forall d4 s4 evs4, sender_step_connection cfg s = (d4, s4, evs4) ->
    let w := ref_worker_interface s in
    let rd := get_ptr (local_rdptr w) in
    edm_rdptr (ref_worker_interface s4)
    = (if ref_connection_established s && has_worker_teardown_request cfg w
       then rd else edm_rdptr w)
    /\ evs4 = (if ref_connection_established s
               then if has_worker_teardown_request cfg w
                    then [ev_teardown_connection rd] else []
               else if connection_is_live cfg w || has_worker_teardown_request cfg w
                    then (if enable_fabric_counters cfg then [ev_add_connection] else [])
                         ++ [ev_update_worker_copy_of_read_ptr rd]
                    else []).
Proof.
  intros d4 s4 evs4. unfold sender_step_connection, teardown_connection,
    update_worker_copy_of_read_ptr. cbv zeta.
  destruct (ref_connection_established s); cbn [negb andb].
  - destruct (has_worker_teardown_request cfg (ref_worker_interface s));
      intros H; inversion H; subst; clear H; split; reflexivity.
  - destruct (connection_is_live cfg _ || has_worker_teardown_request cfg _);
      intros H; inversion H; subst; clear H; split; reflexivity.
Qed.

(** The memory of the channel and the whole trace of a sender step, in
    terms of the state the step starts from. *)
Lemma run_sender_channel_step_full cfg busy late i s :
  i = 0 \/ i = 1 ->
  exists cs ak did s',
    array_get to_sender_packets_completed_streams i = Some cs
    /\ array_get to_sender_packets_acked_streams i = Some ak
    /\ let sent := send_condition cfg busy s in
       let c := get_ptr_val (ref_sender_regs s) cs in
       let a := get_ptr_val (ref_sender_regs s) ak + late ak in
       let w := ref_worker_interface s in
       let w' := ref_worker_interface s' in
       let slot := get_buffer_index (SENDER_NUM_BUFFERS cfg) (local_wrptr w) in
       let h := get_packet_header (ref_local_sender_channel s) slot in
       let rd' := get_ptr (local_rdptr w') in
       let established := ref_connection_established s in
       let teardown := has_worker_teardown_request cfg w in
       let connect := connection_is_live cfg w || teardown in
       run_sender_channel_step cfg busy late i s
       = Some (did, s',
               (if sent
                then (if enable_packet_header_recording cfg
                      then [ev_validate h; ev_record_packet_header h] else [])
                     ++ [ev_eth_send_bytes slot
                           (get_buffer_index (RECEIVER_NUM_BUFFERS cfg) (wrptr (ref_outbound s)))
                           (set_src_ch_id h i)
                           (get_payload_size_including_header cfg h);
                         ev_remote_update_ptr_val to_receiver_pkts_sent_id 1]
                else [])
               ++ (ev_get_ptr_val cs c
                   :: (if 0 <? c then [ev_increment_local_update_ptr_val cs (- c)] else []))
               ++ (ev_get_ptr_val ak a
                   :: (if 0 <? a
                       then (if established
                             then [ev_update_worker_copy_of_read_ptr rd'] else [])
                            ++ [ev_increment_local_update_ptr_val ak (- a)]
                       else []))
               ++ (if established
                   then if teardown then [ev_teardown_connection rd'] else []
                   else if connect
                        then (if enable_fabric_counters cfg then [ev_add_connection] else [])
                             ++ [ev_update_worker_copy_of_read_ptr rd']
                        else []))
       /\ (forall j,
             get_packet_header (ref_local_sender_channel s') j
             = if sent && (j =? slot)
               then set_src_ch_id (get_packet_header (ref_local_sender_channel s) j) i
               else get_packet_header (ref_local_sender_channel s) j)
       /\ remote_producer_wrptr w' = remote_producer_wrptr w
       /\ connection_live_semaphore w' = connection_live_semaphore w
       /\ edm_rdptr w' = (if established && teardown then rd' else edm_rdptr w)
       /\ ref_connection_established s' = (if established then negb teardown else connect)
       /\ local_rdptr w'
          = (if 0 <? c then increment_n cfg (local_rdptr w) c else local_rdptr w).
Proof.
  intros Hi.
  assert (exists cs ak, array_get to_sender_packets_completed_streams i = Some cs
                        /\ array_get to_sender_packets_acked_streams i = Some ak)
    as (cs & ak & Ecs & Eak)
    by (destruct Hi as [-> | ->]; cbn; eexists _, _; split; reflexivity).
  unfold run_sender_channel_step. rewrite Ecs, Eak. cbn [obind].
  destruct (sender_step_send cfg busy i s) as [[d1 s1] evs1] eqn:E1.
  destruct (sender_step_send_spec cfg busy i s d1 s1 evs1 E1)
    as (D1 & C1 & R1 & A1 & Rd1 & P1 & Sem1 & OA1 & OC1 & W1 & OW1 & L1 & Ri1 & Nil1 & Rs1).
  destruct (sender_step_send_full cfg busy i s d1 s1 evs1 E1) as (Ch1 & Ed1 & Ev1).
  destruct (sender_step_completions cfg cs s1) as [[c s2] evs2] eqn:E2.
  destruct (sender_step_completions_spec cfg cs s1 c s2 evs2 E2)
    as (Dc & Ch2 & C2 & W2 & A2 & P2 & Sem2 & OW2 & OA2 & Rd2 & OC2 & R2 & Ev2).
  assert (Ed2 : edm_rdptr (ref_worker_interface s2) = edm_rdptr (ref_worker_interface s1)).
  { unfold sender_step_completions in E2.
    destruct (0 <? get_ptr_val (ref_sender_regs s1) cs); inversion E2; reflexivity. }
  destruct (sender_step_acks cfg ak (land_remote_increments late s2)) as [[a s3] evs3] eqn:E3.
  destruct (sender_step_acks_spec cfg ak _ a s3 evs3 E3)
    as (Da & Ch3 & C3 & O3 & W3 & Rd3 & P3 & Sem3 & A3 & R3 & Ev3).
  assert (Ed3 : edm_rdptr (ref_worker_interface s3) = edm_rdptr (ref_worker_interface s2)).
  { unfold sender_step_acks in E3.
    destruct (0 <? get_ptr_val _ ak); inversion E3; reflexivity. }
  cbn [land_remote_increments ref_sender_regs ref_local_sender_channel
       ref_connection_established ref_outbound ref_worker_interface] in *.
  destruct (sender_step_connection cfg s3) as [[d4 s4] evs4] eqn:E4.
  destruct (sender_step_connection_spec cfg s3 d4 s4 evs4 E4)
    as (D4 & Ch4 & O4 & R4 & W4 & A4 & Rd4 & P4 & Sem4 & C4 & Se4 & Ri4 & Rs4 & Nil4).
  destruct (sender_step_connection_full cfg s3 d4 s4 evs4 E4) as (Ed4 & Ev4).
  cbv zeta in Ch1, Ev1, Ed4, Ev4.
  assert (Hsem : connection_live_semaphore (ref_worker_interface s3)
                 = connection_live_semaphore (ref_worker_interface s)) by congruence.
  assert (Hconn : ref_connection_established s3 = ref_connection_established s) by congruence.
  assert (Htd : has_worker_teardown_request cfg (ref_worker_interface s3)
                = has_worker_teardown_request cfg (ref_worker_interface s))
    by (unfold has_worker_teardown_request; rewrite Hsem; reflexivity).
  assert (Hlive : connection_is_live cfg (ref_worker_interface s3)
                  = connection_is_live cfg (ref_worker_interface s))
    by (unfold connection_is_live; rewrite Hsem; reflexivity).
  assert (Hrd : local_rdptr (ref_worker_interface s3) = local_rdptr (ref_worker_interface s4))
    by congruence.
  assert (Hrd2 : local_rdptr (ref_worker_interface s2) = local_rdptr (ref_worker_interface s4))
    by congruence.
  rewrite Hconn, Htd, Hrd in Ed4. rewrite Hconn, Htd, Hlive, Hrd in Ev4.
  rewrite C2, C1, Rd2, Rd1 in Ev3.
  assert (Hc : c = get_ptr_val (ref_sender_regs s) cs) by (rewrite Dc, R1; reflexivity).
  assert (Ha : a = get_ptr_val (ref_sender_regs s) ak + late ak).
  { rewrite Da. unfold get_ptr_val. rewrite R2, R1.
    assert (Hne : (ak =? cs) = false)
      by (destruct Hi as [-> | ->]; cbn in Ecs, Eak; inversion Ecs; inversion Eak; reflexivity).
    rewrite Hne, andb_false_r. reflexivity. }
  assert (Hrd4 : local_rdptr (ref_worker_interface s4)
                 = (if 0 <? c then increment_n cfg (local_rdptr (ref_worker_interface s)) c
                    else local_rdptr (ref_worker_interface s)))
    by (rewrite <- Hrd2, Rd2, Rd1; reflexivity).
  exists cs, ak, (d1 || (0 <? c + a) || d4), s4.
  split; [reflexivity|]. split; [reflexivity|]. cbv zeta.
  rewrite <- Hc, <- Ha.
  split.
  { rewrite Ev1, Ev2, Ev3, Ev4. rewrite Hrd4. reflexivity. }
  split; [intros j; rewrite Ch4, Ch3, Ch2; apply Ch1|].
  split; [congruence|]. split; [congruence|].
  split; [rewrite Ed4; destruct (_ && _); congruence|].
  split; [|exact Hrd4].
  rewrite C4, D4, Hconn. unfold connection_changes. rewrite Hconn, Htd, Hlive.
  destruct (ref_connection_established s),
    (has_worker_teardown_request cfg (ref_worker_interface s)),
    (connection_is_live cfg (ref_worker_interface s)); reflexivity.
Qed.


(** X7: the connection block of the sender step.  The blocks before it
    write neither the connection flag nor the semaphore, so the block
    decides on their values at the start of the step: a channel that is
    not connected is connected when the semaphore reads connection-live or
    teardown-request; a connected channel is torn down when it reads
    teardown-request, and not otherwise.  The read pointer handed to the
    worker on either occasion is the one after the completions drained in
    this same step, and no teardown or connection event occurs earlier in
    the step. *)
Theorem X7_sender_connection_lifecycle :
  forall cfg busy late i s,
    i = 0 \/ i = 1 ->
    exists cs did s' flow,
      array_get to_sender_packets_completed_streams i = Some cs
      /\ let w := ref_worker_interface s in
         let w' := ref_worker_interface s' in
         let c := get_ptr_val (ref_sender_regs s) cs in
         let rd' := get_ptr (local_rdptr w') in
         let established := ref_connection_established s in
         let teardown := has_worker_teardown_request cfg w in
         let connect := connection_is_live cfg w || teardown in
         run_sender_channel_step cfg busy late i s
         = Some (did, s',
                 flow
                 ++ (if established
                     then if teardown then [ev_teardown_connection rd'] else []
                     else if connect
                          then (if enable_fabric_counters cfg then [ev_add_connection] else [])
                               ++ [ev_update_worker_copy_of_read_ptr rd']
                          else []))
         /\ ref_connection_established s' = (if established then negb teardown else connect)
         /\ local_rdptr w'
            = (if 0 <? c then increment_n cfg (local_rdptr w) c else local_rdptr w)
         /\ (forall v, ~ In (ev_teardown_connection v) flow)
         /\ ~ In ev_add_connection flow.
Proof.
  intros cfg busy late i s Hi.
  destruct (run_sender_channel_step_full cfg busy late i s Hi)
    as (cs & ak & did & s' & Ecs & _ & H).
  cbv zeta in H. destruct H as (E & _ & _ & _ & _ & Hc & Hrd).
  match type of E with
  | _ = Some (_, _, ?A ++ ?B ++ ?C ++ _) => exists cs, did, s', (A ++ B ++ C)
  end.
  split; [exact Ecs|]. cbv zeta.
  split; [rewrite <- !app_assoc; exact E|].
  split; [exact Hc|]. split; [exact Hrd|].
  split; [intros v Hin|intros Hin];
    repeat match type of Hin with
           | context [if ?b then _ else _] => destruct b
           end;
    cbn in Hin; intuition discriminate.
Qed.


(** X9: the sender step neither loses a credit nor counts one twice.
    Modulo the range of the pointers, the local read pointer plus the
    completion counter, the outbound completion pointer plus the completion
    counter, and the local ack pointer plus the ack counter change in a
    step only by what the other side of the link added to the counters:
    whatever the step takes off a counter it adds to the pointers. *)
Theorem X9_sender_credits_conserved :
  forall cfg busy late i s,
    i = 0 \/ i = 1 ->
    exists cs ak did s' evs,
      array_get to_sender_packets_completed_streams i = Some cs
      /\ array_get to_sender_packets_acked_streams i = Some ak
      /\ run_sender_channel_step cfg busy late i s = Some (did, s', evs)
      /\ let w := ref_worker_interface s in
         let w' := ref_worker_interface s' in
         let o := ref_outbound s in
         let o' := ref_outbound s' in
         let regs := ref_sender_regs s in
         let regs' := ref_sender_regs s' in
         (ptr (local_rdptr w') + get_ptr_val regs' cs) mod ptr_wrap cfg
         = (ptr (local_rdptr w) + get_ptr_val regs cs + late cs) mod ptr_wrap cfg
         /\ (ptr (outbound_completion_ptr o') + get_ptr_val regs' cs) mod ptr_wrap cfg
            = (ptr (outbound_completion_ptr o) + get_ptr_val regs cs + late cs) mod ptr_wrap cfg
         /\ (ptr (local_ackptr w') + get_ptr_val regs' ak) mod ptr_wrap cfg
            = (ptr (local_ackptr w) + get_ptr_val regs ak + late ak) mod ptr_wrap cfg.
Proof.
  intros cfg busy late i s Hi.
  destruct (run_sender_channel_step_spec cfg busy late i s Hi)
    as (cs & ak & did & s' & evs1 & evs4 & Ecs & Eak & Hne & Hspec).
  cbv zeta in Hspec.
  destruct Hspec as (E & _ & _ & _ & _ & LR & OC & _ & LA & R & _).
  eexists cs, ak, did, s', _. split; [exact Ecs|]. split; [exact Eak|].
  split; [exact E|]. cbv zeta. unfold get_ptr_val in *.
  rewrite LR, OC, LA, !R, !Z.eqb_refl, !andb_true_r.
  assert (Hca : (cs =? ak) = false) by (apply Z.eqb_neq; exact Hne).
  assert (Hac : (ak =? cs) = false) by (apply Z.eqb_neq; congruence).
  rewrite Hca, Hac, !andb_false_r.
  unfold increment_n. 
  destruct (0 <? ref_sender_regs s cs); destruct (0 <? ref_sender_regs s ak + late ak);
    cbn [ptr]; rewrite ?Zplus_mod_idemp_l; repeat split; f_equal; lia.
Qed.

(** ** Runs of the main loop *)

Lemma receiver_forward_packet_no_routing cfg h :
  filter is_run_routing (receiver_forward_packet cfg h) = [].
Proof.
  unfold receiver_forward_packet.
  destruct (forward_type_cases cfg h) as [E | [E | [E | E]]]; rewrite E; reflexivity.
Qed.

(** A receiver step that returns leaves the channel buffer alone and does
    not yield. *)
Lemma run_receiver_channel_step_quiet cfg downstream hw r r' evs :
  run_receiver_channel_step cfg downstream hw r = Some (r', evs) ->
  ref_local_receiver_channel r' = ref_local_receiver_channel r
  /\ filter is_run_routing evs = [].
Proof.
  unfold run_receiver_channel_step.
  destruct (receiver_step_ack cfg hw r) as [[r1 e1]|] eqn:E1; [|discriminate].
  cbn [obind].
  assert (S1 : ref_local_receiver_channel r1 = ref_local_receiver_channel r
               /\ filter is_run_routing e1 = []).
  { unfold receiver_step_ack in E1.
    destruct (_ && _) in E1; [|inversion E1; split; reflexivity].
    destruct (receiver_send_received_ack cfg _ _) as [acked|] eqn:Ea in E1; [|discriminate].
    unfold receiver_send_received_ack in Ea.
    destruct (array_get _ _) in Ea; [|discriminate].
    cbn in Ea, E1. inversion Ea; subst. inversion E1. split; reflexivity. }
  destruct (receiver_step_forward cfg downstream r1) as [r2 e2] eqn:E2.
  assert (S2 : ref_local_receiver_channel r2 = ref_local_receiver_channel r1
               /\ filter is_run_routing e2 = []).
  { unfold receiver_step_forward in E2.
    destruct (negb (is_caught_up_to _ _)) in E2; [|inversion E2; split; reflexivity].
    destruct (can_forward_packet_completely cfg _ _) in E2;
      inversion E2; split; try reflexivity.
    apply receiver_forward_packet_no_routing. }
  destruct (receiver_step_flush cfg hw r2) as [r3 e3] eqn:E3.
  assert (S3 : ref_local_receiver_channel r3 = ref_local_receiver_channel r2
               /\ filter is_run_routing e3 = []).
  { unfold receiver_step_flush in E3.
    destruct (negb (is_caught_up_to _ _)) in E3; [|inversion E3; split; reflexivity].
    destruct (ncrisc_noc_nonposted_writes_sent hw) in E3;
      inversion E3; split; reflexivity. }
  destruct (receiver_step_completion cfg hw r3) as [[r4 e4]|] eqn:E4; [|discriminate].
  cbn [obind]. intros H. inversion H; subst. clear H.
  assert (S4 : ref_local_receiver_channel r' = ref_local_receiver_channel r3
               /\ filter is_run_routing e4 = []).
  { unfold receiver_step_completion in E4.
    destruct (negb (is_caught_up_to _ _)) in E4; [|inversion E4; split; reflexivity].
    destruct (negb (eth_txq_is_busy_at_completion hw)) in E4;
      [|inversion E4; split; reflexivity].
    destruct (receiver_send_completion_ack cfg _ _ _) as [[[a b] c]|] eqn:Ec in E4;
      [|discriminate].
    unfold receiver_send_completion_ack in Ec.
    destruct (array_get to_sender_packets_completed_streams _) in Ec; [|discriminate].
    destruct (array_get (ref_remote_eth_sender_wrptrs r3) _) in Ec; [|discriminate].
    cbn in Ec, E4. inversion Ec; subst. inversion E4. split; reflexivity. }
  destruct S1 as [C1 F1], S2 as [C2 F2], S3 as [C3 F3], S4 as [C4 F4].
  split; [congruence|].
  rewrite !filter_app, F1, F2, F3, F4. reflexivity.
Qed.

(** A sender step does not yield. *)
Lemma run_sender_channel_step_no_routing cfg busy late i s did s' evs :
  i = 0 \/ i = 1 ->
  run_sender_channel_step cfg busy late i s = Some (did, s', evs) ->
  filter is_run_routing evs = [].
Proof.
  intros Hi H.
  destruct (run_sender_channel_step_full cfg busy late i s Hi)
    as (cs & ak & did0 & s0 & _ & _ & Hf).
  cbv zeta in Hf. destruct Hf as (E & _).
  rewrite E in H. inversion H; subst. clear H E.
  repeat match goal with
         | |- context [if ?b then _ else _] => destruct b
         end; reflexivity.
Qed.

Lemma load_sender_refs_index st refs :
  load_sender_refs st = Some refs ->
  sender_channel_index st = 0 \/ sender_channel_index st = 1.
Proof.
  unfold load_sender_refs, array_get.
  destruct (Z.eqb_spec (sender_channel_index st) 0) as [E0|N0]; [auto|].
  destruct (Z.eqb_spec (sender_channel_index st) 1) as [E1|N1]; [auto|].
  discriminate.
Qed.

(** The state and the trace an iteration leaves behind. *)
Lemma service_channels_state cfg input st st' evs :
  service_channels cfg input st = Some (st', evs) ->
  exists refs did refs' evs1 rrefs' evs2,
    let i := sender_channel_index st in
    let st2 := with_sender_channel_index (store_sender_refs st refs') (1 - i) in
    let idle := did_nothing_count st in
    (i = 0 \/ i = 1)
    /\ load_sender_refs st = Some refs
    /\ run_sender_channel_step cfg (sender_eth_txq_is_busy input)
         (late_remote_reg_increments input) i refs
       = Some (did, refs', evs1)
    /\ run_receiver_channel_step cfg (downstream_edm_noc_interface input)
         (receiver_polls input) (load_receiver_refs st2)
       = Some (rrefs', evs2)
    /\ st' = with_did_nothing_count (store_receiver_refs st2 rrefs')
               (if did then 0
                else if SWITCH_INTERVAL cfg <? idle then 0 else idle + 1)
    /\ evs = evs1 ++ evs2
             ++ (if did then []
                 else if SWITCH_INTERVAL cfg <? idle then [ev_run_routing] else []).
Proof.
  unfold service_channels.
  destruct (load_sender_refs st) as [refs|] eqn:El; [|discriminate]. cbn [obind].
  destruct (run_sender_channel_step cfg _ _ _ refs) as [[[did refs'] evs1]|] eqn:Es;
    [|discriminate].
  cbn [obind].
  destruct (run_receiver_channel_step cfg _ _ _) as [[rrefs' evs2]|] eqn:Er; [|discriminate].
  cbn [obind].
  pose proof (run_receiver_channel_step_state _ _ _ _ _ _ Er) as Hst.
  cbn [load_receiver_refs ref_receiver_state with_sender_channel_index store_sender_refs
       receiver_state store_receiver_refs sender_channel_index] in *.
  rewrite Hst.
  assert (Heq : ReceiverState_eqb (receiver_state st) (receiver_state st) = true)
    by (destruct (receiver_state st); reflexivity).
  rewrite Heq. cbn [negb]. rewrite orb_false_r.
  unfold update_did_nothing_count.
  cbn [did_nothing_count store_receiver_refs with_sender_channel_index store_sender_refs].
  intros H. exists refs, did, refs', evs1, rrefs', evs2. cbv zeta.
  split; [exact (load_sender_refs_index st refs El)|].
  split; [reflexivity|]. split; [exact Es|]. split; [exact Er|].
  destruct did; [|destruct (SWITCH_INTERVAL cfg <? did_nothing_count st)];
    inversion H; subst; clear H; split; reflexivity.
Qed.

Lemma service_channels_frame cfg input st st' evs :
  service_channels cfg input st = Some (st', evs) ->
  let i := sender_channel_index st in
  (i = 0 \/ i = 1)
  /\ sender_channel_index st' = 1 - i
  /\ array_get (local_sender_channels st') (1 - i)
     = array_get (local_sender_channels st) (1 - i)
  /\ array_get (local_sender_channel_worker_interfaces st') (1 - i)
     = array_get (local_sender_channel_worker_interfaces st) (1 - i)
  /\ array_get (channel_connection_established st') (1 - i)
     = array_get (channel_connection_established st) (1 - i)
  /\ local_receiver_channel st' = local_receiver_channel st
  /\ sender_states st' = sender_states st
  /\ receiver_state st' = receiver_state st
  /\ termination_signal st' = termination_signal st.
Proof.
  intros H.
  destruct (service_channels_state cfg input st st' evs H)
    as (refs & did & refs' & evs1 & rrefs' & evs2 & Hs).
  cbv zeta in Hs. destruct Hs as (Hi & _ & _ & Er & -> & _).
  destruct (run_receiver_channel_step_quiet _ _ _ _ _ _ Er) as [Hch _].
  pose proof (run_receiver_channel_step_state _ _ _ _ _ _ Er) as Hst.
  cbn [load_receiver_refs with_sender_channel_index store_sender_refs
       ref_local_receiver_channel ref_receiver_state local_receiver_channel
       receiver_state] in Hch, Hst.
  cbv zeta.
  cbn [with_did_nothing_count store_receiver_refs with_sender_channel_index
       store_sender_refs sender_channel_index local_sender_channels
       local_sender_channel_worker_interfaces channel_connection_established
       local_receiver_channel sender_states receiver_state termination_signal].
  split; [exact Hi|]. split; [reflexivity|].
  repeat split; try assumption; destruct Hi as [-> | ->]; reflexivity.
Qed.


Lemma main_loop_cons cfg input rest st done :
  main_loop cfg (input :: rest) st done
  = match main_loop_iteration cfg input (apply_outside (outside input) st) with
    | None => Undefined
    | Some loop_return => Returned (apply_outside (outside input) st) done
    | Some (loop_continue st' evs) => main_loop cfg rest st' (done ++ evs)
    end.
Proof. reflexivity. Qed.

Lemma main_loop_iteration_continue cfg input st st' evs :
  main_loop_iteration cfg input st = Some (loop_continue st' evs) ->
  service_channels cfg input st = Some (st', evs).
Proof.
  unfold main_loop_iteration.
  destruct (got_immediate_termination_signal _); [discriminate|].
  destruct (_ && _); [discriminate|].
  destruct (service_channels cfg input st) as [[st1 evs1]|]; cbn [obind];
    [|discriminate].
  intros H; inversion H; reflexivity.
Qed.

Lemma main_loop_round_robin cfg inputs :
  forall st done st' evs,
    main_loop cfg inputs st done = StillRunning st' evs ->
    sender_channel_index st = 0 \/ sender_channel_index st = 1 ->
    sender_channel_index st'
    = (sender_channel_index st + Z.of_nat (length inputs)) mod 2
    /\ sender_states st' = sender_states st
    /\ receiver_state st' = receiver_state st.
Proof.
  induction inputs as [|input rest IH]; intros st done st' evs.
  - cbn [main_loop length]. intros H Hi; inversion H; subst.
    split; [|split; reflexivity].
    destruct Hi as [-> | ->]; reflexivity.
  - rewrite main_loop_cons.
    destruct (main_loop_iteration cfg input _) as [[|st1 evs1]|] eqn:Ei;
      [discriminate| |discriminate].
    apply main_loop_iteration_continue in Ei.
    destruct (service_channels_frame _ _ _ _ _ Ei)
      as (_ & Hidx & _ & _ & _ & _ & Hss & Hrs & _).
    cbn [apply_outside sender_channel_index sender_states receiver_state] in Hidx, Hss, Hrs.
    intros H Hi.
    destruct (IH st1 (done ++ evs1) st' evs H) as (Hidx' & Hss' & Hrs').
    { rewrite Hidx. destruct Hi as [-> | ->]; auto. }
    split; [|split; congruence].
    rewrite Hidx', Hidx. cbn [length]. rewrite Nat2Z.inj_succ.
    destruct Hi as [-> | ->].
    + f_equal. lia.
    + replace (1 - 1 + Z.of_nat (length rest)) with (Z.of_nat (length rest)) by lia.
      replace (1 + Z.succ (Z.of_nat (length rest)))
        with (Z.of_nat (length rest) + 1 * 2) by lia.
      rewrite Z_mod_plus_full. reflexivity.
Qed.

(** X11: the loop serves the two sender channels in turn.  After any
    number of polls that did not end the loop, the sender channel index is
    the parity of the number of polls, so channel 0 is served in the first
    iteration, and the sender and receiver state variables still hold the
    values the loop gave them on entry: nothing in the loop writes them. *)
Theorem X11_sender_channels_served_in_turn :
  forall cfg inputs st st' evs,
    run_fabric_edm_main_loop cfg inputs st = StillRunning st' evs ->
    sender_channel_index st' = Z.of_nat (length inputs) mod 2
    /\ sender_states st'
       = mkArray2 SENDER_WAIT_WORKER_HANDSHAKE SENDER_WAIT_WORKER_HANDSHAKE
    /\ receiver_state st' = RECEIVER_WAITING_FOR_ETH.
Proof.
  intros cfg inputs st st' evs H.
  unfold run_fabric_edm_main_loop in H.
  apply main_loop_round_robin in H; [|left; reflexivity].
  exact H.
Qed.

Lemma yields_app evs evs' : yields (evs ++ evs') = yields evs + yields evs'.
Proof. unfold yields. rewrite filter_app, length_app. lia. Qed.

Lemma service_channels_idle_count cfg input st st' evs :
  service_channels cfg input st = Some (st', evs) ->
  0 <= SWITCH_INTERVAL cfg ->
  0 <= did_nothing_count st <= SWITCH_INTERVAL cfg + 1 ->
  0 <= did_nothing_count st' <= SWITCH_INTERVAL cfg + 1
  /\ yields evs * (SWITCH_INTERVAL cfg + 2) + did_nothing_count st'
     <= did_nothing_count st + 1.
Proof.
  intros H HS Hc.
  destruct (service_channels_state cfg input st st' evs H)
    as (refs & did & refs' & evs1 & rrefs' & evs2 & Hs).
  cbv zeta in Hs. destruct Hs as (Hi & _ & Es & Er & -> & ->).
  destruct (run_receiver_channel_step_quiet _ _ _ _ _ _ Er) as [_ Hq].
  pose proof (run_sender_channel_step_no_routing _ _ _ _ _ _ _ _ Hi Es) as Hn.
  rewrite !yields_app. unfold yields at 1 2. rewrite Hn, Hq.
  cbn [with_did_nothing_count did_nothing_count length Z.of_nat Z.add].
  destruct did; [change (yields []) with 0; lia|].
  destruct (SWITCH_INTERVAL cfg <? did_nothing_count st) eqn:E.
  - apply Z.ltb_lt in E. change (yields [ev_run_routing]) with 1. lia.
  - apply Z.ltb_ge in E. change (yields []) with 0. lia.
Qed.

Lemma main_loop_yields cfg inputs :
  0 <= SWITCH_INTERVAL cfg ->
  forall st done n st' evs,
    main_loop cfg inputs st done = StillRunning st' evs
    \/ main_loop cfg inputs st done = Returned st' evs ->
    0 <= did_nothing_count st <= SWITCH_INTERVAL cfg + 1 ->
    yields done * (SWITCH_INTERVAL cfg + 2) + did_nothing_count st <= n ->
    0 <= did_nothing_count st' <= SWITCH_INTERVAL cfg + 1
    /\ yields evs * (SWITCH_INTERVAL cfg + 2) + did_nothing_count st'
       <= n + Z.of_nat (length inputs).
Proof.
  intros HS. induction inputs as [|input rest IH]; intros st done n st' evs.
  - cbn [main_loop length]. intros [H | H] Hc Hn; inversion H; subst. cbn. lia.
  - rewrite main_loop_cons.
    destruct (main_loop_iteration cfg input _) as [[|st1 evs1]|] eqn:Ei.
    + intros [H | H] Hc Hn; inversion H; subst.
      cbn [apply_outside did_nothing_count]. lia.
    + apply main_loop_iteration_continue in Ei.
      intros H Hc Hn.
      destruct (service_channels_idle_count _ _ _ _ _ Ei HS) as [Hc1 Hy1].
      { cbn [apply_outside did_nothing_count]. exact Hc. }
      cbn [apply_outside did_nothing_count] in Hy1.
      destruct (IH st1 (done ++ evs1) (n + 1) st' evs H Hc1) as [Hc' Hy'].
      { rewrite yields_app. lia. }
      split; [exact Hc'|]. cbn [length]. lia.
    + intros [H | H]; discriminate.
Qed.

(** X12: how often the loop yields.  With a switch interval that is not
    negative, the idle count stays between 0 and SWITCH_INTERVAL + 1
    throughout a run, and every call of [run_routing] is paid for by
    SWITCH_INTERVAL + 2 polls of its own: the number of yields times
    SWITCH_INTERVAL + 2, plus the idle count at the end, does not exceed
    the number of polls. *)
Theorem X12_yield_rate :
  forall cfg inputs st st' evs,
    0 <= SWITCH_INTERVAL cfg ->
    run_fabric_edm_main_loop cfg inputs st = StillRunning st' evs
    \/ run_fabric_edm_main_loop cfg inputs st = Returned st' evs ->
    0 <= did_nothing_count st' <= SWITCH_INTERVAL cfg + 1
    /\ yields evs * (SWITCH_INTERVAL cfg + 2) + did_nothing_count st'
       <= Z.of_nat (length inputs).
Proof.
  intros cfg inputs st st' evs HS H.
  unfold run_fabric_edm_main_loop in H.
  apply (main_loop_yields cfg inputs HS _ _ 0) in H.
  - exact H.
  - cbn. lia.
  - cbn. lia.
Qed.

Lemma main_loop_app cfg a b :
  forall st done,
    main_loop cfg (a ++ b) st done
    = match main_loop cfg a st done with
      | StillRunning st1 evs1 => main_loop cfg b st1 evs1
      | r => r
      end.
Proof.
  induction a as [|input rest IH]; intros st done.
  - reflexivity.
  - rewrite <- app_comm_cons, !main_loop_cons.
    destruct (main_loop_iteration cfg input _) as [[|st1 evs1]|]; try reflexivity.
    apply IH.
Qed.

(** X13: an immediate termination request ends the loop at the next poll,
    whatever state the channels are in.  If the loop is still running
    after some polls and the controller then writes IMMEDIATELY_TERMINATE,
    the loop returns at that poll with the trace it had: nothing is sent,
    acknowledged or forwarded any more, and what comes after is not looked
    at. *)
Theorem X13_immediate_termination :
  forall cfg before input rest st st1 evs,
    run_fabric_edm_main_loop cfg before st = StillRunning st1 evs ->
    controller_write (outside input) = Some IMMEDIATELY_TERMINATE ->
    run_fabric_edm_main_loop cfg (before ++ input :: rest) st
    = Returned (apply_outside (outside input) st1) evs.
Proof.
  intros cfg before input rest st st1 evs H Hc.
  unfold run_fabric_edm_main_loop in *.
  rewrite main_loop_app, H, main_loop_cons.
  unfold main_loop_iteration.
  cbn [apply_outside termination_signal]. rewrite Hc. reflexivity.
Qed.

Lemma write_slots_valid ws :
  forall b,
    all_slots_valid b ->
    Forall (fun w => valid_src_ch_id (snd w) = true) ws ->
    all_slots_valid (write_slots b ws).
Proof.
  unfold write_slots.
  induction ws as [|w ws IH]; intros b Hb Hws; cbn [fold_left].
  - exact Hb.
  - inversion Hws as [|w' ws' Hw Hrest]; subst.
    apply IH; [|exact Hrest].
    intros j. unfold set_packet_header. cbn [get_packet_header].
    destruct (j =? fst w); [exact Hw | apply Hb].
Qed.

Lemma main_loop_defined cfg inputs :
  forall st done,
    sender_channel_index st = 0 \/ sender_channel_index st = 1 ->
    all_slots_valid (local_receiver_channel st) ->
    link_writes_valid inputs ->
    main_loop cfg inputs st done <> Undefined.
Proof.
  induction inputs as [|input rest IH]; intros st done Hi Hv Hl.
  - discriminate.
  - rewrite main_loop_cons.
    inversion Hl as [|input' rest' Hin Hrest]; subst.
    set (st0 := apply_outside (outside input) st).
    assert (Hv0 : all_slots_valid (local_receiver_channel st0))
      by (apply write_slots_valid; assumption).
    assert (Hd : edm_state_defined cfg st0 = true).
    { unfold edm_state_defined, receiver_src_ids_valid, packet_at.
      cbn [load_receiver_refs ref_local_receiver_channel].
      rewrite !Hv0.
      subst st0. cbn [apply_outside sender_channel_index].
      destruct Hi as [-> | ->]; reflexivity. }
    destruct (service_channels_defined cfg input st0 Hd) as (st1 & evs1 & Es).
    unfold main_loop_iteration.
    destruct (got_immediate_termination_signal _); [discriminate|].
    destruct (_ && _); [discriminate|].
    rewrite Es. cbn [obind].
    destruct (service_channels_frame _ _ _ _ _ Es)
      as (_ & Hidx & _ & _ & _ & Hch & _).
    apply IH; [| |exact Hrest].
    + rewrite Hidx. subst st0. cbn [apply_outside sender_channel_index].
      destruct Hi as [-> | ->]; auto.
    + rewrite Hch. exact Hv0.
Qed.

(** X14: the loop never indexes an array of the sender channels out of
    range, provided the headers in the receiver channel name a sender
    channel: if every slot of the receiver channel does so on entry and
    every header that arrives over the link does so (the sender on the
    other side writes its channel index into each header it sends), the
    run is defined for any sequence of polls. *)
Theorem X14_loop_defined :
  forall cfg inputs st,
    all_slots_valid (local_receiver_channel st) ->
    link_writes_valid inputs ->
    run_fabric_edm_main_loop cfg inputs st <> Undefined.
Proof.
  intros cfg inputs st Hv Hl.
  unfold run_fabric_edm_main_loop.
  apply main_loop_defined; [left; reflexivity|exact Hv|exact Hl].
Qed.


(** ** A drained router *)

Lemma run_receiver_channel_step_at_rest cfg downstream hw r p :
  ref_receiver_channel_pointers r = mkReceiverPointers p p p p ->
  get_ptr_val (ref_receiver_regs r) to_receiver_pkts_sent_id <= 0 ->
  run_receiver_channel_step cfg downstream hw r
  = Some (r, [ev_get_ptr_val to_receiver_pkts_sent_id
                (get_ptr_val (ref_receiver_regs r) to_receiver_pkts_sent_id)]).
Proof.
  intros Hp Hv.
  assert (Hc : is_caught_up_to p p = true) by (unfold is_caught_up_to; apply Z.eqb_refl).
  apply Z.ltb_ge in Hv.
  unfold run_receiver_channel_step, receiver_step_ack. cbv zeta.
  rewrite Hv. cbn [andb obind].
  unfold receiver_step_forward. rewrite Hp. cbn [wr_sent_ptr ack_ptr]. rewrite Hc.
  cbn [negb].
  unfold receiver_step_flush. rewrite Hp. cbn [wr_flush_ptr wr_sent_ptr]. rewrite Hc.
  cbn [negb].
  unfold receiver_step_completion. rewrite Hp. cbn [completion_ptr wr_flush_ptr]. rewrite Hc.
  cbn [negb obind]. reflexivity.
Qed.

(** The sender step of a channel with nothing to send and no credit to
    collect. *)
Lemma run_sender_channel_step_idle cfg busy late i s cs ak :
  array_get to_sender_packets_completed_streams i = Some cs ->
  array_get to_sender_packets_acked_streams i = Some ak ->
  has_unsent_payload (ref_worker_interface s) = false ->
  get_ptr_val (ref_sender_regs s) cs = 0 ->
  get_ptr_val (ref_sender_regs s) ak + late ak = 0 ->
  exists did s' evs4,
    run_sender_channel_step cfg busy late i s
    = Some (did, s', [ev_get_ptr_val cs 0; ev_get_ptr_val ak 0] ++ evs4)
    /\ local_wrptr (ref_worker_interface s') = local_wrptr (ref_worker_interface s)
    /\ local_rdptr (ref_worker_interface s') = local_rdptr (ref_worker_interface s)
    /\ remote_producer_wrptr (ref_worker_interface s')
       = remote_producer_wrptr (ref_worker_interface s)
    /\ ref_outbound s' = ref_outbound s
    /\ (forall id, ref_sender_regs s' id = ref_sender_regs s id + late id)
    /\ filter is_eth_send evs4 = []
    /\ filter is_forward_event evs4 = []
    /\ (forall id, remote_increment id evs4 = 0).
Proof.
  intros Ecs Eak Hu Hc Ha.
  unfold run_sender_channel_step. rewrite Ecs, Eak. cbn [obind].
  assert (E1 : sender_step_send cfg busy i s = (false, s, [])).
  { unfold sender_step_send. cbv zeta. rewrite Hu.
    destruct (_ && _); reflexivity. }
  rewrite E1.
  assert (E2 : sender_step_completions cfg cs s = (0, s, [ev_get_ptr_val cs 0])).
  { unfold sender_step_completions. cbv zeta. rewrite Hc. reflexivity. }
  rewrite E2.
  assert (E3 : sender_step_acks cfg ak (land_remote_increments late s)
               = (0, land_remote_increments late s, [ev_get_ptr_val ak 0])).
  { unfold sender_step_acks. cbv zeta.
    cbn [land_remote_increments ref_sender_regs].
    unfold get_ptr_val in *. rewrite Ha. reflexivity. }
  rewrite E3.
  destruct (sender_step_connection cfg (land_remote_increments late s))
    as [[d4 s4] evs4] eqn:E4.
  destruct (sender_step_connection_spec cfg _ d4 s4 evs4 E4)
    as (D4 & Ch4 & O4 & R4 & W4 & A4 & Rd4 & P4 & Sem4 & C4 & Se4 & Ri4 & Rs4 & Nil4).
  destruct (sender_step_connection_full cfg _ d4 s4 evs4 E4) as (_ & Ev4).
  cbn [land_remote_increments ref_sender_regs ref_worker_interface ref_outbound
       ref_connection_established] in *.
  eexists _, s4, evs4. split; [reflexivity|].
  split; [exact W4|]. split; [exact Rd4|]. split; [exact P4|]. split; [exact O4|].
  split; [intros id; rewrite R4; reflexivity|].
  split; [exact Se4|]. split; [|exact Ri4].
  rewrite Ev4.
  repeat match goal with
         | |- context [if ?b then _ else _] => destruct b
         end; reflexivity.
Qed.

Lemma drained_receiver_at_rest cfg p :
  0 < ptr_wrap cfg ->
  receiver_ordered cfg p ->
  is_caught_up_to (completion_ptr p) (ack_ptr p) = true ->
  p = mkReceiverPointers (completion_ptr p) (completion_ptr p)
        (completion_ptr p) (completion_ptr p).
Proof.
  intros HW ((Hc & Hf & Hs & Ha) & Hfs & Hsa) Hcu.
  destruct p as [s f a c]. cbn [completion_ptr wr_flush_ptr wr_sent_ptr ack_ptr] in *.
  apply (is_caught_up_to_true_iff c a) in Hcu. subst a.
  rewrite (distance_behind_self cfg HW c) in Hsa.
  pose proof (distance_behind_bounds cfg HW c s) as Bs.
  pose proof (distance_behind_bounds cfg HW c f) as Bf.
  assert (Es : s = c).
  { apply (distance_behind_inj cfg HW c); [exact Hs | exact Hc|].
    rewrite (distance_behind_self cfg HW c). lia. }
  assert (Ef : f = c).
  { apply (distance_behind_inj cfg HW c); [exact Hf | exact Hc|].
    rewrite (distance_behind_self cfg HW c). lia. }
  subst s f. reflexivity.
Qed.

(** X15: a drained router is silent and stays drained.  When all channels
    are drained, the receiver's pointers are in order and no credit lands
    during the step, one iteration of the loop sends nothing over the
    link, returns no credit to the other side and forwards nothing, it
    moves neither the receiver's pointers nor the outbound view, and it
    leaves all channels drained: only a write from outside (a worker, the
    other side of the link) sets the router going again. *)
Theorem X15_drained_router_is_quiescent :
  forall cfg input st,
    0 < ptr_wrap cfg ->
    sender_channel_index st = 0 \/ sender_channel_index st = 1 ->
    receiver_ordered cfg (receiver_channel_pointers st) ->
    all_channels_drained (local_sender_channel_worker_interfaces st)
      (receiver_channel_pointers st) (stream_regs st) = true ->
    (forall id, late_remote_reg_increments input id = 0) ->
    exists st' evs,
      service_channels cfg input st = Some (st', evs)
      /\ all_channels_drained (local_sender_channel_worker_interfaces st')
           (receiver_channel_pointers st') (stream_regs st') = true
      /\ receiver_channel_pointers st' = receiver_channel_pointers st
      /\ outbound_to_receiver_channel_pointers st'
         = outbound_to_receiver_channel_pointers st
      /\ filter is_eth_send evs = []
      /\ filter is_forward_event evs = []
      /\ (forall id, remote_increment id evs = 0).
Proof.
  intros cfg input st HW Hi Hord Hd Hlate.
  pose proof Hd as Hd0.
  apply all_channels_drained_iff in Hd. unfold drained_as_specified in Hd.
  cbv zeta in Hd.
  destruct Hd as ((U0 & U1) & (C0 & C1) & Hcu & R0 & R1 & R2 & R3 & R4).
  pose proof (drained_receiver_at_rest cfg _ HW Hord Hcu) as Hrest.
  set (i := sender_channel_index st) in *.
  assert (exists w cs ak,
             array_get (local_sender_channel_worker_interfaces st) i = Some w
             /\ array_get to_sender_packets_completed_streams i = Some cs
             /\ array_get to_sender_packets_acked_streams i = Some ak
             /\ has_unsent_payload w = false
             /\ all_eth_packets_completed w = true
             /\ get_ptr_val (stream_regs st) cs = 0
             /\ get_ptr_val (stream_regs st) ak = 0)
    as (w & cs & ak & Ew & Ecs & Eak & Hu & Hcomp & Hc & Ha).
  { destruct Hi as [-> | ->]; cbn; eexists _, _, _; repeat split; assumption. }
  assert (exists ch est,
             array_get (local_sender_channels st) i = Some ch
             /\ array_get (channel_connection_established st) i = Some est)
    as (ch & est & Ech & Eest)
    by (destruct Hi as [-> | ->]; cbn; eexists _, _; split; reflexivity).
  assert (El : load_sender_refs st
               = Some (mkSenderRefs ch w (outbound_to_receiver_channel_pointers st)
                         est (stream_regs st))).
  { unfold load_sender_refs. fold i. rewrite Ech, Ew, Eest. reflexivity. }
  set (refs := mkSenderRefs ch w (outbound_to_receiver_channel_pointers st)
                 est (stream_regs st)) in *.
  destruct (run_sender_channel_step_idle cfg (sender_eth_txq_is_busy input)
              (late_remote_reg_increments input) i refs cs ak Ecs Eak Hu Hc)
    as (did & refs' & evs4 & Es & LW & LR & LP & LO & LRegs & F4 & Fw4 & Ri4).
  { cbn [refs ref_sender_regs]. rewrite Ha, Hlate. reflexivity. }
  cbn [refs ref_worker_interface ref_outbound ref_sender_regs] in LW, LR, LP, LO, LRegs.
  assert (Hregs : forall id, ref_sender_regs refs' id = stream_regs st id)
    by (intros id; rewrite LRegs, Hlate; lia).
  set (st2 := with_sender_channel_index (store_sender_refs st refs') (1 - i)).
  assert (Er : run_receiver_channel_step cfg (downstream_edm_noc_interface input)
                 (receiver_polls input) (load_receiver_refs st2)
               = Some (load_receiver_refs st2, [ev_get_ptr_val to_receiver_pkts_sent_id 0])).
  { rewrite (run_receiver_channel_step_at_rest cfg _ _ (load_receiver_refs st2)
               (completion_ptr (receiver_channel_pointers st))).
    - cbn [st2 load_receiver_refs ref_receiver_regs with_sender_channel_index
           store_sender_refs stream_regs]. unfold get_ptr_val in *.
      rewrite Hregs, R0. reflexivity.
    - cbn [st2 load_receiver_refs ref_receiver_channel_pointers with_sender_channel_index
           store_sender_refs receiver_channel_pointers]. exact Hrest.
    - cbn [st2 load_receiver_refs ref_receiver_regs with_sender_channel_index
           store_sender_refs stream_regs]. unfold get_ptr_val in *.
      rewrite Hregs, R0. lia. }
  unfold service_channels. rewrite El. cbn [obind]. fold i. rewrite Es. cbn [obind].
  change (sender_channel_index (store_sender_refs st refs')) with i.
  fold st2. rewrite Er. cbn [obind].
  destruct (update_did_nothing_count cfg _ _) as [st4 evs3] eqn:Eu.
  eexists st4, _.
  split; [reflexivity|].
  assert (Hst4 : local_sender_channel_worker_interfaces st4
                 = array_set (local_sender_channel_worker_interfaces st) i
                     (ref_worker_interface refs')
                 /\ receiver_channel_pointers st4 = receiver_channel_pointers st
                 /\ outbound_to_receiver_channel_pointers st4 = ref_outbound refs'
                 /\ stream_regs st4 = ref_sender_regs refs'
                 /\ (evs3 = [] \/ evs3 = [ev_run_routing])).
  { unfold update_did_nothing_count in Eu.
    destruct (_ || _) in Eu; [|destruct (SWITCH_INTERVAL cfg <? _) in Eu];
      inversion Eu; subst st4 evs3; cbn; auto 10. }
  destruct Hst4 as (Hw4 & Hp4 & Ho4 & Hr4 & Hev3).
  split.
  { apply all_channels_drained_iff. unfold drained_as_specified. cbv zeta.
    rewrite Hw4, Hp4, Hr4. unfold get_ptr_val in *. rewrite !Hregs.
    assert (Hu' : has_unsent_payload (ref_worker_interface refs') = false)
      by (unfold has_unsent_payload in *; rewrite LW, LP; exact Hu).
    assert (Hc' : all_eth_packets_completed (ref_worker_interface refs') = true)
      by (unfold all_eth_packets_completed in *; rewrite LW, LR; exact Hcomp).
    destruct Hi as [Ei | Ei]; rewrite Ei; cbn [array_set Z.eqb elt0 elt1];
      repeat split; assumption. }
  split; [exact Hp4|]. split; [rewrite Ho4; exact LO|].
  assert (Hy : filter is_eth_send evs3 = [] /\ filter is_forward_event evs3 = []
               /\ forall id, remote_increment id evs3 = 0)
    by (destruct Hev3 as [-> | ->]; repeat split; reflexivity).
  destruct Hy as (Y1 & Y2 & Y3).
  split; [rewrite !filter_app, F4, Y1; reflexivity|].
  split; [rewrite !filter_app, Fw4, Y2; reflexivity|].
  intros id. rewrite !remote_increment_app, Ri4, Y3. reflexivity.
Qed.
(** * The further properties on concrete inputs *)

Lemma X2_witness :
  0 < 3 < 2 ^ 32
  /\ let '(r', ws) :=
       record_packet_headers 32 (new_PacketHeaderRecorder 4096 3) [100; 200; 300; 400] in
     buffer_index r' = 1
     /\ map write_dest_l1_addr ws = [4096; 4128; 4160; 4096].
Proof.
  assert (Hn : 0 < 3 < 2 ^ 32) by (split; reflexivity).
  split; [exact Hn|].
  destruct (X2_packet_header_recorder_is_a_ring 32 4096 [100; 200; 300; 400]) as [Hring _].
  specialize (Hring 3 Hn).
  destruct (record_packet_headers 32 (new_PacketHeaderRecorder 4096 3) [100; 200; 300; 400])
    as [r' ws].
  destruct Hring as (Hidx & _ & _ & Hdest).
  split; [exact Hidx | exact Hdest].
Defined.

Lemma X3_witness :
  has_space_for_packet example_config (mkOutbound (mkPtr 2) (mkPtr 0) (mkPtr 254)) = false
  /\ has_incomplete_eth_packets (mkOutbound (mkPtr 2) (mkPtr 0) (mkPtr 254)) = true.
Proof.
  assert (H1 : 0 < ptr_wrap example_config) by reflexivity.
  assert (H2 : 0 <= ptr (mkPtr 254) < ptr_wrap example_config)
    by (split; [discriminate | reflexivity]).
  assert (H3 : Z.of_nat 4 < ptr_wrap example_config) by reflexivity.
  exact (X3_outbound_window_capacity example_config (mkPtr 254) (mkPtr 0) 4 H1 H2 H3).
Defined.


Lemma X5_witness :
  exists r',
    run_receiver_channel_step example_config (mkDownstream true) idle_polls resting_refs
    = Some (r',
            [ev_get_ptr_val to_receiver_pkts_sent_id 1;
             ev_increment_local_update_ptr_val to_receiver_pkts_sent_id (-1);
             ev_remote_update_ptr_val to_sender_1_pkts_acked_id 1;
             ev_execute_chip_unicast_to_local_chip (example_packet 1 1);
             ev_eth_clear_sender_channel_ack 0;
             ev_remote_update_ptr_val to_sender_1_pkts_completed_id 1])
    /\ ref_receiver_channel_pointers r'
       = mkReceiverPointers (mkPtr 1) (mkPtr 1) (mkPtr 1) (mkPtr 1).
Proof.
  assert (H1 : 1 < ptr_wrap example_config) by reflexivity.
  assert (H2 : in_range example_config (mkPtr 0))
    by (split; [discriminate | reflexivity]).
  destruct (X5_receiver_pipeline_in_one_step example_config (mkDownstream true) idle_polls
              resting_refs (mkPtr 0) H1 H2 eq_refl eq_refl eq_refl eq_refl eq_refl
              eq_refl eq_refl)
    as (r' & ack_stream & completion_stream & H).
  cbv zeta in H. destruct H as (Ea & Ec & E & Hp).
  inversion Ea; subst ack_stream. inversion Ec; subst completion_stream.
  exists r'. split; [exact E | exact Hp].
Defined.


Lemma X7_witness :
  exists did s' flow,
    run_sender_channel_step example_config false zero_regs 0 closing_refs
    = Some (did, s', flow ++ [ev_teardown_connection 1])
    /\ ref_connection_established s' = false
    /\ local_rdptr (ref_worker_interface s') = mkPtr 1
    /\ forall v, ~ In (ev_teardown_connection v) flow.
Proof.
  destruct (X7_sender_connection_lifecycle example_config false zero_regs 0 closing_refs
              (or_introl eq_refl)) as (cs & did & s' & flow & Ecs & H).
  inversion Ecs; subst cs.
  cbv zeta in H. destruct H as (E & Hc & Hrd & Hno & _).
  exists did, s', flow.
  assert (Hrd' : local_rdptr (ref_worker_interface s') = mkPtr 1) by (rewrite Hrd; reflexivity).
  split; [rewrite E, Hrd'; reflexivity|].
  split; [rewrite Hc; reflexivity|]. split; [exact Hrd' | exact Hno].
Defined.


Lemma X9_witness :
  exists did s' evs,
    run_sender_channel_step example_config false zero_regs 0 closing_refs
    = Some (did, s', evs)
    /\ (ptr (local_rdptr (ref_worker_interface s'))
        + get_ptr_val (ref_sender_regs s') to_sender_0_pkts_completed_id)
       mod ptr_wrap example_config = 1.
Proof.
  destruct (X9_sender_credits_conserved example_config false zero_regs 0 closing_refs
              (or_introl eq_refl)) as (cs & ak & did & s' & evs & Ecs & Eak & E & H).
  inversion Ecs; subst cs.
  cbv zeta in H. destruct H as (Hrd & _).
  exists did, s', evs. split; [exact E|]. rewrite Hrd. reflexivity.
Defined.


Lemma X11_witness :
  exists st' evs,
    run_fabric_edm_main_loop example_config c3_inputs (fresh_memory KEEP_RUNNING)
    = StillRunning st' evs
    /\ sender_channel_index st' = 0
    /\ receiver_state st' = RECEIVER_WAITING_FOR_ETH.
Proof.
  destruct (run_fabric_edm_main_loop example_config c3_inputs (fresh_memory KEEP_RUNNING))
    as [st' evs|st' evs|] eqn:E; try (vm_compute in E; discriminate).
  destruct (X11_sender_channels_served_in_turn _ _ _ _ _ E) as (Hidx & _ & Hrs).
  exists st', evs. split; [reflexivity|]. split; [exact Hidx | exact Hrs].
Defined.

Lemma X12_witness :
  exists st' evs,
    run_fabric_edm_main_loop example_config c7_inputs (fresh_memory KEEP_RUNNING)
    = StillRunning st' evs
    /\ yields evs * 2 + did_nothing_count st' <= 2.
Proof.
  destruct (run_fabric_edm_main_loop example_config c7_inputs (fresh_memory KEEP_RUNNING))
    as [st' evs|st' evs|] eqn:E; try (vm_compute in E; discriminate).
  assert (HS : 0 <= SWITCH_INTERVAL example_config) by discriminate.
  destruct (X12_yield_rate example_config c7_inputs (fresh_memory KEEP_RUNNING) st' evs HS
              (or_introl E)) as (_ & H).
  exists st', evs. split; [reflexivity | exact H].
Defined.

Lemma X13_witness :
  exists st1 evs,
    run_fabric_edm_main_loop example_config c7_inputs (fresh_memory KEEP_RUNNING)
    = StillRunning st1 evs
    /\ run_fabric_edm_main_loop example_config (c7_inputs ++ immediate_input :: c3_inputs)
         (fresh_memory KEEP_RUNNING)
       = Returned (apply_outside (outside immediate_input) st1) evs.
Proof.
  destruct (run_fabric_edm_main_loop example_config c7_inputs (fresh_memory KEEP_RUNNING))
    as [st1 evs|st1 evs|] eqn:E; try (vm_compute in E; discriminate).
  exists st1, evs. split; [reflexivity|].
  exact (X13_immediate_termination example_config c7_inputs immediate_input c3_inputs
           (fresh_memory KEEP_RUNNING) st1 evs E eq_refl).
Defined.

Lemma X14_witness :
  run_fabric_edm_main_loop example_config (c7_inputs ++ c3_inputs) (fresh_memory KEEP_RUNNING)
  <> Undefined.
Proof.
  apply X14_loop_defined.
  - intros j. reflexivity.
  - repeat constructor.
Defined.

Lemma X15_witness :
  exists st' evs,
    service_channels example_config immediate_input
      (main_loop_entry (fresh_memory KEEP_RUNNING))
    = Some (st', evs)
    /\ all_channels_drained (local_sender_channel_worker_interfaces st')
         (receiver_channel_pointers st') (stream_regs st') = true
    /\ filter is_eth_send evs = [].
Proof.
  assert (HW : 0 < ptr_wrap example_config) by reflexivity.
  assert (Hord : receiver_ordered example_config
                   (receiver_channel_pointers (main_loop_entry (fresh_memory KEEP_RUNNING))))
    by (repeat split; vm_compute; congruence).
  destruct (X15_drained_router_is_quiescent example_config immediate_input
              (main_loop_entry (fresh_memory KEEP_RUNNING)) HW (or_introl eq_refl) Hord
              eq_refl (fun id => eq_refl))
    as (st' & evs & E & Hd & _ & _ & Hs & _).
  exists st', evs. split; [exact E|]. split; [exact Hd | exact Hs].
Defined.
